(** * ProyectoAsist: registro de asistencia de profesores

    Shallow embedding of [ProyectoPF/Proyecto.py] (class
    [SistemaRegistroAsistencia]) and of the schema script [ProyectoPF/cr.py].

    The program is a Streamlit page over a SQLite file.  The embedding keeps
    the pieces the program is made of:

    - the SQLite file as a record of tables ([base_datos]); the table
      [asistencia] may be absent, which is why the program issues
      [CREATE TABLE IF NOT EXISTS] before inserting, and its AUTOINCREMENT
      identifiers stop at the largest rowid, where an INSERT is refused;
    - the SQL statements of the program as functions over those tables
      (WHERE as [filter], GROUP BY as [agrupar], COUNT and SUM(CASE ..) as
      lengths of filtered groups);
    - Python's insertion-ordered [dict] as [PyDict.t];
    - the methods of the class as computations in a state-and-exception
      monad [M] over a [mundo] made of the database, the files written and
      the messages shown on the page.

    Names follow the source (Spanish).

    Outside the embedding: the layout calls of the page (titles, tabs,
    sidebar, the texts of the Info page); the state of the connection
    itself, which [cerrar_conexion] ends; failures of the storage medium (a
    full disk, a locked file, an unwritable PDF destination) and what the
    FPDF library does with the calls it receives (page breaks, encoding of
    the text); NULL in the columns [profesor], [fecha] and [asistio] of
    [asistencia], whose widgets always return a value ([materia] and
    [carrera] can be NULL and are modelled so); and the default
    [fecha=datetime.now()] of [registrar_asistencia], since the page always
    passes the [datetime.date] of its date widget. *)

From Stdlib Require Import Floats DecimalString.
From stdpp Require Import base option list strings gmap.

Open Scope string_scope.

(** ** Python values *)

(** [datetime.date], as returned by [st.date_input]. *)
Record date := { year : nat; month : nat; day : nat }.

(** [str.zfill]-like padding, used by [date.isoformat]. *)
Fixpoint ceros (n : nat) : string :=
  match n with
  | O => ""
  | S n' => "0" +:+ ceros n'
  end.

Definition zfill (ancho : nat) (s : string) : string :=
  ceros (ancho - String.length s) +:+ s.

Definition str_nat (n : nat) : string := NilEmpty.string_of_uint (Nat.to_uint n).

(** [date.isoformat()] is ["%04d-%02d-%02d" % (year, month, day)]. *)
Definition isoformat (d : date) : string :=
  zfill 4 (str_nat (year d)) +:+ "-" +:+ zfill 2 (str_nat (month d))
    +:+ "-" +:+ zfill 2 (str_nat (day d)).

(** The values that travel from a [fetchall()] row or a widget into the
    report: [None], [int], [float], [str] and [datetime.date]. *)
Inductive py_obj :=
| PyNone
| PyInt (z : Z)
| PyFloat (f : float)
| PyStr (s : string)
| PyDate (d : date).

Definition str_Z (z : Z) : string :=
  match z with
  | Z0 => "0"
  | Zpos p => str_nat (Pos.to_nat p)
  | Zneg p => "-" +:+ str_nat (Pos.to_nat p)
  end.

(** What the program uses from outside the repository and the embedding
    does not re-implement: SQLite's scalar function [ROUND(x, n)] on REAL
    values and Python's [str] on a [float]. *)
Class Plataforma := {
  ROUND : float → Z → float;
  str_float : float → string
}.

(** Python's [str(item)]. *)
Definition str `{Plataforma} (o : py_obj) : string :=
  match o with
  | PyNone => "None"
  | PyInt z => str_Z z
  | PyFloat f => str_float f
  | PyStr s => s
  | PyDate d => isoformat d
  end.

(** ** Python's [dict] with [str] keys and values

    Keys are unique and keep the order of their first insertion; assigning to
    a key that is present replaces its value in place. *)
Module PyDict.

Definition t := list (string * string).

Definition empty : t := [].

(** [d[k] = v] *)
Fixpoint set (d : t) (k v : string) : t :=
  match d with
  | [] => [(k, v)]
  | (k', v') :: d' =>
      if decide (k' = k) then (k', v) :: d' else (k', v') :: set d' k v
  end.

(** [d.get(k)] *)
Fixpoint get (d : t) (k : string) : option string :=
  match d with
  | [] => None
  | (k', v') :: d' => if decide (k' = k) then Some v' else get d' k
  end.

(** [list(d.keys())] *)
Definition keys (d : t) : list string := d.*1.

(** [{row[0]: row[1] for row in rows}] *)
Definition comprehension (rows : list (string * string)) : t :=
  foldl (λ d row, set d row.1 row.2) empty rows.

End PyDict.

(** ** Exceptions *)

(** [sqlite3.OperationalError] with its message; a call returns a value or
    raises. *)
Inductive excepcion :=
| OperationalError (msg : string).

Inductive resultado (A : Type) :=
| Normal (a : A)
| Lanza (e : excepcion).
Arguments Normal {A} a.
Arguments Lanza {A} e.

(** ** The SQLite file [FIME_v2.db] *)

(** A row of [asistencia]; the columns are those of the CREATE TABLE
    statement in [registrar_asistencia] and in [cr.py].  [materia] and
    [carrera] are NULL when the page passes [None]: the subject when
    [st.selectbox] has no subject to offer, the program when the form says
    ["No Aplica"]. *)
Module Asistencia.
Record fila := {
  id : Z;
  profesor : string;
  materia : option string;
  carrera : option string;
  fecha : string;
  asistio : string
}.
End Asistencia.

(** The table [asistencia] with its AUTOINCREMENT counter (the entry of
    [sqlite_sequence]): the largest [id] ever handed out. *)
Record tabla_asistencia := {
  filas : list Asistencia.fila;
  secuencia : Z
}.

(** The reference tables carry their [rowid]; they are filled from outside
    the program, which only reads them and takes them to exist.  Their
    CREATE TABLE statements are not in the repository: the columns are
    those the SELECT statements of [cargar_datos] name. *)
Record base_datos := {
  tabla_profesores : list (Z * string);        (* rowid, nombre *)
  tabla_materias : list (Z * string);          (* rowid, nombre *)
  tabla_carreras : list string;                (* nombre *)
  tabla_profesor_materia : list (Z * Z);       (* profesor_id, materia_id *)
  asistencia : option tabla_asistencia         (* None: no such table *)
}.

(** [SELECT profesores.nombre, materias.nombre FROM profesor_materia
     JOIN profesores ON profesor_materia.profesor_id = profesores.rowid
     JOIN materias ON profesor_materia.materia_id = materias.rowid],
    as nested loops in the order of the FROM clause. *)
Definition SELECT_profesor_materia (b : base_datos) : list (string * string) :=
  pm ← tabla_profesor_materia b;
  p ← filter (λ p, p.1 = pm.1) (tabla_profesores b);
  m ← filter (λ m, m.1 = pm.2) (tabla_materias b);
  [(p.2, m.2)].

(** [CREATE TABLE IF NOT EXISTS asistencia (...)] *)
Definition CREATE_TABLE_asistencia (b : base_datos) : base_datos :=
  match asistencia b with
  | Some _ => b
  | None =>
      {| tabla_profesores := tabla_profesores b;
         tabla_materias := tabla_materias b;
         tabla_carreras := tabla_carreras b;
         tabla_profesor_materia := tabla_profesor_materia b;
         asistencia := Some {| filas := []; secuencia := 0 |} |}
  end.

Definition con_asistencia (b : base_datos) (t : tabla_asistencia) : base_datos :=
  {| tabla_profesores := tabla_profesores b;
     tabla_materias := tabla_materias b;
     tabla_carreras := tabla_carreras b;
     tabla_profesor_materia := tabla_profesor_materia b;
     asistencia := Some t |}.

(** The [id] an AUTOINCREMENT column gives to the next row: one more than
    the largest of the counter and the identifiers in the table. *)
Definition siguiente_id (t : tabla_asistencia) : Z :=
  (foldr Z.max (secuencia t) (Asistencia.id <$> filas t) + 1)%Z.

(** The largest rowid of SQLite, [2^63 - 1]. *)
Definition MAX_ROWID : Z := 9223372036854775807.

(** [INSERT INTO asistencia (profesor, materia, carrera, fecha, asistio)
     VALUES (?, ?, ?, ?, ?)] on an existing table.  An AUTOINCREMENT column
     never reuses an identifier: once the largest rowid has been handed out
     the statement fails with SQLITE_FULL, which [sqlite3] raises as
     [OperationalError], and the table stays as it was. *)
Definition INSERT_asistencia (t : tabla_asistencia)
    (profesor : string) (materia carrera : option string)
    (fecha asistio : string) : resultado tabla_asistencia :=
  let nuevo := siguiente_id t in
  if decide (nuevo ≤ MAX_ROWID)%Z then
    Normal
      {| filas := (filas t ++
            [ {| Asistencia.id := nuevo;
                 Asistencia.profesor := profesor;
                 Asistencia.materia := materia;
                 Asistencia.carrera := carrera;
                 Asistencia.fecha := fecha;
                 Asistencia.asistio := asistio |} ])%list;
         secuencia := nuevo |}
  else Lanza (OperationalError "database or disk is full").

(** [DELETE FROM asistencia]: every row goes, the counter stays. *)
Definition DELETE_asistencia (t : tabla_asistencia) : resultado tabla_asistencia :=
  Normal {| filas := []; secuencia := secuencia t |}.


(** *** The SELECT statements of the reports *)

(** [x BETWEEN a AND b] on TEXT values is [x >= a AND x <= b] under the
    BINARY collation: bytes are compared one by one and a proper prefix
    sorts first, which is what [String.leb] computes. *)
Definition BETWEEN (x a b : string) : bool := String.leb a x && String.leb x b.

(** [a = b] in a WHERE clause, on TEXT values that can be NULL: it holds
    only when both sides are present and equal. *)
Definition igual_SQL (a b : option string) : Prop :=
  match a, b with
  | Some x, Some y => x = y
  | _, _ => False
  end.

#[global] Instance igual_SQL_dec a b : Decision (igual_SQL a b).
Proof. destruct a, b; simpl; apply _. Defined.

(** [GROUP BY]: one group per distinct key, holding the rows of that key in
    table order.  SQL leaves the order of the groups to the engine; the
    properties below look groups up by their key. *)
Definition agrupar {A K : Type} `{EqDecision K} (clave : A → K)
    (l : list A) : list (K * list A) :=
  (λ k, (k, filter (λ r, clave r = k) l)) <$> remove_dups (clave <$> l).

(** [SUM(CASE WHEN asistio = valor THEN 1 ELSE 0 END)] over a group. *)
Definition SUM_CASE_asistio (valor : string) (g : list Asistencia.fila) : nat :=
  length (filter (λ r, Asistencia.asistio r = valor) g).

(** A row of the two detailed reports.  The report by subject names its
    last two columns [asistencias] and [inasistencias]; the expressions are
    the same. *)
Module Reporte.
Record fila := {
  carrera : option string;
  profesor : string;
  materia : option string;
  total_clases : nat;
  clases_impartidas : nat;
  clases_perdidas : nat
}.

Definition clave (r : fila) : option string * string * option string :=
  (carrera r, profesor r, materia r).

(** The row as the tuple [fetchall()] hands to Python. *)
Definition tupla (r : fila) : list py_obj :=
  [ from_option PyStr PyNone (carrera r); PyStr (profesor r);
    from_option PyStr PyNone (materia r);
    PyInt (Z.of_nat (total_clases r)); PyInt (Z.of_nat (clases_impartidas r));
    PyInt (Z.of_nat (clases_perdidas r)) ].
End Reporte.

(** [GROUP BY carrera, profesor, materia]; the rows with NULL in a column
    of the key form one group. *)
Definition clave_reporte (r : Asistencia.fila)
    : option string * string * option string :=
  (Asistencia.carrera r, Asistencia.profesor r, Asistencia.materia r).

(** [SELECT carrera, profesor, materia, COUNT( * ),
      SUM(CASE WHEN asistio = 'Sí' THEN 1 ELSE 0 END),
      SUM(CASE WHEN asistio = 'No' THEN 1 ELSE 0 END)] of one group. *)
Definition fila_reporte
    (kg : (option string * string * option string) * list Asistencia.fila)
    : Reporte.fila :=
  {| Reporte.carrera := kg.1.1.1;
     Reporte.profesor := kg.1.1.2;
     Reporte.materia := kg.1.2;
     Reporte.total_clases := length kg.2;
     Reporte.clases_impartidas := SUM_CASE_asistio "Sí" kg.2;
     Reporte.clases_perdidas := SUM_CASE_asistio "No" kg.2 |}.

(** [... FROM asistencia WHERE profesor = ? AND fecha BETWEEN ? AND ?
     GROUP BY carrera, profesor, materia] *)
Definition SELECT_reporte_profesor (profesor inicio fin : string)
    (t : list Asistencia.fila) : list Reporte.fila :=
  fila_reporte <$>
    agrupar clave_reporte
      (filter (λ r, Asistencia.profesor r = profesor
                    ∧ BETWEEN (Asistencia.fecha r) inicio fin) t).

(** [... FROM asistencia WHERE materia = ? AND fecha BETWEEN ? AND ?
     GROUP BY carrera, profesor, materia].  The bound value is [None] (NULL)
     when [st.selectbox] has no option to offer; [materia = NULL] holds for
     no row, and no value equals a NULL [materia]. *)
Definition SELECT_reporte_materia (materia : option string) (inicio fin : string)
    (t : list Asistencia.fila) : list Reporte.fila :=
  fila_reporte <$>
    agrupar clave_reporte
      (filter (λ r, igual_SQL (Asistencia.materia r) materia
                    ∧ BETWEEN (Asistencia.fecha r) inicio fin) t).

(** A row of the global statistics. *)
Module Estadistica.
Record fila := {
  carrera : option string;
  total_clases : nat;
  tasa_cumplimiento : float
}.

Definition tupla (r : fila) : list py_obj :=
  [ from_option PyStr PyNone (carrera r); PyInt (Z.of_nat (total_clases r));
    PyFloat (tasa_cumplimiento r) ].
End Estadistica.

(** An INTEGER operand of a REAL operation is converted to REAL (binary64).
    Counts are numbers of rows of one table, far below the 2^63 at which the
    conversion through [Uint63] would wrap. *)
Definition REAL_of_INTEGER (n : nat) : float :=
  PrimFloat.of_uint63 (Uint63.of_Z (Z.of_nat n)).

(** [ROUND(SUM(CASE WHEN asistio = 'Sí' THEN 1 ELSE 0 END) * 100.0 / COUNT( * ), 2)] *)
Definition tasa `{Plataforma} (impartidas total : nat) : float :=
  ROUND (REAL_of_INTEGER impartidas * 100 / REAL_of_INTEGER total)%float 2.

Definition fila_estadistica `{Plataforma} (kg : option string * list Asistencia.fila)
    : Estadistica.fila :=
  {| Estadistica.carrera := kg.1;
     Estadistica.total_clases := length kg.2;
     Estadistica.tasa_cumplimiento := tasa (SUM_CASE_asistio "Sí" kg.2) (length kg.2) |}.

(** [SELECT carrera, COUNT( * ), ROUND(...) FROM asistencia GROUP BY carrera] *)
Definition SELECT_estadisticas `{Plataforma} (t : list Asistencia.fila)
    : list Estadistica.fila :=
  fila_estadistica <$> agrupar Asistencia.carrera t.

(** ** The PDF document, as the calls made on the [FPDF] object *)
Module FPDF.
Inductive op :=
| add_page
| set_font (family style : string) (size : nat)
| cell (w h : nat) (txt : string) (border ln : nat) (align : string)
| ln (h : option nat).

Record t := { orientation : string; ops : list op }.
End FPDF.

(** ** The page: state, exceptions and messages *)

(** What Streamlit shows. *)
Inductive st_evento :=
| st_error (msg : string)
| st_warning (msg : string)
| st_success (msg : string)
| st_table (columns : list string) (data : list (list py_obj)).

(** The database behind [self.conn], the files written by [pdf.output] and
    the messages on the page. *)
Record mundo := {
  bd : base_datos;
  archivos : gmap string FPDF.t;
  pantalla : list st_evento
}.

Definition M (A : Type) : Type := mundo → resultado A * mundo.

#[global] Instance M_ret : MRet M := λ A a w, (Normal a, w).

#[global] Instance M_bind : MBind M := λ A B f m w,
  match m w with
  | (Normal a, w') => f a w'
  | (Lanza e, w') => (Lanza e, w')
  end.

(** The page after one more message. *)
Definition con_mensaje (w : mundo) (e : st_evento) : mundo :=
  {| bd := bd w; archivos := archivos w; pantalla := (pantalla w ++ [e])%list |}.

(** [st.error], [st.warning], [st.success], [st.table] *)
Definition emitir (e : st_evento) : M () := λ w, (Normal (), con_mensaje w e).

(** [cursor.execute(SELECT ... FROM asistencia ...); cursor.fetchall()] *)
Definition fetchall {A : Type} (consulta : list Asistencia.fila → A) : M A := λ w,
  match asistencia (bd w) with
  | Some t => (Normal (consulta (filas t)), w)
  | None => (Lanza (OperationalError "no such table: asistencia"), w)
  end.

(** [cursor.execute] of a statement that writes to [asistencia]; a
    statement that fails leaves the database as it was. *)
Definition execute (sentencia : tabla_asistencia → resultado tabla_asistencia)
    : M () := λ w,
  match asistencia (bd w) with
  | Some t =>
      match sentencia t with
      | Normal t' =>
          (Normal (), {| bd := con_asistencia (bd w) t';
                         archivos := archivos w; pantalla := pantalla w |})
      | Lanza e => (Lanza e, w)
      end
  | None => (Lanza (OperationalError "no such table: asistencia"), w)
  end.

Definition execute_CREATE_TABLE : M () := λ w,
  (Normal (), {| bd := CREATE_TABLE_asistencia (bd w);
                 archivos := archivos w; pantalla := pantalla w |}).

(** [self.conn.commit()].  Every method commits right after its only write,
    so the connection's view and the durable contents agree whenever a
    method returns; the embedding keeps one copy. *)
Definition commit : M () := mret ().

(** [pdf.output(nombre_archivo)] *)
Definition output (pdf : FPDF.t) (nombre_archivo : string) : M () := λ w,
  (Normal (), {| bd := bd w; archivos := <[nombre_archivo := pdf]> (archivos w);
                 pantalla := pantalla w |}).

(** ** class SistemaRegistroAsistencia *)

(** The attributes set by [__init__], apart from [self.conn], which is the
    database of the [mundo]. *)
Record SistemaRegistroAsistencia := {
  profesores : list string;
  materias : list string;
  carreras : list string;
  profesor_materia : PyDict.t
}.

Definition cargar_datos : M (list string * list string * list string * PyDict.t) := λ w,
  let profesor_materia := PyDict.comprehension (SELECT_profesor_materia (bd w)) in
  let profesores := PyDict.keys profesor_materia in
  let materias := (tabla_materias (bd w)).*2 in
  let carreras := tabla_carreras (bd w) in
  (Normal (profesores, materias, carreras, profesor_materia), w).

Definition __init__ : M SistemaRegistroAsistencia :=
  datos ← cargar_datos;
  mret {| profesores := datos.1.1.1; materias := datos.1.1.2;
          carreras := datos.1.2; profesor_materia := datos.2 |}.

(** The sentinel name that skips the validation. *)
Definition Otro_maestro : string := "Otro maestro".

(** The two messages of a refused registration. *)
Definition UnknownProfessor : st_evento :=
  st_error "El profesor ingresado no está registrado en el sistema.".

Definition SubjectMismatch (nombre_profesor materia : string) : st_evento :=
  st_error ("El profesor " +:+ nombre_profesor +:+ " no imparte la materia '"
              +:+ materia +:+ "'.").

Definition Registrada : st_evento :=
  st_success "¡Asistencia registrada exitosamente!".

(** How an f-string shows a value that is a [str] or [None]. *)
Definition str_o (s : option string) : string := from_option id "None" s.

(** [registrar_asistencia(self, nombre_profesor, *, materia, carrera, fecha,
    asistio)].  [fecha] is the [datetime.date] of [st.date_input]; [materia]
    and [carrera] are a [str] or [None]. *)
Definition registrar_asistencia (self : SistemaRegistroAsistencia)
    (nombre_profesor : string) (materia carrera : option string)
    (fecha : date) (asistio : string) : M () :=
  let registrar : M () :=
    execute_CREATE_TABLE;;
    let fecha_iso := isoformat fecha in
    execute (λ t, INSERT_asistencia t nombre_profesor materia carrera fecha_iso asistio);;
    commit;;
    emitir Registrada in
  if decide (nombre_profesor ≠ Otro_maestro) then
    if decide (nombre_profesor ∉ profesores self) then
      emitir UnknownProfessor
    else if decide (PyDict.get (profesor_materia self) nombre_profesor ≠ materia) then
      emitir (SubjectMismatch nombre_profesor (str_o materia))
    else registrar
  else registrar.

Definition eliminar_registros : M () :=
  execute DELETE_asistencia;;
  commit.

(** The script [cr.py]: create the table if it is not there, commit. *)
Definition cr : M () :=
  execute_CREATE_TABLE;;
  commit.

(** The calls [generar_reporte_pdf] makes on its [FPDF] object before
    [pdf.output]: title, date line, header row, one row of cells per tuple. *)
Definition documento `{Plataforma} (datos : list (list py_obj))
    (columnas : list string) (fecha_inicio fecha_fin : py_obj) : FPDF.t :=
  {| FPDF.orientation := "L";
     FPDF.ops :=
       ([ FPDF.add_page;
          FPDF.set_font "Arial" "B" 16;
          FPDF.cell 200 10 "Reporte de Asistencia" 0 1 "C";
          FPDF.set_font "Arial" "" 12;
          FPDF.cell 200 10
            ("Fecha de Inicio: " +:+ str fecha_inicio +:+ "   Fecha de Fin: "
               +:+ str fecha_fin) 0 1 "C";
          FPDF.ln (Some 10);
          FPDF.set_font "Arial" "B" 12 ]
        ++ ((λ columna, FPDF.cell 60 10 columna 1 0 "C") <$> columnas)
        ++ [ FPDF.ln None; FPDF.set_font "Arial" "" 10 ]
        ++ (fila ← datos;
            ((λ item, FPDF.cell 60 10 (str item) 1 0 "C") <$> fila) ++ [FPDF.ln None]))%list |}.

(** [generar_reporte_pdf(self, datos, columnas, fecha_inicio, fecha_fin,
    nombre_archivo)] *)
Definition generar_reporte_pdf `{Plataforma} (datos : list (list py_obj))
    (columnas : list string) (fecha_inicio fecha_fin : py_obj)
    (nombre_archivo : string) : M () :=
  output (documento datos columnas fecha_inicio fecha_fin) nombre_archivo;;
  emitir (st_success ("Reporte generado: " +:+ nombre_archivo)).

(** The widgets read by [mostrar_reportes_detallados] in one run of the
    page. *)
Record widgets := {
  profesor_seleccionado : string;
  fecha_inicio_profesor : date;
  fecha_fin_profesor : date;
  boton_reporte_profesor_pdf : bool;
  materia_seleccionada : option string;
  fecha_inicio_materia : date;
  fecha_fin_materia : date;
  boton_reporte_materia_pdf : bool;
  boton_reporte_carrera_pdf : bool
}.

(** The three queries of the page, each with its [fetchall()]. *)
Definition consulta_por_profesor (profesor : string) (fecha_inicio fecha_fin : date)
    : M (list Reporte.fila) :=
  fetchall (SELECT_reporte_profesor profesor (isoformat fecha_inicio) (isoformat fecha_fin)).

Definition consulta_por_materia (materia : option string) (fecha_inicio fecha_fin : date)
    : M (list Reporte.fila) :=
  fetchall (SELECT_reporte_materia materia (isoformat fecha_inicio) (isoformat fecha_fin)).

Definition consulta_global_por_carrera `{Plataforma} : M (list Estadistica.fila) :=
  fetchall SELECT_estadisticas.

(** Python's truth value of a list. *)
Definition no_vacia {A : Type} (l : list A) : bool :=
  match l with
  | [] => false
  | _ :: _ => true
  end.

Definition pestana_profesor `{Plataforma} (ui : widgets) : M () :=
  if boton_reporte_profesor_pdf ui then
    registros ← consulta_por_profesor (profesor_seleccionado ui)
                  (fecha_inicio_profesor ui) (fecha_fin_profesor ui);
    if no_vacia registros then
      generar_reporte_pdf (Reporte.tupla <$> registros)
        ["Carrera"; "Profesor"; "Materia"; "Total Clases"; "Clases Impartidas";
         "Clases Perdidas"]
        (PyDate (fecha_inicio_profesor ui)) (PyDate (fecha_fin_profesor ui))
        "reporte_asistencia_profesor.pdf"
    else
      emitir (st_warning "No se encontraron registros para el profesor seleccionado en el rango de fechas.")
  else mret ().

Definition pestana_materia `{Plataforma} (ui : widgets) : M () :=
  if boton_reporte_materia_pdf ui then
    registros ← consulta_por_materia (materia_seleccionada ui)
                  (fecha_inicio_materia ui) (fecha_fin_materia ui);
    if no_vacia registros then
      generar_reporte_pdf (Reporte.tupla <$> registros)
        ["Carrera"; "Profesor"; "Materia"; "Total Clases"; "Asistencias";
         "Inasistencias"]
        (PyDate (fecha_inicio_materia ui)) (PyDate (fecha_fin_materia ui))
        "reporte_asistencia_materia.pdf"
    else
      emitir (st_warning "No se encontraron registros para la materia seleccionada en el rango de fechas.")
  else mret ().

Definition pestana_carrera `{Plataforma} (ui : widgets) : M () :=
  estadisticas ← consulta_global_por_carrera;
  emitir (st_table ["Carrera"; "Total Clases"; "Tasa de Cumplimiento (%)"]
            (Estadistica.tupla <$> estadisticas));;
  if boton_reporte_carrera_pdf ui then
    if no_vacia estadisticas then
      generar_reporte_pdf (Estadistica.tupla <$> estadisticas)
        ["Carrera"; "Total Clases"; "Tasa de Cumplimiento (%)"]
        (PyStr "N/A") (PyStr "N/A")
        "reporte_global_carrera.pdf"
    else
      emitir (st_warning "No hay datos de estadísticas para generar el reporte.")
  else mret ().

(** [mostrar_reportes_detallados(self)]: the three tabs, in order. *)
Definition mostrar_reportes_detallados `{Plataforma} (self : SistemaRegistroAsistencia)
    (ui : widgets) : M () :=
  pestana_profesor ui;;
  pestana_materia ui;;
  pestana_carrera ui.

(** ** Vocabulary of the specification *)

(** The row a detailed report has for a group, and its three counts; a
    group without rows in the range has no row in the report and counts
    nothing. *)
Definition fila_de_grupo (k : option string * string * option string)
    (reporte : list Reporte.fila) : option Reporte.fila :=
  head (filter (λ r, Reporte.clave r = k) reporte).

Definition conteos (k : option string * string * option string)
    (reporte : list Reporte.fila) : nat * nat * nat :=
  match fila_de_grupo k reporte with
  | Some r => (Reporte.total_clases r, Reporte.clases_impartidas r, Reporte.clases_perdidas r)
  | None => (0, 0, 0)
  end.

(** Lexicographic order on strings, as the specification words the date
    comparison: the first differing byte decides, and a proper prefix comes
    first. *)
Inductive lex_le : string → string → Prop :=
| lex_le_vacia s : lex_le "" s
| lex_le_menor a b s t :
    (Ascii.N_of_ascii a < Ascii.N_of_ascii b)%N → lex_le (String a s) (String b t)
| lex_le_igual a s t : lex_le s t → lex_le (String a s) (String a t).

#[global] Instance lex_le_dec (s t : string) : Decision (lex_le s t).
Proof.
  revert t. induction s as [|a s IH]; intros [|b t].
  - left. constructor.
  - left. constructor.
  - right. inversion 1.
  - destruct (decide (Ascii.N_of_ascii a < Ascii.N_of_ascii b)%N) as [Hlt|Hlt].
    { left. by constructor. }
    destruct (decide (a = b)) as [->|Hne].
    + destruct (IH t) as [Hle|Hle].
      * left. by constructor.
      * right. inversion 1; subst; done.
    + right. inversion 1; subst; done.
Defined.

(** A record falls in the range of a report. *)
Definition en_rango (inicio fin : string) (r : Asistencia.fila) : Prop :=
  lex_le inicio (Asistencia.fecha r) ∧ lex_le (Asistencia.fecha r) fin.

#[global] Instance en_rango_dec inicio fin r : Decision (en_rango inicio fin r).
Proof. unfold en_rango. apply _. Defined.

(** The three counts of a detailed report over the records that satisfy
    [incluida]: how many, how many with [asistio = 'Sí'], how many with
    [asistio = 'No']. *)
Definition cuentas (incluida : Asistencia.fila → Prop)
    `{!∀ r, Decision (incluida r)} (t : list Asistencia.fila) : nat * nat * nat :=
  (length (filter incluida t),
   length (filter (λ r, incluida r ∧ Asistencia.asistio r = "Sí") t),
   length (filter (λ r, incluida r ∧ Asistencia.asistio r = "No") t)).

(** The outcome of [registrar_asistencia] on the page: the message it
    added. *)
Definition mensaje_de (w w' : mundo) (e : st_evento) : Prop :=
  pantalla w' = (pantalla w ++ [e])%list.

(** The world after an accepted registration: the table exists, holds one
    more row, whose identifier is the new value of the counter, and the page
    shows the success message. *)
Definition tras_registrar (w : mundo) (P : string) (S c : option string)
    (d : date) (a : string) : mundo :=
  let t := default {| filas := []; secuencia := 0 |} (asistencia (bd w)) in
  {| bd := con_asistencia (bd w)
             {| filas := (filas t ++
                   [ {| Asistencia.id := siguiente_id t;
                        Asistencia.profesor := P;
                        Asistencia.materia := S;
                        Asistencia.carrera := c;
                        Asistencia.fecha := isoformat d;
                        Asistencia.asistio := a |} ])%list;
                secuencia := siguiente_id t |};
     archivos := archivos w;
     pantalla := (pantalla w ++ [Registrada])%list |}.

(** The rows of [asistencia], none when the table is absent. *)
Definition registros (b : base_datos) : list Asistencia.fila :=
  from_option filas [] (asistencia b).

(** The AUTOINCREMENT counter of [asistencia], 0 when the table is absent. *)
Definition contador (b : base_datos) : Z :=
  from_option secuencia 0%Z (asistencia b).

(** The table has an identifier left for one more row: neither the counter
    nor a stored identifier has reached the largest rowid.  A table that is
    created by the registration itself starts at 0. *)
Definition hay_lugar (b : base_datos) : Prop :=
  (contador b < MAX_ROWID)%Z
  ∧ Forall (λ r, (Asistencia.id r < MAX_ROWID)%Z) (registros b).

#[global] Instance hay_lugar_dec b : Decision (hay_lugar b).
Proof. unfold hay_lugar. apply _. Defined.

(** The exception of an INSERT that finds no identifier left. *)
Definition database_full : excepcion :=
  OperationalError "database or disk is full".

(** A registration that passes the validation of [registrar_asistencia]:
    the professor is the sentinel, or is in the roster with the subject
    given. *)
Definition registro_valido (self : SistemaRegistroAsistencia) (P : string)
    (S : option string) : Prop :=
  P = Otro_maestro
  ∨ (P ∈ profesores self ∧ PyDict.get (profesor_materia self) P = S).

#[global] Instance registro_valido_dec self P S : Decision (registro_valido self P S).
Proof. unfold registro_valido. apply _. Defined.

(** A stand-in for the platform, to run the page on concrete inputs: values
    are left unrounded and every float prints as ["?"]. *)
Definition plataforma_de_prueba : Plataforma :=
  {| ROUND := λ x _, x; str_float := λ _, "?" |}.

(** The warnings of the three tabs when their query returns no row. *)
Definition aviso_profesor : st_evento :=
  st_warning "No se encontraron registros para el profesor seleccionado en el rango de fechas.".

Definition aviso_materia : st_evento :=
  st_warning "No se encontraron registros para la materia seleccionada en el rango de fechas.".

Definition aviso_carrera : st_evento :=
  st_warning "No hay datos de estadísticas para generar el reporte.".

(** What one tab does to the world, seen from outside: the database is left
    alone, messages are appended (the warning among them when the button was
    pressed and the query came back empty), and a file can differ only if it
    is the tab's own destination, its button was pressed and its query
    returned rows. *)
Definition efecto_pestana (boton : bool) (vacia : Prop) (destino : string)
    (aviso : st_evento) (w w' : mundo) : Prop :=
  bd w' = bd w
  ∧ (∃ ms, pantalla w' = (pantalla w ++ ms)%list ∧ (boton → vacia → aviso ∈ ms))
  ∧ (∀ nombre, archivos w' !! nombre = archivos w !! nombre
               ∨ (nombre = destino ∧ boton ∧ ¬ vacia)).

(** ** A small database to run the page on *)

Definition fecha_ejemplo : date := {| year := 2024; month := 1; day := 10 |}.

Definition filas_ejemplo : list Asistencia.fila :=
  [ {| Asistencia.id := 1; Asistencia.profesor := "Dr. Smith";
       Asistencia.materia := Some "Calculus"; Asistencia.carrera := Some "ISC";
       Asistencia.fecha := "2024-01-10"; Asistencia.asistio := "Sí" |};
    {| Asistencia.id := 2; Asistencia.profesor := "Dr. Smith";
       Asistencia.materia := Some "Calculus"; Asistencia.carrera := Some "ISC";
       Asistencia.fecha := "2024-01-10"; Asistencia.asistio := "No" |};
    {| Asistencia.id := 3; Asistencia.profesor := "Dra. Luna";
       Asistencia.materia := Some "Fisica"; Asistencia.carrera := None;
       Asistencia.fecha := "2024-01-09"; Asistencia.asistio := "Sí" |} ].

(** Dra. Luna is assigned two subjects; the second row is read last. *)
Definition bd_ejemplo : base_datos :=
  {| tabla_profesores := [(1%Z, "Dr. Smith"); (2%Z, "Dra. Luna")];
     tabla_materias := [(1%Z, "Calculus"); (2%Z, "Fisica")];
     tabla_carreras := ["ISC"];
     tabla_profesor_materia := [(1, 1); (2, 1); (2, 2)]%Z;
     asistencia := Some {| filas := filas_ejemplo; secuencia := 3 |} |}.

Definition mundo_ejemplo : mundo :=
  {| bd := bd_ejemplo; archivos := ∅; pantalla := [] |}.

Definition sistema_ejemplo : SistemaRegistroAsistencia :=
  {| profesores := ["Dr. Smith"; "Dra. Luna"];
     materias := ["Calculus"; "Fisica"];
     carreras := ["ISC"];
     profesor_materia := [("Dr. Smith", "Calculus"); ("Dra. Luna", "Fisica")] |}.

(** The same tables with an empty [asistencia]. *)
Definition mundo_sin_registros : mundo :=
  {| bd := con_asistencia bd_ejemplo {| filas := []; secuencia := 3 |};
     archivos := ∅; pantalla := [] |}.

(** Every button pressed. *)
Definition widgets_ejemplo : widgets :=
  {| profesor_seleccionado := "Dr. Smith";
     fecha_inicio_profesor := fecha_ejemplo;
     fecha_fin_profesor := fecha_ejemplo;
     boton_reporte_profesor_pdf := true;
     materia_seleccionada := Some "Fisica";
     fecha_inicio_materia := fecha_ejemplo;
     fecha_fin_materia := fecha_ejemplo;
     boton_reporte_materia_pdf := true;
     boton_reporte_carrera_pdf := true |}.

(** A roster whose reference tables list the sentinel name itself as a
    professor, assigned to Calculus. *)
Definition bd_sentinela : base_datos :=
  {| tabla_profesores := [(1%Z, "Otro maestro")];
     tabla_materias := [(1%Z, "Calculus"); (2%Z, "Fisica")];
     tabla_carreras := [];
     tabla_profesor_materia := [(1, 1)]%Z;
     asistencia := Some {| filas := []; secuencia := 0 |} |}.

Definition mundo_sentinela : mundo :=
  {| bd := bd_sentinela; archivos := ∅; pantalla := [] |}.

Definition sistema_sentinela : SistemaRegistroAsistencia :=
  {| profesores := ["Otro maestro"];
     materias := ["Calculus"; "Fisica"];
     carreras := [];
     profesor_materia := [("Otro maestro", "Calculus")] |}.

(** What [consulta_por_profesor "Dr. Smith"] returns on [mundo_ejemplo] for
    the day of [fecha_ejemplo]. *)
Definition reporte_ejemplo : list Reporte.fila :=
  [ {| Reporte.carrera := Some "ISC"; Reporte.profesor := "Dr. Smith";
       Reporte.materia := Some "Calculus"; Reporte.total_clases := 2;
       Reporte.clases_impartidas := 1; Reporte.clases_perdidas := 1 |} ].

(** The tables of [bd_ejemplo] before the table [asistencia] was created. *)
Definition mundo_sin_tabla : mundo :=
  {| bd := {| tabla_profesores := tabla_profesores bd_ejemplo;
              tabla_materias := tabla_materias bd_ejemplo;
              tabla_carreras := tabla_carreras bd_ejemplo;
              tabla_profesor_materia := tabla_profesor_materia bd_ejemplo;
              asistencia := None |};
     archivos := ∅; pantalla := [] |}.

(** The same tables with an empty [asistencia] whose counter has reached
    the largest rowid. *)
Definition mundo_lleno : mundo :=
  {| bd := con_asistencia bd_ejemplo {| filas := []; secuencia := MAX_ROWID |};
     archivos := ∅; pantalla := [] |}.

(** ** Vocabulary of the further properties *)

(** What [datetime.date] guarantees of its fields: a year from 1 to 9999
    (below [100 * 100]), a month from 1 to 12, a day from 1 to 31 (the
    month bounds the day further). *)
Definition fecha_valida (d : date) : Prop :=
  (1 ≤ year d < 100 * 100)%nat ∧ (1 ≤ month d ≤ 12)%nat ∧ (1 ≤ day d ≤ 31)%nat.

(** The order of the calendar: by year, then month, then day. *)
Definition cronologico (d1 d2 : date) : comparison :=
  match Nat.compare (year d1) (year d2) with
  | Eq =>
      match Nat.compare (month d1) (month d2) with
      | Eq => Nat.compare (day d1) (day d2)
      | c => c
      end
  | c => c
  end.

(** [d] is a day of the range from [inicio] to [fin], both included. *)
Definition en_periodo (inicio fin d : date) : Prop :=
  cronologico inicio d ≠ Gt ∧ cronologico d fin ≠ Gt.

#[global] Instance en_periodo_dec inicio fin d : Decision (en_periodo inicio fin d).
Proof. unfold en_periodo. apply _. Defined.

(** A two-digit field of the ISO text. *)
Definition dos (n : nat) : string := zfill 2 (str_nat n).

Definition comparison_eqb (c1 c2 : comparison) : bool :=
  match c1, c2 with
  | Eq, Eq | Lt, Lt | Gt, Gt => true
  | _, _ => false
  end.

(** The counts of a group after one more record that the report selects:
    one more class, given or missed according to [asistio]. *)
Definition sumar_registro (a : string) (n : nat * nat * nat) : nat * nat * nat :=
  (n.1.1 + 1,
   n.1.2 + (if decide (a = "Sí") then 1 else 0),
   n.2 + (if decide (a = "No") then 1 else 0)).

(** Every stored record says ["Sí"] or ["No"], as the radio button of the
    page does. *)
Definition asistio_si_o_no (t : list Asistencia.fila) : Prop :=
  ∀ r, r ∈ t → Asistencia.asistio r = "Sí" ∨ Asistencia.asistio r = "No".

(** The identifiers in the table are pairwise different and none exceeds the
    counter, as SQLite keeps them for an AUTOINCREMENT column. *)
Definition numeracion_correcta (b : base_datos) : Prop :=
  NoDup (Asistencia.id <$> registros b)
  ∧ ∀ r, r ∈ registros b → (Asistencia.id r ≤ contador b)%Z.

(** The reference tables of two databases are the same. *)
Definition mismas_referencias (b b' : base_datos) : Prop :=
  tabla_profesores b' = tabla_profesores b
  ∧ tabla_materias b' = tabla_materias b
  ∧ tabla_carreras b' = tabla_carreras b
  ∧ tabla_profesor_materia b' = tabla_profesor_materia b.

(** The exception of a statement on a table that is not there. *)
Definition no_such_table : excepcion :=
  OperationalError "no such table: asistencia".

(** The three files the reports page writes to. *)
Definition destinos : list string :=
  [ "reporte_asistencia_profesor.pdf"; "reporte_asistencia_materia.pdf";
    "reporte_global_carrera.pdf" ].

(** ** The script of the page (the end of [Proyecto.py])

    One run of the script: the roster is loaded, the option of the sidebar
    chooses the page, and the connection is closed.  The widgets are read
    as inputs; [st.selectbox] returns one of the options it is given, and
    [None] when it is given none, which only the list of subjects can be:
    the other lists have an option of their own. *)
Module Pagina.
Record entradas := {
  opcion : string;
  profesor : string;
  materia : option string;
  carrera : string;
  fecha : date;
  asistio : string;
  boton_Registrar : bool;
  reportes : widgets;
  boton_Eliminar : bool
}.
End Pagina.

(** [self.conn.close()]: the database of the [mundo] stays as committed. *)
Definition cerrar_conexion : M () := mret ().

Definition eliminados : st_evento :=
  st_success "Todos los registros han sido eliminados exitosamente.".

Definition main `{Plataforma} (e : Pagina.entradas) : M () :=
  sistema ← __init__;
  (if decide (Pagina.opcion e = "Registrar Asistencia") then
     if Pagina.boton_Registrar e then
       registrar_asistencia sistema (Pagina.profesor e) (Pagina.materia e)
         (if decide (Pagina.carrera e ≠ "No Aplica") then Some (Pagina.carrera e) else None)
         (Pagina.fecha e) (Pagina.asistio e)
     else mret ()
   else if decide (Pagina.opcion e = "Crear Reportes") then
     mostrar_reportes_detallados sistema (Pagina.reportes e)
   else mret ());;
  (if decide (Pagina.opcion e = "Info") then
     if Pagina.boton_Eliminar e then
       eliminar_registros;;
       emitir eliminados
     else mret ()
   else mret ());;
  cerrar_conexion.

(** The record the registration form stores: the values of the widgets,
    the program absent when the form says ["No Aplica"]. *)
Definition registro_del_formulario (e : Pagina.entradas) (id : Z) : Asistencia.fila :=
  {| Asistencia.id := id;
     Asistencia.profesor := Pagina.profesor e;
     Asistencia.materia := Pagina.materia e;
     Asistencia.carrera :=
       if decide (Pagina.carrera e = "No Aplica") then None
       else Some (Pagina.carrera e);
     Asistencia.fecha := isoformat (Pagina.fecha e);
     Asistencia.asistio := Pagina.asistio e |}.

(** The last character but one of a text. *)
Fixpoint penultimo (s : string) : option Ascii.ascii :=
  match s with
  | EmptyString => None
  | String a s' =>
      match s' with
      | EmptyString => None
      | String _ EmptyString => Some a
      | String _ (String _ _) => penultimo s'
      end
  end.

(** The lines of text of a document, read back from the calls: a cell adds
    its text to the current line, a cell with [ln] other than 0 and a call
    of [ln] end the line; the other calls add no text. *)
Fixpoint renglones (ops : list FPDF.op) (actual : list string) : list (list string) :=
  match ops with
  | [] => []
  | FPDF.cell _ _ txt _ ln _ :: ops' =>
      match ln with
      | O => renglones ops' (actual ++ [txt])%list
      | S _ => (actual ++ [txt])%list :: renglones ops' []
      end
  | FPDF.ln _ :: ops' => actual :: renglones ops' []
  | _ :: ops' => renglones ops' actual
  end.

(** The texts of a row of a detailed report, as the document shows them. *)
Definition textos (r : Reporte.fila) : list string :=
  [ str_o (Reporte.carrera r); Reporte.profesor r; str_o (Reporte.materia r);
    str_nat (Reporte.total_clases r); str_nat (Reporte.clases_impartidas r);
    str_nat (Reporte.clases_perdidas r) ].

(** ** More inputs to run the page on *)

Definition primero_de_enero : date := {| year := 2024; month := 1; day := 1 |}.

Definition fin_de_enero : date := {| year := 2024; month := 1; day := 31 |}.

(** The registration form filled for Dra. Luna and the subject the roster
    does not give her, without program, the button pressed. *)
Definition entradas_ejemplo : Pagina.entradas :=
  {| Pagina.opcion := "Registrar Asistencia";
     Pagina.profesor := "Dra. Luna";
     Pagina.materia := Some "Calculus";
     Pagina.carrera := "No Aplica";
     Pagina.fecha := fecha_ejemplo;
     Pagina.asistio := "No";
     Pagina.boton_Registrar := true;
     Pagina.reportes := widgets_ejemplo;
     Pagina.boton_Eliminar := false |}.

(** A database whose table of subjects is empty, so that the roster is
    empty too, and which has no table [asistencia] yet. *)
Definition mundo_sin_materias : mundo :=
  {| bd := {| tabla_profesores := [(1%Z, "Dr. Smith")];
              tabla_materias := [];
              tabla_carreras := ["ISC"];
              tabla_profesor_materia := [(1, 1)]%Z;
              asistencia := None |};
     archivos := ∅; pantalla := [] |}.

(** The registration form on that database: the subject widget has no
    option and returns [None]; the professor is the sentinel. *)
Definition entradas_sin_materia : Pagina.entradas :=
  {| Pagina.opcion := "Registrar Asistencia";
     Pagina.profesor := Otro_maestro;
     Pagina.materia := None;
     Pagina.carrera := "No Aplica";
     Pagina.fecha := fecha_ejemplo;
     Pagina.asistio := "Sí";
     Pagina.boton_Registrar := true;
     Pagina.reportes := widgets_ejemplo;
     Pagina.boton_Eliminar := false |}.

(** * Properties *)

(** ** GROUP BY *)

Section agrupar.
Context {A K B : Type} `{EqDecision K}.

Lemma filter_fmap_clave (clave : B → K) (f : K → B) (ks : list K) (k : K) :
  (∀ k', clave (f k') = k') → NoDup ks →
  filter (λ r, clave r = k) (f <$> ks) = if decide (k ∈ ks) then [f k] else [].
Proof.
  intros Hf Hnd. induction Hnd as [|k0 ks Hk0 Hnd IH]; [done|].
  rewrite fmap_cons, filter_cons, Hf, IH.
  destruct (decide (k0 = k)) as [->|Hne].
  - destruct (decide (k ∈ ks)); [done|].
    destruct (decide (k ∈ k :: ks)) as [_|Hn]; [done|].
    destruct Hn. by left.
  - destruct (decide (k ∈ ks)) as [Hin|Hnin];
      destruct (decide (k ∈ k0 :: ks)) as [Hin'|Hnin']; try done.
    + destruct Hnin'. by right.
    + apply elem_of_cons in Hin' as [->|?]; done.
Qed.

Lemma elem_of_claves (clave : A → K) (l : list A) (k : K) :
  k ∈ clave <$> l ↔ filter (λ r, clave r = k) l ≠ [].
Proof.
  induction l as [|r l IH].
  - split; [by intros ?%elem_of_nil | done].
  - rewrite fmap_cons, elem_of_cons, filter_cons, IH.
    destruct (decide (clave r = k)) as [Heq|Hne].
    + split; [done | intros _; by left].
    + split; [intros [->|?]; done | by right].
Qed.

Lemma agrupar_filter (clave : A → K) (g : K * list A → B) (claveB : B → K)
    (l : list A) (k : K) :
  (∀ kg, claveB (g kg) = kg.1) →
  filter (λ r, claveB r = k) (g <$> agrupar clave l) =
    match filter (λ r, clave r = k) l with
    | [] => []
    | _ :: _ => [g (k, filter (λ r, clave r = k) l)]
    end.
Proof.
  intros Hg. unfold agrupar. rewrite <- list_fmap_compose.
  rewrite (filter_fmap_clave claveB _ _ k); [| intros k'; apply Hg | apply NoDup_remove_dups].
  destruct (decide (k ∈ remove_dups (clave <$> l))) as [Hin|Hin];
    rewrite elem_of_remove_dups, elem_of_claves in Hin.
  - simpl. by destruct (filter _ l).
  - destruct (filter _ l); [done|]. by destruct Hin.
Qed.
End agrupar.

(** ** Comparison of TEXT values *)

Lemma compare_refl s : String.compare s s = Eq.
Proof.
  induction s as [|a s IH]; [done|]. simpl.
  unfold Ascii.compare. by rewrite N.compare_refl.
Qed.

Lemma leb_refl s : String.leb s s = true.
Proof. unfold String.leb. by rewrite compare_refl. Qed.

Lemma BETWEEN_refl s : BETWEEN s s s = true.
Proof. unfold BETWEEN. by rewrite leb_refl. Qed.

Lemma leb_lex_le s t : String.leb s t = true ↔ lex_le s t.
Proof.
  unfold String.leb. revert t.
  induction s as [|a s IH]; intros [|b t]; simpl.
  - split; [constructor | done].
  - split; [constructor | done].
  - split; [done | inversion 1].
  - unfold Ascii.compare.
    destruct (N.compare_spec (Ascii.N_of_ascii a) (Ascii.N_of_ascii b)) as [Heq|Hlt|Hgt].
    + apply (f_equal Ascii.ascii_of_N) in Heq.
      rewrite !Ascii.ascii_N_embedding in Heq. subst b. rewrite IH. split.
      * by constructor.
      * inversion 1; subst; [lia | done].
    + split; [by constructor | done].
    + split; [done|]. inversion 1; subst; lia.
Qed.

Lemma BETWEEN_en_rango inicio fin r :
  BETWEEN (Asistencia.fecha r) inicio fin ↔ en_rango inicio fin r.
Proof.
  unfold BETWEEN, en_rango. rewrite andb_True, !Is_true_true, !leb_lex_le. done.
Qed.

(** ** registrar_asistencia *)

(** Unfolds the primitives of [M]. *)
Ltac desplegar_M :=
  unfold mbind, M_bind, mret, M_ret, commit, execute, execute_CREATE_TABLE,
    emitir, fetchall, output in *; simpl in *.

Lemma foldr_max_lugar (s : Z) (l : list Asistencia.fila) :
  (foldr Z.max s (Asistencia.id <$> l) < MAX_ROWID)%Z
  ↔ (s < MAX_ROWID)%Z ∧ Forall (λ r, (Asistencia.id r < MAX_ROWID)%Z) l.
Proof.
  induction l as [|r l IH].
  - split; [by intros ? | by intros [? _]].
  - rewrite fmap_cons, Forall_cons. cbn [foldr].
    rewrite Z.max_lub_lt_iff, IH. tauto.
Qed.

Lemma hay_lugar_siguiente_id b :
  hay_lugar b
  ↔ (siguiente_id (default {| filas := []; secuencia := 0 |} (asistencia b))
     ≤ MAX_ROWID)%Z.
Proof.
  unfold hay_lugar, siguiente_id, contador, registros.
  rewrite <- foldr_max_lugar.
  destruct (asistencia b) as [t|]; cbn [default from_option filas secuencia id]; lia.
Qed.

Lemma registrar_acepta P S c d a w :
  hay_lugar (bd w) →
  (execute_CREATE_TABLE;;
   execute (λ t, INSERT_asistencia t P S c (isoformat d) a);;
   commit;;
   emitir Registrada) w
  = (Normal (), tras_registrar w P S c d a).
Proof.
  intros Hl%hay_lugar_siguiente_id. unfold tras_registrar. desplegar_M.
  unfold CREATE_TABLE_asistencia, con_asistencia, INSERT_asistencia.
  destruct (asistencia (bd w)) as [t|] eqn:Ht; simpl in *; rewrite ?Ht; simpl.
  - by rewrite decide_True.
  - done.
Qed.

Lemma registrar_lleno P S c d a w :
  ¬ hay_lugar (bd w) →
  (execute_CREATE_TABLE;;
   execute (λ t, INSERT_asistencia t P S c (isoformat d) a);;
   commit;;
   emitir Registrada) w
  = (Lanza database_full, w).
Proof.
  rewrite hay_lugar_siguiente_id. intros Hl. desplegar_M.
  unfold CREATE_TABLE_asistencia, con_asistencia, INSERT_asistencia.
  destruct w as [b ar pa]. simpl in *.
  destruct (asistencia b) as [t|] eqn:Ht; simpl in *; rewrite ?Ht; simpl.
  - by rewrite decide_False.
  - destruct Hl. done.
Qed.

Lemma registrar_asistencia_sentinela self S c d a w :
  hay_lugar (bd w) →
  registrar_asistencia self Otro_maestro S c d a w
  = (Normal (), tras_registrar w Otro_maestro S c d a).
Proof.
  intros Hl. unfold registrar_asistencia.
  destruct (decide (Otro_maestro ≠ Otro_maestro)) as [H|_]; [done|].
  by apply registrar_acepta.
Qed.

Lemma registrar_asistencia_valida self P S c d a w :
  P ∈ profesores self →
  PyDict.get (profesor_materia self) P = S →
  hay_lugar (bd w) →
  registrar_asistencia self P S c d a w = (Normal (), tras_registrar w P S c d a).
Proof.
  intros Hin Hget Hl. unfold registrar_asistencia.
  destruct (decide (P ≠ Otro_maestro)) as [_|_]; [|by apply registrar_acepta].
  destruct (decide (P ∉ profesores self)) as [Hnin|_]; [done|].
  destruct (decide (PyDict.get (profesor_materia self) P ≠ S)) as [Hne|_]; [done|].
  by apply registrar_acepta.
Qed.

Lemma registrar_asistencia_llena self P S c d a w :
  registro_valido self P S →
  ¬ hay_lugar (bd w) →
  registrar_asistencia self P S c d a w = (Lanza database_full, w).
Proof.
  intros Hval Hl. unfold registrar_asistencia.
  destruct (decide (P ≠ Otro_maestro)) as [Hne|_]; [|by apply registrar_lleno].
  destruct Hval as [?|[Hin Hget]]; [done|].
  destruct (decide (P ∉ profesores self)) as [Hnin|_]; [done|].
  destruct (decide (PyDict.get (profesor_materia self) P ≠ S)) as [?|_]; [done|].
  by apply registrar_lleno.
Qed.

Lemma registrar_asistencia_desconocido self P S c d a w :
  P ≠ Otro_maestro → P ∉ profesores self →
  registrar_asistencia self P S c d a w
  = (Normal (), {| bd := bd w; archivos := archivos w;
                   pantalla := (pantalla w ++ [UnknownProfessor])%list |}).
Proof.
  intros Hne Hnin. unfold registrar_asistencia.
  destruct (decide (P ≠ Otro_maestro)) as [_|?]; [|done].
  by destruct (decide (P ∉ profesores self)) as [_|?].
Qed.

Lemma registrar_asistencia_otra_materia self P S c d a w :
  P ≠ Otro_maestro → P ∈ profesores self →
  PyDict.get (profesor_materia self) P ≠ S →
  registrar_asistencia self P S c d a w
  = (Normal (), {| bd := bd w; archivos := archivos w;
                   pantalla := (pantalla w ++ [SubjectMismatch P (str_o S)])%list |}).
Proof.
  intros Hne Hin Hget. unfold registrar_asistencia.
  destruct (decide (P ≠ Otro_maestro)) as [_|?]; [|done].
  destruct (decide (P ∉ profesores self)) as [?|_]; [done|].
  by destruct (decide (PyDict.get (profesor_materia self) P ≠ S)) as [_|?].
Qed.

(** Running [cr.py] a second time changes nothing. *)
Lemma cr_idempotente w : (cr;; cr) w = cr w.
Proof.
  unfold cr. desplegar_M. unfold CREATE_TABLE_asistencia.
  by destruct (asistencia (bd w)) as [t|] eqn:Ht; simpl; rewrite ?Ht.
Qed.

(** ** PyDict *)

Lemma PyDict_get_set d k v k' :
  PyDict.get (PyDict.set d k v) k' = if decide (k = k') then Some v else PyDict.get d k'.
Proof.
  induction d as [|[k0 v0] d IH]; simpl.
  - done.
  - destruct (decide (k0 = k)) as [->|Hne]; simpl.
    + by destruct (decide (k = k')).
    + rewrite IH. destruct (decide (k0 = k')) as [->|]; [|done].
      by rewrite decide_False.
Qed.

Lemma PyDict_keys_cons k v d : PyDict.keys ((k, v) :: d) = k :: PyDict.keys d.
Proof. reflexivity. Qed.

Lemma PyDict_keys_set d k v :
  PyDict.keys (PyDict.set d k v)
  = if decide (k ∈ PyDict.keys d) then PyDict.keys d else (PyDict.keys d ++ [k])%list.
Proof.
  induction d as [|[k0 v0] d IH].
  - done.
  - cbn [PyDict.set]. rewrite PyDict_keys_cons.
    destruct (decide (k0 = k)) as [->|Hne]; rewrite PyDict_keys_cons.
    + rewrite decide_True; [done | by left].
    + rewrite IH. destruct (decide (k ∈ PyDict.keys d)) as [Hin|Hnin].
      * rewrite decide_True; [done | by right].
      * rewrite decide_False; [done|].
        rewrite elem_of_cons. intros [->|?]; done.
Qed.

Lemma PyDict_elem_of_keys d k : k ∈ PyDict.keys d ↔ is_Some (PyDict.get d k).
Proof.
  induction d as [|[k0 v0] d IH].
  - split; [by intros ?%elem_of_nil | by intros [? ?]].
  - rewrite PyDict_keys_cons, elem_of_cons, IH. cbn [PyDict.get].
    destruct (decide (k0 = k)) as [->|Hne].
    + split; [by eexists | by left].
    + split; [by intros [->|?] | by right].
Qed.

Lemma PyDict_foldl_NoDup rows d :
  NoDup (PyDict.keys d) →
  NoDup (PyDict.keys (foldl (λ d row, PyDict.set d row.1 row.2) d rows)).
Proof.
  revert d. induction rows as [|row rows IH]; intros d Hd; simpl; [done|].
  apply IH. rewrite PyDict_keys_set.
  destruct (decide (row.1 ∈ PyDict.keys d)); [done|].
  apply NoDup_app. split_and!; [done | | apply NoDup_singleton].
  intros k Hk ->%list_elem_of_singleton. done.
Qed.

Lemma PyDict_foldl_get_otro rows d k :
  k ∉ rows.*1 →
  PyDict.get (foldl (λ d row, PyDict.set d row.1 row.2) d rows) k = PyDict.get d k.
Proof.
  revert d. induction rows as [|row rows IH]; intros d Hk; simpl; [done|].
  rewrite fmap_cons, not_elem_of_cons in Hk. destruct Hk as [Hne Hk].
  rewrite IH by done. rewrite PyDict_get_set. by rewrite decide_False.
Qed.

Lemma PyDict_comprehension_NoDup rows : NoDup (PyDict.keys (PyDict.comprehension rows)).
Proof. apply PyDict_foldl_NoDup, NoDup_nil_2. Qed.

Lemma PyDict_comprehension_ultima rows1 k v rows2 :
  k ∉ rows2.*1 →
  PyDict.get (PyDict.comprehension (rows1 ++ (k, v) :: rows2)) k = Some v.
Proof.
  intros Hk. unfold PyDict.comprehension. rewrite foldl_app. simpl.
  rewrite PyDict_foldl_get_otro by done.
  rewrite PyDict_get_set. by rewrite decide_True.
Qed.

Lemma PyDict_foldl_keys rows d k :
  k ∈ PyDict.keys (foldl (λ d row, PyDict.set d row.1 row.2) d rows)
  ↔ k ∈ PyDict.keys d ∨ k ∈ rows.*1.
Proof.
  revert d. induction rows as [|row rows IH]; intros d; simpl.
  - split; [by left | by intros [?|?%elem_of_nil]].
  - rewrite IH, PyDict_keys_set, elem_of_cons.
    destruct (decide (row.1 ∈ PyDict.keys d)) as [Hin|Hnin].
    + split; [intros [?|?]; auto | intros [?|[->|?]]; auto].
    + rewrite elem_of_app, list_elem_of_singleton.
      split; [intros [[?|?]|?]; auto | intros [?|[?|?]]; auto].
Qed.

Lemma __init___eq w :
  __init__ w
  = (Normal {| profesores := PyDict.keys (PyDict.comprehension (SELECT_profesor_materia (bd w)));
               materias := (tabla_materias (bd w)).*2;
               carreras := tabla_carreras (bd w);
               profesor_materia := PyDict.comprehension (SELECT_profesor_materia (bd w)) |}, w).
Proof. reflexivity. Qed.

Lemma __init___profesores w self :
  (__init__ w).1 = Normal self → profesores self = PyDict.keys (profesor_materia self).
Proof. rewrite __init___eq. simpl. by intros [= <-]. Qed.

(** ** Reports *)

Lemma fetchall_eq {A} (q : list Asistencia.fila → A) w t :
  asistencia (bd w) = Some t → fetchall q w = (Normal (q (filas t)), w).
Proof. intros Ht. unfold fetchall. by rewrite Ht. Qed.

Lemma fetchall_Normal {A} (q : list Asistencia.fila → A) w x :
  (fetchall q w).1 = Normal x → ∃ t, asistencia (bd w) = Some t ∧ x = q (filas t).
Proof.
  unfold fetchall. destruct (asistencia (bd w)) as [t|]; simpl; [|done].
  intros [= <-]. by exists t.
Qed.

Lemma SUM_CASE_asistio_app valor g1 g2 :
  SUM_CASE_asistio valor (g1 ++ g2) = SUM_CASE_asistio valor g1 + SUM_CASE_asistio valor g2.
Proof. unfold SUM_CASE_asistio. by rewrite filter_app, length_app. Qed.

Lemma conteos_agrupar k l :
  conteos k (fila_reporte <$> agrupar clave_reporte l)
  = (length (filter (λ r, clave_reporte r = k) l),
     SUM_CASE_asistio "Sí" (filter (λ r, clave_reporte r = k) l),
     SUM_CASE_asistio "No" (filter (λ r, clave_reporte r = k) l)).
Proof.
  unfold conteos, fila_de_grupo.
  rewrite (agrupar_filter clave_reporte fila_reporte Reporte.clave).
  - by destruct (filter _ l).
  - by intros [[[? ?] ?] ?].
Qed.

Lemma tras_registrar_filas w P S c d a :
  ∃ t, asistencia (bd (tras_registrar w P S c d a)) = Some t
       ∧ filas t
         = (registros (bd w) ++
              [ {| Asistencia.id :=
                     siguiente_id (default {| filas := []; secuencia := 0 |}
                                     (asistencia (bd w)));
                   Asistencia.profesor := P;
                   Asistencia.materia := S;
                   Asistencia.carrera := c;
                   Asistencia.fecha := isoformat d;
                   Asistencia.asistio := a |} ])%list.
Proof.
  eexists. split; [reflexivity|]. unfold registros.
  by destruct (asistencia (bd w)).
Qed.

Lemma fetchall_registros {A} (q : list Asistencia.fila → A) w x :
  (fetchall q w).1 = Normal x → x = q (registros (bd w)).
Proof.
  unfold fetchall, registros. destruct (asistencia (bd w)) as [t|]; simpl; [|done].
  by intros [= <-].
Qed.

Lemma conteos_uno_mas (Q : Asistencia.fila → Prop) `{!∀ r, Decision (Q r)}
    (l : list Asistencia.fila) (nuevo : Asistencia.fila) :
  Q nuevo → Asistencia.asistio nuevo = "Sí" →
  let '(total, impartidas, perdidas) :=
    conteos (clave_reporte nuevo) (fila_reporte <$> agrupar clave_reporte (filter Q l)) in
  conteos (clave_reporte nuevo)
    (fila_reporte <$> agrupar clave_reporte (filter Q (l ++ [nuevo])%list))
  = (total + 1, impartidas + 1, perdidas).
Proof.
  intros HQ Hsi. rewrite !conteos_agrupar.
  rewrite !filter_app, !length_app, !SUM_CASE_asistio_app.
  rewrite (filter_cons_True _ _ []), filter_nil by done.
  rewrite (filter_cons_True _ _ []), filter_nil by done.
  unfold SUM_CASE_asistio at 2 4.
  rewrite (filter_cons_True _ _ []), filter_nil by done.
  rewrite (filter_cons_False _ _ []), filter_nil by (by rewrite Hsi).
  cbn [length]. by rewrite Nat.add_0_r.
Qed.

(** C1.  For a pair (professor, subject) of the roster loaded by [__init__],
    [registrar_asistencia] with that pair, a date [d] and [asistio = "Sí"]
    returns normally and shows the success message, whether or not the table
    exists yet, provided the table has an identifier left; afterwards
    [consulta_por_profesor P d d] returns, and the group of the new record
    has exactly one class and one class given more than in the query run
    before the registration, and as many classes missed (a group without row
    counts nothing).  When the table did not exist, that query could not be
    run before, and the group counts one class, given. *)
Theorem C1_registrar_incrementa_conteos :
  ∀ (w0 : mundo) (self : SistemaRegistroAsistencia) (P S : string)
    (c : option string) (d : date) (w : mundo),
    (__init__ w0).1 = Normal self →
    PyDict.get (profesor_materia self) P = Some S →
    hay_lugar (bd w) →
    ∃ (w' : mundo) (despues : list Reporte.fila),
      registrar_asistencia self P (Some S) c d "Sí" w = (Normal (), w')
      ∧ mensaje_de w w' Registrada
      ∧ (consulta_por_profesor P d d w').1 = Normal despues
      ∧ (∀ antes : list Reporte.fila,
           (consulta_por_profesor P d d w).1 = Normal antes →
           let '(total, impartidas, perdidas) := conteos (c, P, Some S) antes in
           conteos (c, P, Some S) despues = (total + 1, impartidas + 1, perdidas))
      ∧ (asistencia (bd w) = None → conteos (c, P, Some S) despues = (1, 1, 0)).
Proof.
  intros w0 self P S c d w Hinit Hget Hl.
  assert (Hin : P ∈ profesores self).
  { rewrite (__init___profesores _ _ Hinit). apply PyDict_elem_of_keys. by eexists. }
  destruct (tras_registrar_filas w P (Some S) c d "Sí") as (t' & Ht' & Hfilas).
  set (nuevo := {| Asistencia.id := _ |}) in Hfilas.
  pose proof (conteos_uno_mas
    (λ r, Asistencia.profesor r = P
          ∧ BETWEEN (Asistencia.fecha r) (isoformat d) (isoformat d))
    (registros (bd w)) nuevo) as Hmas.
  change (clave_reporte nuevo) with (c, P, Some S) in Hmas.
  assert (Hsel : Asistencia.profesor nuevo = P
                 ∧ BETWEEN (Asistencia.fecha nuevo) (isoformat d) (isoformat d)).
  { split; [done|]. cbn. by rewrite BETWEEN_refl. }
  specialize (Hmas Hsel eq_refl).
  exists (tras_registrar w P (Some S) c d "Sí"). eexists. split_and!.
  - by apply registrar_asistencia_valida.
  - done.
  - unfold consulta_por_profesor. erewrite fetchall_eq; [reflexivity | exact Ht'].
  - intros antes Hantes. apply fetchall_registros in Hantes as ->.
    rewrite Hfilas. exact Hmas.
  - intros Hnone. rewrite Hfilas. unfold registros in *. rewrite Hnone in *.
    exact Hmas.
Qed.

Lemma registrar_asistencia_casos self P S c d a w :
  (registrar_asistencia self P S c d a w = (Normal (), tras_registrar w P S c d a)
   ∧ registro_valido self P S ∧ hay_lugar (bd w))
  ∨ (registrar_asistencia self P S c d a w = (Lanza database_full, w)
     ∧ registro_valido self P S ∧ ¬ hay_lugar (bd w))
  ∨ (registrar_asistencia self P S c d a w = (Normal (), con_mensaje w UnknownProfessor)
     ∧ P ≠ Otro_maestro ∧ P ∉ profesores self)
  ∨ (registrar_asistencia self P S c d a w
     = (Normal (), con_mensaje w (SubjectMismatch P (str_o S)))
     ∧ P ≠ Otro_maestro ∧ P ∈ profesores self
     ∧ PyDict.get (profesor_materia self) P ≠ S).
Proof.
  assert (Hacepta : registro_valido self P S →
    (registrar_asistencia self P S c d a w = (Normal (), tras_registrar w P S c d a)
     ∧ registro_valido self P S ∧ hay_lugar (bd w))
    ∨ (registrar_asistencia self P S c d a w = (Lanza database_full, w)
       ∧ registro_valido self P S ∧ ¬ hay_lugar (bd w))).
  { intros Hval. destruct (decide (hay_lugar (bd w))) as [Hl|Hl].
    - left. split; [|done].
      destruct Hval as [->|[Hin Hget]];
        [by apply registrar_asistencia_sentinela | by apply registrar_asistencia_valida].
    - right. split; [by apply registrar_asistencia_llena | done]. }
  destruct (decide (P = Otro_maestro)) as [->|Hne].
  { destruct Hacepta as [?|?]; [by left | by left | by right; left]. }
  destruct (decide (P ∈ profesores self)) as [Hin|Hnin].
  2:{ right; right; left. split; [by apply registrar_asistencia_desconocido | done]. }
  destruct (decide (PyDict.get (profesor_materia self) P = S)) as [Hget|Hget].
  - destruct Hacepta as [?|?]; [by right | by left | by right; left].
  - right; right; right. split; [by apply registrar_asistencia_otra_materia | done].
Qed.

Lemma mensaje_de_inj w w' e1 e2 : mensaje_de w w' e1 → mensaje_de w w' e2 → e1 = e2.
Proof.
  unfold mensaje_de. intros -> H. by apply app_inj_tail in H as [_ ?].
Qed.

Lemma mensaje_de_mismo w e : ¬ mensaje_de w w e.
Proof.
  unfold mensaje_de. intros Hm. apply (f_equal length) in Hm.
  rewrite length_app in Hm. simpl in Hm. lia.
Qed.

(** C2.  With the professor equal to the sentinel ["Otro maestro"],
    [registrar_asistencia] never refuses: whatever the roster, the subject
    (also when the form has none to offer), the program, the date and the
    value of [asistio], and whether or not the table exists yet, it returns
    normally, shows the success message and leaves the table with exactly
    one more row, holding the values given, provided the table has an
    identifier left. *)
Theorem C2_otro_maestro_sin_validacion :
  ∀ (self : SistemaRegistroAsistencia) (materia carrera : option string)
    (fecha : date) (asistio : string) (w : mundo),
    hay_lugar (bd w) →
    ∃ (w' : mundo) (id : Z),
      registrar_asistencia self Otro_maestro materia carrera fecha asistio w = (Normal (), w')
      ∧ mensaje_de w w' Registrada
      ∧ registros (bd w')
        = (registros (bd w) ++
             [ {| Asistencia.id := id;
                  Asistencia.profesor := Otro_maestro;
                  Asistencia.materia := materia;
                  Asistencia.carrera := carrera;
                  Asistencia.fecha := isoformat fecha;
                  Asistencia.asistio := asistio |} ])%list.
Proof.
  intros self materia carrera fecha asistio w Hl.
  destruct (tras_registrar_filas w Otro_maestro materia carrera fecha asistio)
    as (t' & Ht' & Hfilas).
  exists (tras_registrar w Otro_maestro materia carrera fecha asistio). eexists.
  split_and!.
  - by apply registrar_asistencia_sentinela.
  - done.
  - unfold registros at 1. rewrite Ht'. exact Hfilas.
Qed.

(** C3 (amended).  For a professor [P] of the loaded roster other than the
    sentinel ["Otro maestro"], the roster assigns [P] one subject, and
    [registrar_asistencia P S] shows the subject-mismatch message if and only
    if [S] is not that subject. *)
Theorem C3_rechazo_sii_materia_distinta :
  ∀ (w0 : mundo) (self : SistemaRegistroAsistencia) (P : string),
    (__init__ w0).1 = Normal self →
    P ∈ profesores self →
    P ≠ Otro_maestro →
    ∃ asignada : string,
      PyDict.get (profesor_materia self) P = Some asignada
      ∧ ∀ (S : string) (c : option string) (d : date) (a : string) (w : mundo),
          mensaje_de w (registrar_asistencia self P (Some S) c d a w).2
            (SubjectMismatch P S)
          ↔ S ≠ asignada.
Proof.
  intros w0 self P Hinit Hin Hne.
  pose proof Hin as Hkeys. rewrite (__init___profesores _ _ Hinit) in Hkeys.
  apply PyDict_elem_of_keys in Hkeys as [asignada Hget].
  exists asignada. split; [done|]. intros S c d a w.
  destruct (registrar_asistencia_casos self P (Some S) c d a w)
    as [[-> [Hok _]]|[[-> [Hok _]]|[[-> (_ & Hnin)]|[-> (_ & _ & Hdif)]]]]; simpl.
  - destruct Hok as [->|[_ Hget']]; [done|].
    split.
    + intros Hm. by pose proof (mensaje_de_inj _ _ _ _ Hm eq_refl).
    + intros Hdif. congruence.
  - destruct Hok as [->|[_ Hget']]; [done|].
    split.
    + intros Hm. by apply mensaje_de_mismo in Hm.
    + intros Hdif. congruence.
  - done.
  - split; [|done]. intros _ ->. done.
Qed.

(** C4.  A professor that is neither the sentinel nor in the roster is
    refused with the unknown-professor message, whatever the subject, the
    program, the date and the value of [asistio]. *)
Theorem C4_profesor_desconocido :
  ∀ (self : SistemaRegistroAsistencia) (P : string) (S c : option string)
    (d : date) (a : string) (w : mundo),
    P ≠ Otro_maestro →
    P ∉ profesores self →
    ∃ w' : mundo,
      registrar_asistencia self P S c d a w = (Normal (), w')
      ∧ mensaje_de w w' UnknownProfessor.
Proof.
  intros self P S c d a w Hne Hnin. eexists. split.
  - by apply registrar_asistencia_desconocido.
  - done.
Qed.

(** C5.  When [registrar_asistencia] refuses (its message is the
    unknown-professor or the subject-mismatch one), the database and the
    files are exactly what they were: no row inserted, no table created,
    nothing written. *)
Theorem C5_rechazo_no_cambia_estado :
  ∀ (self : SistemaRegistroAsistencia) (P : string) (S c : option string)
    (d : date) (a : string) (w : mundo) (r : resultado ()) (w' : mundo),
    registrar_asistencia self P S c d a w = (r, w') →
    mensaje_de w w' UnknownProfessor ∨ mensaje_de w w' (SubjectMismatch P (str_o S)) →
    bd w' = bd w ∧ archivos w' = archivos w.
Proof.
  intros self P S c d a w r w' Hreg Hfalla.
  destruct (registrar_asistencia_casos self P S c d a w)
    as [[Heq _]|[[Heq _]|[[Heq _]|[Heq _]]]];
    rewrite Heq in Hreg; injection Hreg as <- <-; [|done..].
  destruct Hfalla as [Hm|Hm];
    by pose proof (mensaje_de_inj _ _ _ _ Hm eq_refl).
Qed.

(** ** Global statistics *)

Lemma float_mul_comm (x y : float) : (x * y)%float = (y * x)%float.
Proof.
  apply Prim2SF_inj. rewrite !mul_spec. unfold SF64mul, SFmul.
  destruct (Prim2SF x) as [sx|sx| |sx mx ex], (Prim2SF y) as [sy|sy| |sy my ey];
    try reflexivity; rewrite ?(xorb_comm sx sy); try reflexivity.
  by rewrite (Pos.mul_comm mx my), (Z.add_comm ex ey).
Qed.

Section con_plataforma.
Context `{Plataforma}.

Lemma tasa_eq k n :
  tasa k n = ROUND (100 * REAL_of_INTEGER k / REAL_of_INTEGER n)%float 2.
Proof. unfold tasa. by rewrite (float_mul_comm (REAL_of_INTEGER k)). Qed.

(** C6.  In the global statistics, a program with [n > 0] records of which
    [k] have [asistio = "Sí"] has exactly one row, with total [n] and rate
    [ROUND(100.0 * k / n, 2)]; a program with no record has no row, and the
    query returns normally either way. *)
Theorem C6_tasa_de_cumplimiento :
  ∀ (w : mundo) (t : tabla_asistencia) (carrera : option string),
    asistencia (bd w) = Some t →
    ∃ estadisticas : list Estadistica.fila,
      consulta_global_por_carrera w = (Normal estadisticas, w)
      ∧ let grupo := filter (λ r, Asistencia.carrera r = carrera) (filas t) in
        let n := length grupo in
        let k := length (filter (λ r, Asistencia.asistio r = "Sí") grupo) in
        filter (λ e, Estadistica.carrera e = carrera) estadisticas
        = if decide (n = 0) then []
          else [ {| Estadistica.carrera := carrera;
                    Estadistica.total_clases := n;
                    Estadistica.tasa_cumplimiento :=
                      ROUND (100 * REAL_of_INTEGER k / REAL_of_INTEGER n)%float 2 |} ].
Proof.
  intros w t carrera Ht. eexists. split.
  - unfold consulta_global_por_carrera. by apply fetchall_eq.
  - cbv zeta. unfold SELECT_estadisticas.
    rewrite (agrupar_filter Asistencia.carrera fila_estadistica Estadistica.carrera)
      by done.
    destruct (filter _ (filas t)) as [|r g] eqn:Hg; [done|].
    rewrite decide_False by done.
    unfold fila_estadistica. cbn [fst snd]. by rewrite tasa_eq.
Qed.
End con_plataforma.

(** ** Range filters *)

Lemma conteos_cuentas (Q : Asistencia.fila → Prop) `{!∀ r, Decision (Q r)}
    (incluida : Asistencia.fila → Prop) `{!∀ r, Decision (incluida r)} k t :
  (∀ r, Q r ↔ incluida r) →
  conteos k (fila_reporte <$> agrupar clave_reporte (filter Q t))
  = cuentas (λ r, clave_reporte r = k ∧ incluida r) t.
Proof.
  intros HQ. rewrite conteos_agrupar. unfold cuentas, SUM_CASE_asistio.
  rewrite !list_filter_filter.
  f_equal; [f_equal|]; f_equal; apply list_filter_iff; intros r; rewrite <- HQ; tauto.
Qed.

Lemma fila_de_grupo_is_Some (Q : Asistencia.fila → Prop) `{!∀ r, Decision (Q r)} k t :
  is_Some (fila_de_grupo k (fila_reporte <$> agrupar clave_reporte (filter Q t)))
  ↔ ∃ r, r ∈ t ∧ clave_reporte r = k ∧ Q r.
Proof.
  unfold fila_de_grupo.
  rewrite (agrupar_filter clave_reporte fila_reporte Reporte.clave)
    by (by intros [[[? ?] ?] ?]).
  rewrite list_filter_filter.
  destruct (filter _ t) as [|r g] eqn:Hg; simpl.
  - split; [by intros [? ?]|]. intros (r & Hr & Hk & HQ).
    by destruct (filter_nil_not_elem_of _ _ r Hg).
  - split; [intros _ | by eexists].
    assert (Hr : r ∈ filter (λ r, clave_reporte r = k ∧ Q r) t) by (rewrite Hg; by left).
    apply list_elem_of_filter in Hr as [[? ?] ?]. by exists r.
Qed.

Lemma igual_SQL_Some (a : option string) (x : string) :
  igual_SQL a (Some x) ↔ a = Some x.
Proof. destruct a; simpl; [|done]. split; [by intros -> | by intros [= ->]]. Qed.

Lemma igual_SQL_eq (a b : option string) : igual_SQL a b → a = b ∧ is_Some b.
Proof. destruct a, b; simpl; try done. intros ->. split; [done | by eexists]. Qed.

(** C7.  [consulta_por_profesor] counts a stored record, in the group of its
    (program, professor, subject), if and only if its professor is the name
    asked for and its stored date string lies between the ISO strings of the
    two dates in lexicographic order, both ends included; a group has a row
    exactly when some record is counted in it.  [consulta_por_materia] does
    the same with the subject field. *)
Theorem C7_consultas_filtran_por_nombre_y_rango :
  ∀ (w : mundo) (t : tabla_asistencia) (nombre : string) (inicio fin : date),
    asistencia (bd w) = Some t →
    ∃ por_profesor por_materia : list Reporte.fila,
      consulta_por_profesor nombre inicio fin w = (Normal por_profesor, w)
      ∧ consulta_por_materia (Some nombre) inicio fin w = (Normal por_materia, w)
      ∧ ∀ k : option string * string * option string,
          conteos k por_profesor
          = cuentas (λ r, clave_reporte r = k ∧ Asistencia.profesor r = nombre
                          ∧ en_rango (isoformat inicio) (isoformat fin) r) (filas t)
          ∧ (is_Some (fila_de_grupo k por_profesor)
             ↔ ∃ r, r ∈ filas t ∧ clave_reporte r = k ∧ Asistencia.profesor r = nombre
                    ∧ en_rango (isoformat inicio) (isoformat fin) r)
          ∧ conteos k por_materia
            = cuentas (λ r, clave_reporte r = k ∧ Asistencia.materia r = Some nombre
                            ∧ en_rango (isoformat inicio) (isoformat fin) r) (filas t)
          ∧ (is_Some (fila_de_grupo k por_materia)
             ↔ ∃ r, r ∈ filas t ∧ clave_reporte r = k
                    ∧ Asistencia.materia r = Some nombre
                    ∧ en_rango (isoformat inicio) (isoformat fin) r).
Proof.
  intros w t nombre inicio fin Ht. eexists _, _. split_and!.
  - unfold consulta_por_profesor. by apply fetchall_eq.
  - unfold consulta_por_materia. by apply fetchall_eq.
  - intros k. unfold SELECT_reporte_profesor, SELECT_reporte_materia. split_and!.
    + apply conteos_cuentas. intros r. by rewrite BETWEEN_en_rango.
    + rewrite fila_de_grupo_is_Some. by setoid_rewrite BETWEEN_en_rango.
    + apply conteos_cuentas. intros r. by rewrite BETWEEN_en_rango, igual_SQL_Some.
    + rewrite fila_de_grupo_is_Some. setoid_rewrite BETWEEN_en_rango.
      by setoid_rewrite igual_SQL_Some.
Qed.

(** ** Export *)

Section exportar.
Context `{Plataforma}.

Lemma generar_reporte_pdf_eq datos columnas fi ff nombre w :
  generar_reporte_pdf datos columnas fi ff nombre w
  = (Normal (),
     {| bd := bd w;
        archivos := <[nombre := documento datos columnas fi ff]> (archivos w);
        pantalla := (pantalla w ++ [st_success ("Reporte generado: " +:+ nombre)])%list |}).
Proof. reflexivity. Qed.

Lemma exportar_o_avisar {A} (filas : list A) (tupla : A → list py_obj)
    columnas fi ff destino aviso w :
  ∃ w',
    (if no_vacia filas
     then generar_reporte_pdf (tupla <$> filas) columnas fi ff destino
     else emitir aviso) w = (Normal (), w')
    ∧ efecto_pestana true (filas = []) destino aviso w w'.
Proof.
  destruct filas as [|x filas]; simpl.
  - eexists. split; [done|]. split_and!; [done | | by left].
    exists [aviso]. split; [done|]. intros _ _. by left.
  - eexists. split; [apply generar_reporte_pdf_eq|]. split_and!; [done | |].
    + eexists. split; [done|]. done.
    + simpl. intros nombre.
      destruct (decide (destino = nombre)) as [->|Hne]; [by right|].
      left. by rewrite lookup_insert_ne.
Qed.

Lemma efecto_pestana_nada boton vacia destino aviso w :
  boton = false → efecto_pestana boton vacia destino aviso w w.
Proof.
  intros ->. split_and!; [done | | by left].
  exists []. split; [by rewrite app_nil_r | done].
Qed.

Lemma pestana_profesor_efecto ui w t :
  asistencia (bd w) = Some t →
  ∃ w', pestana_profesor ui w = (Normal (), w')
    ∧ efecto_pestana (boton_reporte_profesor_pdf ui)
        (SELECT_reporte_profesor (profesor_seleccionado ui)
           (isoformat (fecha_inicio_profesor ui)) (isoformat (fecha_fin_profesor ui))
           (filas t) = [])
        "reporte_asistencia_profesor.pdf" aviso_profesor w w'.
Proof.
  intros Ht. unfold pestana_profesor.
  destruct (boton_reporte_profesor_pdf ui) eqn:Hb.
  - unfold consulta_por_profesor, mbind, M_bind. rewrite (fetchall_eq _ _ _ Ht).
    apply exportar_o_avisar.
  - exists w. split; [done|]. by apply efecto_pestana_nada.
Qed.

Lemma pestana_materia_efecto ui w t :
  asistencia (bd w) = Some t →
  ∃ w', pestana_materia ui w = (Normal (), w')
    ∧ efecto_pestana (boton_reporte_materia_pdf ui)
        (SELECT_reporte_materia (materia_seleccionada ui)
           (isoformat (fecha_inicio_materia ui)) (isoformat (fecha_fin_materia ui))
           (filas t) = [])
        "reporte_asistencia_materia.pdf" aviso_materia w w'.
Proof.
  intros Ht. unfold pestana_materia.
  destruct (boton_reporte_materia_pdf ui) eqn:Hb.
  - unfold consulta_por_materia, mbind, M_bind. rewrite (fetchall_eq _ _ _ Ht).
    apply exportar_o_avisar.
  - exists w. split; [done|]. by apply efecto_pestana_nada.
Qed.

Lemma pestana_carrera_efecto ui w t :
  asistencia (bd w) = Some t →
  ∃ w', pestana_carrera ui w = (Normal (), w')
    ∧ efecto_pestana (boton_reporte_carrera_pdf ui)
        (SELECT_estadisticas (filas t) = [])
        "reporte_global_carrera.pdf" aviso_carrera w w'.
Proof.
  intros Ht. unfold pestana_carrera, consulta_global_por_carrera, mbind, M_bind.
  rewrite (fetchall_eq _ _ _ Ht). cbn [emitir].
  set (w1 := con_mensaje w _).
  destruct (boton_reporte_carrera_pdf ui) eqn:Hb.
  - destruct (exportar_o_avisar (SELECT_estadisticas (filas t)) Estadistica.tupla
                ["Carrera"; "Total Clases"; "Tasa de Cumplimiento (%)"]
                (PyStr "N/A") (PyStr "N/A") "reporte_global_carrera.pdf"
                aviso_carrera w1) as (w' & Heq & Hbd & (ms & Hms & Hav) & Harch).
    exists w'. split; [exact Heq|]. split_and!; [done | | done].
    exists (st_table ["Carrera"; "Total Clases"; "Tasa de Cumplimiento (%)"]
              (Estadistica.tupla <$> SELECT_estadisticas (filas t)) :: ms).
    split.
    + rewrite Hms. subst w1. simpl. by rewrite <- app_assoc.
    + intros Hb' Hv. right. by apply Hav.
  - exists w1. split; [done|]. split_and!; [done | | by left].
    eexists. split; [done|]. done.
Qed.
End exportar.

Section exportar_pagina.
Context `{Plataforma}.

(** C8.  In one run of the reports page, a tab whose button was pressed and
    whose query returned no row shows its warning and leaves its
    destination file as it was; and a file differs after the run only if
    it is the destination of a tab whose button was pressed and whose
    query returned at least one row. *)
Theorem C8_sin_filas_no_se_genera_documento :
  ∀ (self : SistemaRegistroAsistencia) (ui : widgets) (w : mundo)
    (t : tabla_asistencia),
    asistencia (bd w) = Some t →
    let por_profesor :=
      SELECT_reporte_profesor (profesor_seleccionado ui)
        (isoformat (fecha_inicio_profesor ui)) (isoformat (fecha_fin_profesor ui))
        (filas t) in
    let por_materia :=
      SELECT_reporte_materia (materia_seleccionada ui)
        (isoformat (fecha_inicio_materia ui)) (isoformat (fecha_fin_materia ui))
        (filas t) in
    let estadisticas := SELECT_estadisticas (filas t) in
    ∃ (w' : mundo) (mensajes : list st_evento),
      mostrar_reportes_detallados self ui w = (Normal (), w')
      ∧ pantalla w' = (pantalla w ++ mensajes)%list
      ∧ (boton_reporte_profesor_pdf ui → por_profesor = [] →
           aviso_profesor ∈ mensajes
           ∧ archivos w' !! "reporte_asistencia_profesor.pdf"
             = archivos w !! "reporte_asistencia_profesor.pdf")
      ∧ (boton_reporte_materia_pdf ui → por_materia = [] →
           aviso_materia ∈ mensajes
           ∧ archivos w' !! "reporte_asistencia_materia.pdf"
             = archivos w !! "reporte_asistencia_materia.pdf")
      ∧ (boton_reporte_carrera_pdf ui → estadisticas = [] →
           aviso_carrera ∈ mensajes
           ∧ archivos w' !! "reporte_global_carrera.pdf"
             = archivos w !! "reporte_global_carrera.pdf")
      ∧ (∀ nombre : string,
           archivos w' !! nombre = archivos w !! nombre
           ∨ (nombre = "reporte_asistencia_profesor.pdf"
              ∧ boton_reporte_profesor_pdf ui ∧ por_profesor ≠ [])
           ∨ (nombre = "reporte_asistencia_materia.pdf"
              ∧ boton_reporte_materia_pdf ui ∧ por_materia ≠ [])
           ∨ (nombre = "reporte_global_carrera.pdf"
              ∧ boton_reporte_carrera_pdf ui ∧ estadisticas ≠ [])).
Proof.
  intros self ui w t Ht por_profesor por_materia estadisticas.
  destruct (pestana_profesor_efecto ui w t Ht)
    as (w1 & E1 & Hbd1 & (ms1 & Hms1 & Hav1) & Harch1).
  assert (Ht1 : asistencia (bd w1) = Some t) by (by rewrite Hbd1).
  destruct (pestana_materia_efecto ui w1 t Ht1)
    as (w2 & E2 & Hbd2 & (ms2 & Hms2 & Hav2) & Harch2).
  assert (Ht2 : asistencia (bd w2) = Some t) by (by rewrite Hbd2).
  destruct (pestana_carrera_efecto ui w2 t Ht2)
    as (w3 & E3 & Hbd3 & (ms3 & Hms3 & Hav3) & Harch3).
  fold por_profesor in Hav1, Harch1. fold por_materia in Hav2, Harch2.
  fold estadisticas in Hav3, Harch3.
  assert (Hcambio : ∀ nombre : string,
    archivos w3 !! nombre = archivos w !! nombre
    ∨ (nombre = "reporte_asistencia_profesor.pdf"
       ∧ boton_reporte_profesor_pdf ui ∧ por_profesor ≠ [])
    ∨ (nombre = "reporte_asistencia_materia.pdf"
       ∧ boton_reporte_materia_pdf ui ∧ por_materia ≠ [])
    ∨ (nombre = "reporte_global_carrera.pdf"
       ∧ boton_reporte_carrera_pdf ui ∧ estadisticas ≠ [])).
  { intros nombre.
    destruct (Harch3 nombre) as [E32|?]; [|by right; right; right].
    destruct (Harch2 nombre) as [E21|?]; [|by right; right; left].
    destruct (Harch1 nombre) as [E10|?]; [|by right; left].
    left. congruence. }
  exists w3, (ms1 ++ ms2 ++ ms3)%list. split_and!.
  - unfold mostrar_reportes_detallados, mbind, M_bind. by rewrite E1, E2, E3.
  - by rewrite Hms3, Hms2, Hms1, <- !app_assoc.
  - intros Hb Hv. split; [rewrite elem_of_app; left; by apply Hav1|].
    destruct (Hcambio "reporte_asistencia_profesor.pdf")
      as [?|[(_ & _ & ?)|[([=] & _)|([=] & _)]]]; done.
  - intros Hb Hv. split; [rewrite !elem_of_app; right; left; by apply Hav2|].
    destruct (Hcambio "reporte_asistencia_materia.pdf")
      as [?|[([=] & _)|[(_ & _ & ?)|([=] & _)]]]; done.
  - intros Hb Hv. split; [rewrite !elem_of_app; right; right; by apply Hav3|].
    destruct (Hcambio "reporte_global_carrera.pdf")
      as [?|[([=] & _)|[([=] & _)|(_ & _ & ?)]]]; done.
  - exact Hcambio.
Qed.

End exportar_pagina.

(** ** eliminar_registros *)

Section tras_eliminar.
Context `{Plataforma}.

(** C9.  Once [eliminar_registros] has returned, the three queries return
    the empty list, whatever their arguments, and leave the world as it
    is, so they keep doing so until something is registered. *)
Theorem C9_tras_eliminar_consultas_vacias :
  ∀ (w w' : mundo) (nombre : string) (materia : option string) (inicio fin : date),
    eliminar_registros w = (Normal (), w') →
    consulta_por_profesor nombre inicio fin w' = (Normal [], w')
    ∧ consulta_por_materia materia inicio fin w' = (Normal [], w')
    ∧ consulta_global_por_carrera w' = (Normal [], w').
Proof.
  intros w w' nombre materia inicio fin Hdel.
  assert (Ht : asistencia (bd w')
               = Some {| filas := []; secuencia :=
                           from_option secuencia 0%Z (asistencia (bd w)) |}).
  { unfold eliminar_registros in Hdel. desplegar_M.
    destruct (asistencia (bd w)) as [t|]; simpl in Hdel; [|done].
    by injection Hdel as <-. }
  unfold consulta_por_profesor, consulta_por_materia, consulta_global_por_carrera.
  by rewrite !(fetchall_eq _ _ _ Ht).
Qed.
End tras_eliminar.

(** ** The roster *)

(** C10.  The list of professors built by [__init__] is the list of keys of
    the professor-to-subject dictionary, without repetition: the professors
    are exactly those of the rows read, each has a subject, and when a
    professor comes in several rows the subject kept is that of the last row
    read for that professor. *)
Theorem C10_profesores_son_las_claves :
  ∀ (w : mundo) (self : SistemaRegistroAsistencia)
    (antes : list (string * string)) (p m : string) (despues : list (string * string)),
    (__init__ w).1 = Normal self →
    SELECT_profesor_materia (bd w) = (antes ++ (p, m) :: despues)%list →
    p ∉ despues.*1 →
    profesores self = PyDict.keys (profesor_materia self)
    ∧ NoDup (profesores self)
    ∧ (∀ q, q ∈ profesores self ↔ is_Some (PyDict.get (profesor_materia self) q))
    ∧ (∀ q, q ∈ profesores self ↔ q ∈ (SELECT_profesor_materia (bd w)).*1)
    ∧ PyDict.get (profesor_materia self) p = Some m.
Proof.
  intros w self antes p m despues Hinit Hrows Hp.
  rewrite __init___eq in Hinit. injection Hinit as <-. cbn [profesores profesor_materia].
  split_and!.
  - done.
  - apply PyDict_comprehension_NoDup.
  - intros q. apply PyDict_elem_of_keys.
  - intros q. unfold PyDict.comprehension. rewrite PyDict_foldl_keys.
    split; [by intros [?%elem_of_nil|?] | by right].
  - rewrite Hrows. by apply PyDict_comprehension_ultima.
Qed.

(** * Further properties *)

(** ** The ISO text of a date *)

Lemma compare_app a a' b b' :
  String.length a = String.length a' →
  String.compare (a +:+ b) (a' +:+ b')
  = match String.compare a a' with
    | Eq => String.compare b b'
    | c => c
    end.
Proof.
  revert a'. induction a as [|x a IH]; intros [|x' a']; simpl; try done.
  intros [= Hlen]. destruct (Ascii.compare x x'); [by apply IH | done | done].
Qed.

Lemma length_app_string a b :
  String.length (a +:+ b) = String.length a + String.length b.
Proof. induction a as [|x a IH]; simpl; [done | by rewrite IH]. Qed.

Lemma comparison_eqb_eq c1 c2 : comparison_eqb c1 c2 = true → c1 = c2.
Proof. by destruct c1, c2. Qed.

Lemma dos_digitos_tabla :
  forallb (λ m, forallb (λ n,
      comparison_eqb (String.compare (dos m) (dos n)) (Nat.compare m n)
      && Nat.eqb (String.length (dos m)) 2) (seq 0 100)) (seq 0 100) = true.
Proof. vm_compute. reflexivity. Qed.

Lemma dos_digitos m n :
  (m < 100)%nat → (n < 100)%nat →
  String.compare (dos m) (dos n) = Nat.compare m n
  ∧ String.length (dos m) = 2.
Proof.
  intros Hm Hn. pose proof dos_digitos_tabla as H.
  rewrite List.forallb_forall in H.
  specialize (H m). rewrite List.forallb_forall in H.
  assert (Hin : ∀ k, k < 100 → List.In k (seq 0 100)).
  { intros k Hk. apply List.in_seq. lia. }
  specialize (H (Hin m Hm) n (Hin n Hn)).
  apply andb_prop in H as [H1 H2].
  split; [by apply comparison_eqb_eq | by apply Nat.eqb_eq].
Qed.

Lemma cuatro_digitos_tabla :
  forallb (λ y, String.eqb (zfill 4 (str_nat y)) (dos (y / 100) +:+ dos (y mod 100)))
    (seq 0 (100 * 100)) = true.
Proof. vm_compute. reflexivity. Qed.

Lemma cuatro_digitos y :
  (y < 100 * 100)%nat → zfill 4 (str_nat y) = dos (y / 100) +:+ dos (y mod 100).
Proof.
  intros Hy. pose proof cuatro_digitos_tabla as H.
  rewrite List.forallb_forall in H.
  apply String.eqb_eq, H, List.in_seq. lia.
Qed.

Lemma compare_centenas y y' :
  Nat.compare y y'
  = match Nat.compare (y / 100) (y' / 100) with
    | Eq => Nat.compare (y mod 100) (y' mod 100)
    | c => c
    end.
Proof.
  pose proof (Nat.div_mod y 100 ltac:(done)) as Hy.
  pose proof (Nat.div_mod y' 100 ltac:(done)) as Hy'.
  pose proof (Nat.mod_upper_bound y 100 ltac:(done)).
  pose proof (Nat.mod_upper_bound y' 100 ltac:(done)).
  destruct (Nat.compare_spec (y / 100) (y' / 100)) as [Hq|Hq|Hq].
  - destruct (Nat.compare_spec (y mod 100) (y' mod 100)) as [Hr|Hr|Hr].
    + apply Nat.compare_eq_iff. lia.
    + apply Nat.compare_lt_iff. lia.
    + apply Nat.compare_gt_iff. lia.
  - apply Nat.compare_lt_iff. lia.
  - apply Nat.compare_gt_iff. lia.
Qed.

Lemma compare_anio y y' :
  (y < 100 * 100)%nat → (y' < 100 * 100)%nat →
  String.compare (zfill 4 (str_nat y)) (zfill 4 (str_nat y')) = Nat.compare y y'
  ∧ String.length (zfill 4 (str_nat y)) = 4.
Proof.
  intros Hy Hy'. rewrite !cuatro_digitos by done.
  assert (y / 100 < 100) by (apply Nat.Div0.div_lt_upper_bound; lia).
  assert (y' / 100 < 100) by (apply Nat.Div0.div_lt_upper_bound; lia).
  pose proof (Nat.mod_upper_bound y 100 ltac:(done)).
  pose proof (Nat.mod_upper_bound y' 100 ltac:(done)).
  destruct (dos_digitos (y / 100) (y' / 100)) as [Hc Hl]; [done..|].
  destruct (dos_digitos (y' / 100) (y / 100)) as [_ Hl']; [done..|].
  destruct (dos_digitos (y mod 100) (y' mod 100)) as [Hc2 Hl2]; [done..|].
  split.
  - rewrite compare_app by congruence. by rewrite Hc, Hc2, (compare_centenas y y').
  - by rewrite length_app_string, Hl, Hl2.
Qed.

Lemma isoformat_compare d1 d2 :
  fecha_valida d1 → fecha_valida d2 →
  String.compare (isoformat d1) (isoformat d2) = cronologico d1 d2.
Proof.
  intros (Hy1 & Hm1 & Hd1) (Hy2 & Hm2 & Hd2). unfold isoformat, cronologico.
  destruct (compare_anio (year d1) (year d2)) as [Hy Hly]; [lia..|].
  destruct (compare_anio (year d2) (year d1)) as [_ Hly']; [lia..|].
  destruct (dos_digitos (month d1) (month d2)) as [Hm Hlm]; [lia..|].
  destruct (dos_digitos (month d2) (month d1)) as [_ Hlm']; [lia..|].
  destruct (dos_digitos (day d1) (day d2)) as [Hd _]; [lia..|].
  fold (dos (month d1)) (dos (month d2)) (dos (day d1)) (dos (day d2)).
  rewrite compare_app by congruence. rewrite Hy.
  destruct (Nat.compare (year d1) (year d2)); [|done..].
  rewrite (compare_app "-" "-") by done. cbn [String.compare Ascii.compare].
  change (String.compare "-" "-") with Eq. cbv iota.
  rewrite compare_app by congruence. rewrite Hm.
  destruct (Nat.compare (month d1) (month d2)); [|done..].
  rewrite (compare_app "-" "-") by done.
  change (String.compare "-" "-") with Eq. cbv iota. exact Hd.
Qed.

Lemma leb_compare s t : String.leb s t = true ↔ String.compare s t ≠ Gt.
Proof. unfold String.leb. by destruct (String.compare s t). Qed.

Lemma cronologico_Eq d1 d2 : cronologico d1 d2 = Eq → d1 = d2.
Proof.
  unfold cronologico. destruct d1 as [y1 m1 d1], d2 as [y2 m2 d2]; simpl.
  destruct (Nat.compare_spec y1 y2) as [->| |]; [|done..].
  destruct (Nat.compare_spec m1 m2) as [->| |]; [|done..].
  by intros ->%Nat.compare_eq_iff.
Qed.

Lemma isoformat_length d : fecha_valida d → String.length (isoformat d) = 10.
Proof.
  intros (Hy & Hm & Hd). unfold isoformat.
  destruct (compare_anio (year d) (year d)) as [_ Hly]; [lia..|].
  destruct (dos_digitos (month d) (month d)) as [_ Hlm]; [lia..|].
  destruct (dos_digitos (day d) (day d)) as [_ Hld]; [lia..|].
  fold (dos (month d)) (dos (day d)).
  rewrite !length_app_string, Hly, Hlm, Hld. done.
Qed.

(** The ISO text of a date has ten characters, and the ISO texts of two
    dates compare, byte by byte, as the dates do in the calendar; so two
    different dates never share a text. *)
Theorem isoformat_conserva_orden :
  ∀ d1 d2 : date,
    fecha_valida d1 → fecha_valida d2 →
    String.length (isoformat d1) = 10
    ∧ String.compare (isoformat d1) (isoformat d2) = cronologico d1 d2
    ∧ (lex_le (isoformat d1) (isoformat d2) ↔ cronologico d1 d2 ≠ Gt)
    ∧ (isoformat d1 = isoformat d2 → d1 = d2).
Proof.
  intros d1 d2 H1 H2. pose proof (isoformat_compare d1 d2 H1 H2) as Hc.
  split_and!.
  - by apply isoformat_length.
  - done.
  - by rewrite <- leb_lex_le, leb_compare, Hc.
  - intros Heq. apply cronologico_Eq. rewrite <- Hc, Heq. apply compare_refl.
Qed.

Lemma BETWEEN_en_periodo inicio fin d :
  fecha_valida inicio → fecha_valida fin → fecha_valida d →
  BETWEEN (isoformat d) (isoformat inicio) (isoformat fin) ↔ en_periodo inicio fin d.
Proof.
  intros Hi Hf Hd. unfold BETWEEN, en_periodo.
  rewrite andb_True, !Is_true_true, !leb_compare, !isoformat_compare by done. done.
Qed.

(** ** One more record in a report *)

Lemma conteos_tras_insertar (Q : Asistencia.fila → Prop) `{!∀ r, Decision (Q r)}
    (l : list Asistencia.fila) (nuevo : Asistencia.fila) k :
  conteos k (fila_reporte <$> agrupar clave_reporte (filter Q (l ++ [nuevo])%list))
  = if decide (clave_reporte nuevo = k ∧ Q nuevo)
    then sumar_registro (Asistencia.asistio nuevo)
           (conteos k (fila_reporte <$> agrupar clave_reporte (filter Q l)))
    else conteos k (fila_reporte <$> agrupar clave_reporte (filter Q l)).
Proof.
  rewrite !conteos_agrupar, !list_filter_filter, !filter_app.
  rewrite !length_app, !SUM_CASE_asistio_app.
  destruct (decide (clave_reporte nuevo = k ∧ Q nuevo)) as [Hsi|Hno].
  - rewrite (filter_cons_True _ _ []), filter_nil by done.
    unfold sumar_registro, SUM_CASE_asistio at 2 4. cbn [fst snd length].
    rewrite !filter_cons, !filter_nil.
    by destruct (decide (Asistencia.asistio nuevo = "Sí")),
      (decide (Asistencia.asistio nuevo = "No")).
  - rewrite (filter_cons_False _ _ []), filter_nil by done.
    unfold SUM_CASE_asistio at 2 4. cbn [length filter].
    by rewrite !filter_nil, !Nat.add_0_r.
Qed.

(** A registration that passes the validation, made for the date [d] on a
    table with an identifier left, returns normally and shows in the reports
    by professor and by subject for a period exactly when [d] is a day of
    the period: then the group of the new record gains one class, given or
    missed according to [asistio]; every other group, and every group when
    [d] is outside the period, keeps its counts.  The counts before are those
    of the queries run before the registration; when the table did not exist
    they could not be run, and every group starts from nothing. *)
Theorem registrar_y_consultar_periodo :
  ∀ (self : SistemaRegistroAsistencia) (P S : string) (c : option string)
    (d : date) (a : string) (w : mundo) (inicio fin : date),
    registro_valido self P (Some S) →
    hay_lugar (bd w) →
    fecha_valida d → fecha_valida inicio → fecha_valida fin →
    ∃ (w' : mundo) (despues_p despues_m : list Reporte.fila),
      registrar_asistencia self P (Some S) c d a w = (Normal (), w')
      ∧ (consulta_por_profesor P inicio fin w').1 = Normal despues_p
      ∧ (consulta_por_materia (Some S) inicio fin w').1 = Normal despues_m
      ∧ ∀ k : option string * string * option string,
          (∀ antes_p antes_m : list Reporte.fila,
             (consulta_por_profesor P inicio fin w).1 = Normal antes_p →
             (consulta_por_materia (Some S) inicio fin w).1 = Normal antes_m →
             conteos k despues_p
             = (if decide (k = (c, P, Some S) ∧ en_periodo inicio fin d)
                then sumar_registro a (conteos k antes_p) else conteos k antes_p)
             ∧ conteos k despues_m
               = (if decide (k = (c, P, Some S) ∧ en_periodo inicio fin d)
                  then sumar_registro a (conteos k antes_m) else conteos k antes_m))
          ∧ (asistencia (bd w) = None →
             conteos k despues_p
             = (if decide (k = (c, P, Some S) ∧ en_periodo inicio fin d)
                then sumar_registro a (0, 0, 0) else (0, 0, 0))
             ∧ conteos k despues_m = conteos k despues_p).
Proof.
  intros self P S c d a w inicio fin Hval Hl Hd Hi Hf.
  destruct (tras_registrar_filas w P (Some S) c d a) as (t' & Ht' & Hfilas).
  set (nuevo := {| Asistencia.id := _ |}) in Hfilas.
  exists (tras_registrar w P (Some S) c d a). eexists _, _. split_and!.
  { destruct Hval as [->|[Hin Hget]];
      [by apply registrar_asistencia_sentinela | by apply registrar_asistencia_valida]. }
  { unfold consulta_por_profesor. erewrite fetchall_eq; [reflexivity | exact Ht']. }
  { unfold consulta_por_materia. erewrite fetchall_eq; [reflexivity | exact Ht']. }
  intros k. rewrite Hfilas.
  unfold SELECT_reporte_profesor, SELECT_reporte_materia.
  rewrite !conteos_tras_insertar.
  assert (Hp : clave_reporte nuevo = k
               ∧ Asistencia.profesor nuevo = P
                 ∧ BETWEEN (Asistencia.fecha nuevo) (isoformat inicio) (isoformat fin)
               ↔ k = (c, P, Some S) ∧ en_periodo inicio fin d).
  { cbn. rewrite BETWEEN_en_periodo by done. split; [by intros (<- & _ & ?) | by intros [-> ?]]. }
  assert (Hm : clave_reporte nuevo = k
               ∧ igual_SQL (Asistencia.materia nuevo) (Some S)
                 ∧ BETWEEN (Asistencia.fecha nuevo) (isoformat inicio) (isoformat fin)
               ↔ k = (c, P, Some S) ∧ en_periodo inicio fin d).
  { cbn. rewrite BETWEEN_en_periodo by done. split; [by intros (<- & _ & ?) | by intros [-> ?]]. }
  rewrite (decide_ext _ _ _ _ Hp), (decide_ext _ _ _ _ Hm). cbn [Asistencia.asistio nuevo].
  split.
  - intros antes_p antes_m Hap Ham.
    apply fetchall_registros in Hap as ->. apply fetchall_registros in Ham as ->.
    done.
  - intros Hnone. unfold registros. rewrite Hnone. cbn [from_option].
    rewrite !filter_nil. by destruct (decide _).
Qed.

(** ** What every report looks like *)

Section forma_de_los_reportes.
Context {A K : Type} `{EqDecision K}.

Lemma agrupar_claves (clave : A → K) (l : list A) :
  (agrupar clave l).*1 = remove_dups (clave <$> l).
Proof.
  unfold agrupar. rewrite <- list_fmap_compose.
  induction (remove_dups (clave <$> l)) as [|k ks IH]; [done|].
  by rewrite !fmap_cons, IH.
Qed.

Lemma elem_of_agrupar (clave : A → K) (l : list A) k g :
  (k, g) ∈ agrupar clave l →
  g = filter (λ r, clave r = k) l ∧ ∃ r, r ∈ l ∧ clave r = k.
Proof.
  unfold agrupar. intros (k' & [= -> ->] & Hk)%list_elem_of_fmap.
  split; [done|].
  apply elem_of_remove_dups, list_elem_of_fmap in Hk as (r & -> & Hr). by exists r.
Qed.

Lemma length_filter_particion (P : A → Prop) `{!∀ x, Decision (P x)} (l : list A) :
  length (filter P l) + length (filter (λ x, ¬ P x) l) = length l.
Proof.
  induction l as [|x l IH]; [done|].
  rewrite !filter_cons. destruct (decide (P x)) as [Hx|Hx].
  - rewrite decide_False by (intros Hn; by apply Hn). simpl. lia.
  - rewrite decide_True by done. simpl. lia.
Qed.

Lemma suma_de_grupos (clave : A → K) (ks : list K) (l : list A) :
  NoDup ks → (∀ r, r ∈ l → clave r ∈ ks) →
  sum_list ((λ k, length (filter (λ r, clave r = k) l)) <$> ks) = length l.
Proof.
  intros Hnd. revert l. induction Hnd as [|k0 ks Hk0 Hnd IH]; intros l Hl.
  - destruct l as [|r l]; [done|].
    assert (Hr : clave r ∈ []) by (apply Hl; by left). by apply elem_of_nil in Hr.
  - rewrite fmap_cons. cbn [sum_list sum_list_with].
    rewrite <- (length_filter_particion (λ r, clave r = k0) l).
    f_equal. rewrite <- (IH (filter (λ r, ¬ clave r = k0) l)).
    + apply (f_equal sum_list), Forall_fmap_ext, Forall_forall.
      intros k Hk. rewrite list_filter_filter. f_equal. apply list_filter_iff.
      intros r. split; [|tauto]. intros Heq. split; [done|]. congruence.
    + intros r [Hne Hr]%list_elem_of_filter.
      pose proof (Hl r Hr) as Hin. apply elem_of_cons in Hin as [?|?]; done.
Qed.
End forma_de_los_reportes.

Lemma fila_reporte_clave kg : Reporte.clave (fila_reporte kg) = kg.1.
Proof. by destruct kg as [[[? ?] ?] ?]. Qed.

Lemma reporte_claves (l : list Asistencia.fila) :
  Reporte.clave <$> (fila_reporte <$> agrupar clave_reporte l)
  = remove_dups (clave_reporte <$> l).
Proof.
  rewrite <- list_fmap_compose, <- agrupar_claves.
  apply list_fmap_ext. intros ? kg _. apply fila_reporte_clave.
Qed.

Lemma elem_of_reporte (l : list Asistencia.fila) fila :
  fila ∈ fila_reporte <$> agrupar clave_reporte l →
  ∃ r, r ∈ l ∧ clave_reporte r = Reporte.clave fila
       ∧ fila = fila_reporte (Reporte.clave fila,
                              filter (λ r, clave_reporte r = Reporte.clave fila) l).
Proof.
  intros ([k g] & -> & Hkg)%list_elem_of_fmap.
  apply elem_of_agrupar in Hkg as (-> & r & Hr & Hk).
  exists r. rewrite fila_reporte_clave. by split_and!.
Qed.

Lemma reporte_suma (l : list Asistencia.fila) :
  sum_list (Reporte.total_clases <$> (fila_reporte <$> agrupar clave_reporte l))
  = length l.
Proof.
  unfold agrupar. rewrite <- !list_fmap_compose.
  rewrite <- (suma_de_grupos clave_reporte (remove_dups (clave_reporte <$> l)) l).
  - done.
  - apply NoDup_remove_dups.
  - intros r Hr. apply elem_of_remove_dups, list_elem_of_fmap. by exists r.
Qed.

Lemma SUM_CASE_cota (g : list Asistencia.fila) :
  (SUM_CASE_asistio "Sí" g + SUM_CASE_asistio "No" g ≤ length g)%nat.
Proof.
  unfold SUM_CASE_asistio. induction g as [|r g IH]; [done|].
  rewrite !filter_cons.
  destruct (decide (Asistencia.asistio r = "Sí")) as [Hs|Hs],
    (decide (Asistencia.asistio r = "No")) as [Hn|Hn]; simpl; try lia.
  by rewrite Hs in Hn.
Qed.

Lemma SUM_CASE_total (g : list Asistencia.fila) :
  asistio_si_o_no g →
  SUM_CASE_asistio "Sí" g + SUM_CASE_asistio "No" g = length g.
Proof.
  unfold SUM_CASE_asistio, asistio_si_o_no. induction g as [|r g IH]; [done|].
  intros Hg. rewrite !filter_cons.
  assert (IH' : length (filter (λ r, Asistencia.asistio r = "Sí") g)
                + length (filter (λ r, Asistencia.asistio r = "No") g) = length g).
  { apply IH. intros r' Hr'. apply Hg. by right. }
  destruct (Hg r) as [Hs|Hn]; [by left| |].
  - rewrite decide_True by done. rewrite decide_False by (by rewrite Hs). simpl. lia.
  - rewrite decide_False by (by rewrite Hn). rewrite decide_True by done. simpl. lia.
Qed.

Lemma reporte_total_positivo (l : list Asistencia.fila) fila :
  fila ∈ fila_reporte <$> agrupar clave_reporte l →
  (1 ≤ Reporte.total_clases fila)%nat.
Proof.
  intros ([k g] & -> & Hkg)%list_elem_of_fmap.
  apply elem_of_agrupar in Hkg as (-> & r & Hr & Hk).
  cbn [fila_reporte Reporte.total_clases snd].
  destruct (filter _ _) as [|? ?] eqn:Hg; [|simpl; lia].
  by destruct (filter_nil_not_elem_of _ _ r Hg).
Qed.

Section reportes.
Context `{Plataforma}.

Lemma estadisticas_carreras (l : list Asistencia.fila) :
  Estadistica.carrera <$> SELECT_estadisticas l = remove_dups (Asistencia.carrera <$> l).
Proof.
  unfold SELECT_estadisticas. rewrite <- list_fmap_compose, <- agrupar_claves.
  by apply list_fmap_ext.
Qed.

Lemma estadisticas_suma (l : list Asistencia.fila) :
  sum_list (Estadistica.total_clases <$> SELECT_estadisticas l) = length l.
Proof.
  unfold SELECT_estadisticas, agrupar. rewrite <- !list_fmap_compose.
  rewrite <- (suma_de_grupos Asistencia.carrera
                (remove_dups (Asistencia.carrera <$> l)) l).
  - done.
  - apply NoDup_remove_dups.
  - intros r Hr. apply elem_of_remove_dups, list_elem_of_fmap. by exists r.
Qed.

(** Every report has one row per group and no empty group: the keys of its
    rows are pairwise different and every row counts at least one class.  The
    rows of the report by professor all name the professor asked for, those
    of the report by subject the subject asked for, which is then a subject
    and not [None]. *)
Theorem reportes_un_renglon_por_grupo :
  ∀ (w : mundo) (P : string) (S : option string) (inicio fin : date)
    (por_profesor por_materia : list Reporte.fila)
    (estadisticas : list Estadistica.fila),
    (consulta_por_profesor P inicio fin w).1 = Normal por_profesor →
    (consulta_por_materia S inicio fin w).1 = Normal por_materia →
    consulta_global_por_carrera w = (Normal estadisticas, w) →
    NoDup (Reporte.clave <$> por_profesor)
    ∧ NoDup (Reporte.clave <$> por_materia)
    ∧ NoDup (Estadistica.carrera <$> estadisticas)
    ∧ (∀ fila, fila ∈ por_profesor →
         Reporte.profesor fila = P ∧ (1 ≤ Reporte.total_clases fila)%nat)
    ∧ (∀ fila, fila ∈ por_materia →
         Reporte.materia fila = S ∧ is_Some S
         ∧ (1 ≤ Reporte.total_clases fila)%nat)
    ∧ (∀ fila, fila ∈ estadisticas → (1 ≤ Estadistica.total_clases fila)%nat).
Proof.
  intros w P S inicio fin por_profesor por_materia estadisticas Hp Hm He.
  apply fetchall_Normal in Hp as (t & Ht & ->).
  apply fetchall_Normal in Hm as (t' & Ht' & ->).
  unfold consulta_global_por_carrera in He. rewrite (fetchall_eq _ _ _ Ht) in He.
  injection He as <-.
  unfold SELECT_reporte_profesor, SELECT_reporte_materia. split_and!.
  - rewrite reporte_claves. apply NoDup_remove_dups.
  - rewrite reporte_claves. apply NoDup_remove_dups.
  - rewrite estadisticas_carreras. apply NoDup_remove_dups.
  - intros fila Hfila. split; [|by eapply reporte_total_positivo].
    apply elem_of_reporte in Hfila as (r & Hr & Hk & _).
    apply list_elem_of_filter in Hr as [[HP _] Hr].
    rewrite <- HP. unfold clave_reporte, Reporte.clave in Hk. congruence.
  - intros fila Hfila.
    assert (1 ≤ Reporte.total_clases fila)%nat by (by eapply reporte_total_positivo).
    apply elem_of_reporte in Hfila as (r & Hr & Hk & _).
    apply list_elem_of_filter in Hr as [[HS _] Hr].
    apply igual_SQL_eq in HS as [HS ?]. split_and!; [|done..].
    rewrite <- HS. unfold clave_reporte, Reporte.clave in Hk. congruence.
  - intros fila ([k g] & -> & Hkg)%list_elem_of_fmap.
    apply elem_of_agrupar in Hkg as (-> & r & Hr & Hk).
    cbn [fila_estadistica Estadistica.total_clases snd].
    destruct (filter _ _) as [|? ?] eqn:Hg; [|simpl; lia].
    by destruct (filter_nil_not_elem_of _ _ r Hg).
Qed.

(** No record is lost or counted twice by the grouping: the totals of the
    rows of a detailed report add up to the number of stored records of the
    professor (resp. subject) asked for whose date text falls in the range,
    and the totals of the global statistics add up to the number of stored
    records. *)
Theorem reportes_totales_suman :
  ∀ (w : mundo) (P S : string) (inicio fin : date)
    (por_profesor por_materia : list Reporte.fila)
    (estadisticas : list Estadistica.fila),
    (consulta_por_profesor P inicio fin w).1 = Normal por_profesor →
    (consulta_por_materia (Some S) inicio fin w).1 = Normal por_materia →
    consulta_global_por_carrera w = (Normal estadisticas, w) →
    sum_list (Reporte.total_clases <$> por_profesor)
    = length (filter (λ r, Asistencia.profesor r = P
                           ∧ en_rango (isoformat inicio) (isoformat fin) r)
                (registros (bd w)))
    ∧ sum_list (Reporte.total_clases <$> por_materia)
      = length (filter (λ r, Asistencia.materia r = Some S
                             ∧ en_rango (isoformat inicio) (isoformat fin) r)
                  (registros (bd w)))
    ∧ sum_list (Estadistica.total_clases <$> estadisticas)
      = length (registros (bd w)).
Proof.
  intros w P S inicio fin por_profesor por_materia estadisticas Hp Hm He.
  apply fetchall_Normal in Hp as (t & Ht & ->).
  apply fetchall_Normal in Hm as (t' & Ht' & ->).
  unfold consulta_global_por_carrera in He. rewrite (fetchall_eq _ _ _ Ht) in He.
  injection He as <-.
  assert (t' = t) as -> by congruence.
  unfold registros. rewrite Ht. cbn [from_option].
  unfold SELECT_reporte_profesor, SELECT_reporte_materia.
  rewrite !reporte_suma, estadisticas_suma. split_and!; [| |done].
  - f_equal. apply list_filter_iff. intros r. by rewrite BETWEEN_en_rango.
  - f_equal. apply list_filter_iff. intros r.
    by rewrite BETWEEN_en_rango, igual_SQL_Some.
Qed.
End reportes.

(** In every row of a detailed report the classes given and the classes
    missed never exceed the total, and they add up to it when every stored
    record says ["Sí"] or ["No"]. *)
Theorem reportes_impartidas_mas_perdidas :
  ∀ (w : mundo) (P : string) (S : option string) (inicio fin : date)
    (por_profesor por_materia : list Reporte.fila) (fila : Reporte.fila),
    (consulta_por_profesor P inicio fin w).1 = Normal por_profesor →
    (consulta_por_materia S inicio fin w).1 = Normal por_materia →
    fila ∈ por_profesor ∨ fila ∈ por_materia →
    (Reporte.clases_impartidas fila + Reporte.clases_perdidas fila
     ≤ Reporte.total_clases fila)%nat
    ∧ (asistio_si_o_no (registros (bd w)) →
       Reporte.clases_impartidas fila + Reporte.clases_perdidas fila
       = Reporte.total_clases fila).
Proof.
  intros w P S inicio fin por_profesor por_materia fila Hp Hm Hfila.
  apply fetchall_Normal in Hp as (t & Ht & ->).
  apply fetchall_Normal in Hm as (t' & Ht' & ->).
  assert (t' = t) as -> by congruence.
  unfold registros. rewrite Ht. cbn [from_option].
  assert (∃ k l, (∀ r, r ∈ l → r ∈ filas t)
                 ∧ fila = fila_reporte (k, l)) as (k & l & Hl & ->).
  { destruct Hfila as [Hf|Hf];
      apply elem_of_reporte in Hf as (_ & _ & _ & Hf);
      (eexists _, _; split; [|exact Hf]);
      intros r Hr; by do 2 apply list_elem_of_filter in Hr as [_ Hr]. }
  cbn [fila_reporte Reporte.clases_impartidas Reporte.clases_perdidas
       Reporte.total_clases snd].
  split; [apply SUM_CASE_cota|].
  intros Hsn. apply SUM_CASE_total. intros r Hr. by apply Hsn, Hl.
Qed.

(** ** What the methods leave alone *)

Lemma tras_registrar_registros w P S c d a :
  registros (bd (tras_registrar w P S c d a))
  = (registros (bd w) ++
       [ {| Asistencia.id :=
              siguiente_id (default {| filas := []; secuencia := 0 |} (asistencia (bd w)));
            Asistencia.profesor := P;
            Asistencia.materia := S;
            Asistencia.carrera := c;
            Asistencia.fecha := isoformat d;
            Asistencia.asistio := a |} ])%list.
Proof.
  destruct (tras_registrar_filas w P S c d a) as (t & Ht & Hfilas).
  unfold registros at 1. by rewrite Ht.
Qed.

Lemma tras_registrar_contador w P S c d a :
  contador (bd (tras_registrar w P S c d a))
  = siguiente_id (default {| filas := []; secuencia := 0 |} (asistencia (bd w))).
Proof. reflexivity. Qed.

Lemma registrar_asistencia_agrega :
  ∀ (self : SistemaRegistroAsistencia) (P : string) (S c : option string)
    (d : date) (a : string) (w : mundo),
    ∃ (r : resultado ()) (w' : mundo),
      registrar_asistencia self P S c d a w = (r, w')
      ∧ mismas_referencias (bd w) (bd w')
      ∧ archivos w' = archivos w
      ∧ (registros (bd w') = registros (bd w) ∧ asistencia (bd w') = asistencia (bd w)
         ∨ ∃ id : Z,
             r = Normal ()
             ∧ registros (bd w')
               = (registros (bd w) ++
                    [ {| Asistencia.id := id;
                         Asistencia.profesor := P;
                         Asistencia.materia := S;
                         Asistencia.carrera := c;
                         Asistencia.fecha := isoformat d;
                         Asistencia.asistio := a |} ])%list)
      ∧ (r = Normal () ∨ (r = Lanza database_full ∧ w' = w))
      ∧ (r = Lanza database_full ↔ registro_valido self P S ∧ ¬ hay_lugar (bd w)).
Proof.
  intros self P S c d a w.
  destruct (registrar_asistencia_casos self P S c d a w)
    as [[-> [Hval Hl]]|[[-> [Hval Hl]]|[[-> [Hne Hnin]]|[-> (Hne & Hin & Hget)]]]];
    eexists _, _; (split; [done|]).
  - split_and!; [done..| |by left|].
    + right. eexists. split; [done|]. apply tras_registrar_registros.
    + split; [done|]. by intros [_ ?].
  - split_and!; [done..|by left|by right|done].
  - split_and!; [done..|by left|by left|].
    split; [done|]. intros [[?|[? _]] _]; done.
  - split_and!; [done..|by left|by left|].
    split; [done|]. intros [[?|[_ ?]] _]; done.
Qed.

(** [registrar_asistencia] never alters or removes a stored record, whether
    or not the table exists: the records after the call are those before it,
    followed by at most one new record that holds the arguments of the call,
    and the reference tables and the files are left as they were.  The call
    returns normally unless the registration passes the validation and the
    table has no identifier left: then, and only then, it raises
    [OperationalError] and leaves the database, the files and the page as
    they were. *)
Theorem registrar_asistencia_solo_agrega :
  ∀ (self : SistemaRegistroAsistencia) (P : string) (S c : option string)
    (d : date) (a : string) (w : mundo),
    ∃ (r : resultado ()) (w' : mundo),
      registrar_asistencia self P S c d a w = (r, w')
      ∧ mismas_referencias (bd w) (bd w')
      ∧ archivos w' = archivos w
      ∧ (registros (bd w') = registros (bd w) ∧ asistencia (bd w') = asistencia (bd w)
         ∨ ∃ id : Z,
             r = Normal ()
             ∧ registros (bd w')
               = (registros (bd w) ++
                    [ {| Asistencia.id := id;
                         Asistencia.profesor := P;
                         Asistencia.materia := S;
                         Asistencia.carrera := c;
                         Asistencia.fecha := isoformat d;
                         Asistencia.asistio := a |} ])%list)
      ∧ (r = Normal () ∨ (r = Lanza database_full ∧ w' = w))
      ∧ (r = Lanza database_full ↔ registro_valido self P S ∧ ¬ hay_lugar (bd w)).
Proof. exact registrar_asistencia_agrega. Qed.

Lemma foldr_max_cota (s : Z) (l : list Asistencia.fila) :
  (∀ r, r ∈ l → (Asistencia.id r ≤ s)%Z) →
  foldr Z.max s (Asistencia.id <$> l) = s.
Proof.
  induction l as [|r l IH]; intros Hl; [done|].
  rewrite fmap_cons. cbn [foldr]. rewrite IH by (intros r' Hr'; apply Hl; by right).
  assert (Asistencia.id r ≤ s)%Z by (apply Hl; by left). lia.
Qed.

Lemma siguiente_id_contador (b : base_datos) :
  numeracion_correcta b →
  siguiente_id (default {| filas := []; secuencia := 0 |} (asistencia b))
  = (contador b + 1)%Z.
Proof.
  intros [_ Hcota]. unfold siguiente_id, contador, registros in *.
  destruct (asistencia b) as [t|]; cbn [default from_option filas secuencia id] in *.
  - by rewrite foldr_max_cota.
  - done.
Qed.

(** Identifiers are never given twice, not even after a deletion: if the
    identifiers of the table are pairwise different and none exceeds the
    AUTOINCREMENT counter, this still holds after [registrar_asistencia] and
    after [eliminar_registros]; a registration never lowers the counter and
    gives the new record an identifier above it, and a deletion keeps the
    counter. *)
Theorem identificadores_nunca_se_repiten :
  ∀ (self : SistemaRegistroAsistencia) (P : string) (S c : option string)
    (d : date) (a : string) (w : mundo),
    numeracion_correcta (bd w) →
    numeracion_correcta (bd (registrar_asistencia self P S c d a w).2)
    ∧ (contador (bd w) ≤ contador (bd (registrar_asistencia self P S c d a w).2))%Z
    ∧ (∀ r, r ∈ registros (bd (registrar_asistencia self P S c d a w).2) →
         r ∈ registros (bd w) ∨ (contador (bd w) < Asistencia.id r)%Z)
    ∧ numeracion_correcta (bd (eliminar_registros w).2)
    ∧ contador (bd (eliminar_registros w).2) = contador (bd w).
Proof.
  intros self P S c d a w Hnum. split_and!.
  - destruct (registrar_asistencia_casos self P S c d a w)
      as [[-> _]|[[-> _]|[[-> _]|[-> _]]]]; cbn [snd]; [|done..].
    pose proof (siguiente_id_contador _ Hnum) as Hsig.
    destruct Hnum as [Hnd Hcota]. split.
    + rewrite tras_registrar_registros, fmap_app, Hsig. cbn [fmap list_fmap Asistencia.id].
      apply NoDup_app. split_and!; [done | | apply NoDup_singleton].
      intros i (r & Hi & Hr)%list_elem_of_fmap Hi'%list_elem_of_singleton.
      specialize (Hcota r Hr). lia.
    + intros r. rewrite tras_registrar_registros, tras_registrar_contador, Hsig.
      intros [Hr|Hr%list_elem_of_singleton]%elem_of_app.
      * specialize (Hcota r Hr). lia.
      * subst r. cbn [Asistencia.id]. lia.
  - destruct (registrar_asistencia_casos self P S c d a w)
      as [[-> _]|[[-> _]|[[-> _]|[-> _]]]]; cbn [snd]; [|done..].
    rewrite tras_registrar_contador, (siguiente_id_contador _ Hnum). lia.
  - destruct (registrar_asistencia_casos self P S c d a w)
      as [[-> _]|[[-> _]|[[-> _]|[-> _]]]]; cbn [snd]; [|by left..].
    intros r. rewrite tras_registrar_registros, (siguiente_id_contador _ Hnum).
    intros [Hr|Hr%list_elem_of_singleton]%elem_of_app; [by left|].
    right. subst r. cbn [Asistencia.id]. lia.
  - unfold eliminar_registros. desplegar_M.
    destruct (asistencia (bd w)) as [t|] eqn:Ht; cbn [snd]; [|done].
    split; [apply NoDup_nil_2 | by intros r ?%elem_of_nil].
  - unfold eliminar_registros. desplegar_M. unfold contador at 2.
    destruct (asistencia (bd w)) as [t|] eqn:Ht; cbn [snd]; [done|].
    unfold contador. by rewrite Ht.
Qed.

(** ** Without the table, and after [cr.py] *)

Section tabla_ausente.
Context `{Plataforma}.

Lemma fetchall_sin_tabla {A} (q : list Asistencia.fila → A) w :
  asistencia (bd w) = None → fetchall q w = (Lanza no_such_table, w).
Proof. intros Hw. unfold fetchall. by rewrite Hw. Qed.

Lemma mostrar_reportes_detallados_sin_tabla self ui w :
  asistencia (bd w) = None →
  mostrar_reportes_detallados self ui w = (Lanza no_such_table, w).
Proof.
  intros Hw. unfold mostrar_reportes_detallados, mbind, M_bind.
  unfold pestana_profesor, consulta_por_profesor, mbind, M_bind.
  destruct (boton_reporte_profesor_pdf ui).
  { by rewrite (fetchall_sin_tabla _ _ Hw). }
  cbn [mret M_ret].
  unfold pestana_materia, consulta_por_materia, mbind, M_bind.
  destruct (boton_reporte_materia_pdf ui).
  { by rewrite (fetchall_sin_tabla _ _ Hw). }
  cbn [mret M_ret].
  unfold pestana_carrera, consulta_global_por_carrera, mbind, M_bind.
  by rewrite (fetchall_sin_tabla _ _ Hw).
Qed.

(** While the table [asistencia] does not exist, deleting, each of the three
    queries and the whole reports page, whatever buttons are pressed, raise
    [OperationalError] and leave the database, the files and the page as
    they were. *)
Theorem sin_tabla_todo_lanza :
  ∀ (self : SistemaRegistroAsistencia) (ui : widgets) (w : mundo)
    (P : string) (S : option string) (inicio fin : date),
    asistencia (bd w) = None →
    eliminar_registros w = (Lanza no_such_table, w)
    ∧ consulta_por_profesor P inicio fin w = (Lanza no_such_table, w)
    ∧ consulta_por_materia S inicio fin w = (Lanza no_such_table, w)
    ∧ consulta_global_por_carrera w = (Lanza no_such_table, w)
    ∧ mostrar_reportes_detallados self ui w = (Lanza no_such_table, w).
Proof.
  intros self ui w P S inicio fin Hw. split_and!.
  - unfold eliminar_registros. desplegar_M. by rewrite Hw.
  - by apply fetchall_sin_tabla.
  - by apply fetchall_sin_tabla.
  - by apply fetchall_sin_tabla.
  - by apply mostrar_reportes_detallados_sin_tabla.
Qed.

Lemma efecto_pestana_destino boton vacia destino aviso w w' nombre :
  efecto_pestana boton vacia destino aviso w w' → destino ∈ destinos →
  nombre ∉ destinos → archivos w' !! nombre = archivos w !! nombre.
Proof.
  intros (_ & _ & Harch) Hd Hn. destruct (Harch nombre) as [?|(-> & _)]; done.
Qed.

Lemma mostrar_reportes_detallados_lee :
  ∀ (self : SistemaRegistroAsistencia) (ui : widgets) (w : mundo),
    bd (mostrar_reportes_detallados self ui w).2 = bd w
    ∧ pantalla w `prefix_of` pantalla (mostrar_reportes_detallados self ui w).2
    ∧ ∀ nombre : string,
        nombre ∉ destinos →
        archivos (mostrar_reportes_detallados self ui w).2 !! nombre
        = archivos w !! nombre.
Proof.
  intros self ui w. destruct (asistencia (bd w)) as [t|] eqn:Ht.
  2:{ rewrite mostrar_reportes_detallados_sin_tabla by done. by split_and!. }
  destruct (pestana_profesor_efecto ui w t Ht) as (w1 & E1 & Hef1).
  pose proof Hef1 as (Hbd1 & (ms1 & Hms1 & _) & _).
  assert (Ht1 : asistencia (bd w1) = Some t) by (by rewrite Hbd1).
  destruct (pestana_materia_efecto ui w1 t Ht1) as (w2 & E2 & Hef2).
  pose proof Hef2 as (Hbd2 & (ms2 & Hms2 & _) & _).
  assert (Ht2 : asistencia (bd w2) = Some t) by (by rewrite Hbd2).
  destruct (pestana_carrera_efecto ui w2 t Ht2) as (w3 & E3 & Hef3).
  pose proof Hef3 as (Hbd3 & (ms3 & Hms3 & _) & _).
  assert (Hrun : mostrar_reportes_detallados self ui w = (Normal (), w3)).
  { unfold mostrar_reportes_detallados, mbind, M_bind. by rewrite E1, E2, E3. }
  rewrite Hrun. cbn [snd]. split_and!.
  - congruence.
  - exists (ms1 ++ ms2 ++ ms3)%list. by rewrite Hms3, Hms2, Hms1, <- !app_assoc.
  - intros nombre Hn.
    rewrite (efecto_pestana_destino _ _ _ _ _ _ nombre Hef3),
      (efecto_pestana_destino _ _ _ _ _ _ nombre Hef2),
      (efecto_pestana_destino _ _ _ _ _ _ nombre Hef1); try done.
    + by left.
    + right; by left.
    + right; right; by left.
Qed.

(** The reports page only reads the database: in every run, whatever the
    buttons and whether or not it raises, the database is left as it was,
    the messages already on the page stay, and no file other than the three
    report files is touched. *)
Theorem mostrar_reportes_detallados_solo_lee :
  ∀ (self : SistemaRegistroAsistencia) (ui : widgets) (w : mundo),
    bd (mostrar_reportes_detallados self ui w).2 = bd w
    ∧ pantalla w `prefix_of` pantalla (mostrar_reportes_detallados self ui w).2
    ∧ ∀ nombre : string,
        nombre ∉ destinos →
        archivos (mostrar_reportes_detallados self ui w).2 !! nombre
        = archivos w !! nombre.
Proof. exact mostrar_reportes_detallados_lee. Qed.

(** The script [cr.py] makes the table exist without touching anything
    else: the stored records, the counter, the reference tables, the files
    and the page stay as they were; running it again changes nothing, and
    after it deleting and querying no longer raise. *)
Theorem cr_prepara_la_tabla :
  ∀ (w : mundo) (P : string) (S : option string) (inicio fin : date),
    ∃ w' : mundo,
      cr w = (Normal (), w')
      ∧ is_Some (asistencia (bd w'))
      ∧ registros (bd w') = registros (bd w)
      ∧ contador (bd w') = contador (bd w)
      ∧ mismas_referencias (bd w) (bd w')
      ∧ archivos w' = archivos w
      ∧ pantalla w' = pantalla w
      ∧ cr w' = (Normal (), w')
      ∧ (eliminar_registros w').1 = Normal ()
      ∧ (consulta_por_profesor P inicio fin w').1
        = Normal (SELECT_reporte_profesor P (isoformat inicio) (isoformat fin)
                    (registros (bd w)))
      ∧ (consulta_por_materia S inicio fin w').1
        = Normal (SELECT_reporte_materia S (isoformat inicio) (isoformat fin)
                    (registros (bd w)))
      ∧ (consulta_global_por_carrera w').1
        = Normal (SELECT_estadisticas (registros (bd w))).
Proof.
  intros w P S inicio fin. unfold cr, eliminar_registros, consulta_por_profesor,
    consulta_por_materia, consulta_global_por_carrera.
  desplegar_M. unfold CREATE_TABLE_asistencia, registros, contador, mismas_referencias.
  destruct (asistencia (bd w)) as [t|] eqn:Ht; eexists; (split; [reflexivity|]);
    cbn; rewrite ?Ht; cbn; split_and!; try done; by eexists.
Qed.
End tabla_ausente.

(** ** The roster and the tables it is read from *)

Lemma elem_of_SELECT_profesor_materia b p m :
  (p, m) ∈ SELECT_profesor_materia b
  ↔ ∃ pid mid : Z,
      (pid, mid) ∈ tabla_profesor_materia b
      ∧ (pid, p) ∈ tabla_profesores b
      ∧ (mid, m) ∈ tabla_materias b.
Proof.
  unfold SELECT_profesor_materia. rewrite list_elem_of_bind. split.
  - intros ([pid mid] & Hin & Hpm).
    apply list_elem_of_bind in Hin as ([pid' p'] & Hin & Hp).
    apply list_elem_of_bind in Hin as ([mid' m'] & Hin & Hm).
    apply list_elem_of_singleton in Hin as [= -> ->].
    apply list_elem_of_filter in Hp as [Hp1 Hp]. apply list_elem_of_filter in Hm as [Hm1 Hm].
    simpl in *. subst. by exists pid, mid.
  - intros (pid & mid & Hpm & Hp & Hm). exists (pid, mid). split; [|done].
    apply list_elem_of_bind. exists (pid, p). split.
    + apply list_elem_of_bind. exists (mid, m). split.
      * by apply list_elem_of_singleton.
      * by apply list_elem_of_filter.
    + by apply list_elem_of_filter.
Qed.

Lemma PyDict_foldl_get_valor rows d k v :
  PyDict.get (foldl (λ d row, PyDict.set d row.1 row.2) d rows) k = Some v →
  PyDict.get d k = Some v ∨ (k, v) ∈ rows.
Proof.
  revert d. induction rows as [|[k' v'] rows IH]; intros d; simpl; [by left|].
  intros Hget. apply IH in Hget as [Hget|Hin]; [|right; by right].
  rewrite PyDict_get_set in Hget. destruct (decide (k' = k)) as [->|_].
  - injection Hget as ->. right. by left.
  - by left.
Qed.

(** The roster is the join of the three reference tables: a name is in the
    list of professors exactly when some assignment row links a professor
    row of that name to an existing subject row, and the subject the roster
    gives a professor is always that of such a link.  A professor listed in
    [profesores] without any assignment is therefore not in the roster, and
    a registration under that name is refused as unknown.  Loading the
    roster changes nothing. *)
Theorem roster_es_la_union_de_las_tablas :
  ∀ (w : mundo) (self : SistemaRegistroAsistencia),
    (__init__ w).1 = Normal self →
    (__init__ w).2 = w
    ∧ materias self = (tabla_materias (bd w)).*2
    ∧ carreras self = tabla_carreras (bd w)
    ∧ (∀ p : string,
         p ∈ profesores self
         ↔ ∃ (pid mid : Z) (m : string),
             (pid, mid) ∈ tabla_profesor_materia (bd w)
             ∧ (pid, p) ∈ tabla_profesores (bd w)
             ∧ (mid, m) ∈ tabla_materias (bd w))
    ∧ (∀ p m : string,
         PyDict.get (profesor_materia self) p = Some m →
         ∃ pid mid : Z,
           (pid, mid) ∈ tabla_profesor_materia (bd w)
           ∧ (pid, p) ∈ tabla_profesores (bd w)
           ∧ (mid, m) ∈ tabla_materias (bd w))
    ∧ (∀ (p : string) (S c : option string) (d : date) (a : string) (w1 : mundo),
         p ≠ Otro_maestro →
         (∀ pid mid : Z, (pid, p) ∈ tabla_profesores (bd w) →
                         (pid, mid) ∉ tabla_profesor_materia (bd w)) →
         registrar_asistencia self p S c d a w1
         = (Normal (), con_mensaje w1 UnknownProfessor)).
Proof.
  intros w self Hinit. rewrite __init___eq in Hinit |- *. cbn [fst snd] in *.
  injection Hinit as <-. cbn [materias carreras profesores profesor_materia].
  assert (Hprof : ∀ p : string,
    p ∈ PyDict.keys (PyDict.comprehension (SELECT_profesor_materia (bd w)))
    ↔ ∃ (pid mid : Z) (m : string),
        (pid, mid) ∈ tabla_profesor_materia (bd w)
        ∧ (pid, p) ∈ tabla_profesores (bd w)
        ∧ (mid, m) ∈ tabla_materias (bd w)).
  { intros p. unfold PyDict.comprehension. rewrite PyDict_foldl_keys. split.
    - intros [?%elem_of_nil|Hin]; [done|].
      apply list_elem_of_fmap in Hin as ([p' m] & -> & Hin).
      apply elem_of_SELECT_profesor_materia in Hin as (pid & mid & ?).
      by exists pid, mid, m.
    - intros (pid & mid & m & Hlink). right.
      apply list_elem_of_fmap. exists (p, m). split; [done|].
      apply elem_of_SELECT_profesor_materia. by exists pid, mid. }
  split_and!; [done..| | |].
  - exact Hprof.
  - intros p m Hget. apply PyDict_foldl_get_valor in Hget as [Hget|Hin]; [done|].
    by apply elem_of_SELECT_profesor_materia.
  - intros p S c d a w1 Hne Hsin. apply registrar_asistencia_desconocido; [done|].
    cbn [profesores]. rewrite Hprof. intros (pid & mid & m & Hpm & Hp & _).
    by apply (Hsin pid mid).
Qed.

(** ** One run of the page *)

Lemma penultimo_app s t :
  (2 ≤ String.length t)%nat → penultimo (s +:+ t) = penultimo t.
Proof.
  intros Ht. induction s as [|a s IH]; [done|].
  change (String a s +:+ t) with (String a (s +:+ t)).
  pose proof (length_app_string s t) as Hlen.
  destruct (s +:+ t) as [|b [|c r]] eqn:E; simpl in Hlen; [lia..|].
  rewrite <- IH. done.
Qed.

(** The two messages of a refusal are never the same text: one ends in
    ["a."], the other in a quote and a full stop. *)
Lemma SubjectMismatch_no_es_UnknownProfessor P S :
  SubjectMismatch P S ≠ UnknownProfessor.
Proof.
  unfold SubjectMismatch, UnknownProfessor. intros [= Heq].
  apply (f_equal penultimo) in Heq.
  rewrite !penultimo_app in Heq; [done|..];
    rewrite ?length_app_string; simpl; lia.
Qed.

Section una_ejecucion.
Context `{Plataforma}.

Lemma main_eq (e : Pagina.entradas) (w : mundo) :
  ∃ sistema : SistemaRegistroAsistencia,
    (__init__ w).1 = Normal sistema
    ∧ main e w
      = ((if decide (Pagina.opcion e = "Registrar Asistencia") then
            if Pagina.boton_Registrar e then
              registrar_asistencia sistema (Pagina.profesor e) (Pagina.materia e)
                (if decide (Pagina.carrera e ≠ "No Aplica")
                 then Some (Pagina.carrera e) else None)
                (Pagina.fecha e) (Pagina.asistio e)
            else mret ()
          else if decide (Pagina.opcion e = "Crear Reportes") then
            mostrar_reportes_detallados sistema (Pagina.reportes e)
          else mret ());;
         (if decide (Pagina.opcion e = "Info") then
            if Pagina.boton_Eliminar e then eliminar_registros;; emitir eliminados
            else mret ()
          else mret ());;
         cerrar_conexion) w.
Proof. eexists. split; [rewrite __init___eq; reflexivity|]. reflexivity. Qed.

(** The run of the registration page with its button pressed is the call of
    [registrar_asistencia] with the values of the form, followed by nothing
    that shows: the result and the world are those of the call. *)
Lemma main_registrar (e : Pagina.entradas) (w : mundo) sistema :
  (__init__ w).1 = Normal sistema →
  Pagina.opcion e = "Registrar Asistencia" →
  Pagina.boton_Registrar e = true →
  main e w
  = registrar_asistencia sistema (Pagina.profesor e) (Pagina.materia e)
      (if decide (Pagina.carrera e ≠ "No Aplica") then Some (Pagina.carrera e) else None)
      (Pagina.fecha e) (Pagina.asistio e) w.
Proof.
  intros Hinit Hop Hb. destruct (main_eq e w) as (sistema' & Hinit' & ->).
  assert (sistema' = sistema) as -> by congruence.
  unfold cerrar_conexion, mbind, M_bind.
  destruct (decide (Pagina.opcion e = "Registrar Asistencia")) as [_|?]; [|done].
  rewrite Hb.
  destruct (decide (Pagina.opcion e = "Info")) as [Hinfo|_];
    [by rewrite Hop in Hinfo|].
  by destruct (registrar_asistencia _ _ _ _ _ _ w) as [[[]|ex] w'].
Qed.

Lemma main_casos :
  ∀ (e : Pagina.entradas) (w : mundo),
    mismas_referencias (bd w) (bd (main e w).2)
    ∧ (registros (bd (main e w).2) = registros (bd w)
       ∨ (Pagina.opcion e = "Registrar Asistencia"
          ∧ Pagina.boton_Registrar e
          ∧ (main e w).1 = Normal ()
          ∧ ∃ id : Z,
              registros (bd (main e w).2)
              = (registros (bd w) ++ [registro_del_formulario e id])%list
              ∧ Asistencia.carrera (registro_del_formulario e id) ≠ Some "No Aplica")
       ∨ (Pagina.opcion e = "Info"
          ∧ Pagina.boton_Eliminar e
          ∧ (main e w).1 = Normal ()
          ∧ registros (bd (main e w).2) = [])).
Proof.
  intros e w. destruct (main_eq e w) as (sistema & Hinit & Hmain).
  destruct (decide (Pagina.opcion e = "Registrar Asistencia")) as [Hop|Hop].
  - destruct (Pagina.boton_Registrar e) eqn:Hb.
    + rewrite (main_registrar e w sistema Hinit Hop Hb).
      destruct (registrar_asistencia_agrega sistema (Pagina.profesor e)
                  (Pagina.materia e)
                  (if decide (Pagina.carrera e ≠ "No Aplica")
                   then Some (Pagina.carrera e) else None)
                  (Pagina.fecha e) (Pagina.asistio e) w)
        as (r & w' & -> & Href & _ & [[Hreg _]|(id & -> & Hreg)] & _); cbn;
        (split; [done|]).
      * by left.
      * right; left. split_and!; [done..|]. exists id.
        unfold registro_del_formulario. cbn [Asistencia.carrera]. split.
        -- rewrite Hreg. do 3 f_equal.
           by destruct (decide (Pagina.carrera e ≠ "No Aplica")),
             (decide (Pagina.carrera e = "No Aplica")).
        -- destruct (decide (Pagina.carrera e = "No Aplica")); [done|]. congruence.
    + rewrite Hmain. unfold cerrar_conexion, mbind, M_bind.
      destruct (decide (Pagina.opcion e = "Registrar Asistencia")) as [_|?]; [|done].
      destruct (decide (Pagina.opcion e = "Info")) as [Hinfo|_];
        [by rewrite Hop in Hinfo|].
      cbn. split; [done | by left].
  - rewrite Hmain. unfold cerrar_conexion, mbind, M_bind.
    destruct (decide (Pagina.opcion e = "Registrar Asistencia")) as [?|_]; [done|].
    destruct (decide (Pagina.opcion e = "Crear Reportes")) as [Hop'|Hop'].
    + destruct (decide (Pagina.opcion e = "Info")) as [Hinfo|_];
        [by rewrite Hop' in Hinfo|].
      pose proof (mostrar_reportes_detallados_lee sistema (Pagina.reportes e) w)
        as (Hbd & _ & _).
      destruct (mostrar_reportes_detallados sistema (Pagina.reportes e) w)
        as [[[]|ex] w'] eqn:Hrun; cbn in *; rewrite Hbd; (split; [done | by left]).
    + cbn. destruct (decide (Pagina.opcion e = "Info")) as [Hinfo|Hinfo];
        [|cbn; split; [done | by left]].
      destruct (Pagina.boton_Eliminar e) eqn:Hb; [|cbn; split; [done | by left]].
      unfold eliminar_registros. desplegar_M. unfold registros.
      destruct (asistencia (bd w)) as [t|] eqn:Ht; cbn; rewrite ?Ht.
      * split; [done|]. right; right. by split_and!.
      * split; [done|]. by left.
Qed.

(** What one run of the page can do to the stored records: nothing; or, on
    the registration page with its button pressed, add one record holding the
    values of the form (the subject absent when the form had none to offer,
    the program absent when the form says ["No Aplica"], so that this text is
    never stored as a program); or, on the Info page with its button
    pressed, remove them all.  The reference tables are never written. *)
Theorem main_transiciones :
  ∀ (e : Pagina.entradas) (w : mundo),
    mismas_referencias (bd w) (bd (main e w).2)
    ∧ (registros (bd (main e w).2) = registros (bd w)
       ∨ (Pagina.opcion e = "Registrar Asistencia"
          ∧ Pagina.boton_Registrar e
          ∧ (main e w).1 = Normal ()
          ∧ ∃ id : Z,
              registros (bd (main e w).2)
              = (registros (bd w) ++ [registro_del_formulario e id])%list
              ∧ Asistencia.carrera (registro_del_formulario e id) ≠ Some "No Aplica")
       ∨ (Pagina.opcion e = "Info"
          ∧ Pagina.boton_Eliminar e
          ∧ (main e w).1 = Normal ()
          ∧ registros (bd (main e w).2) = [])).
Proof. exact main_casos. Qed.

(** From the form of the page a registration is never refused as unknown:
    when the professor widget returns the sentinel or a professor of the
    roster loaded in that run and the button is pressed, the page never shows
    the unknown-professor message.  If the professor is the sentinel or is
    assigned the chosen subject, the run shows the success message and
    returns normally, unless the table has no identifier left: then it raises
    and leaves everything as it was.  Otherwise (also when the form had no
    subject to offer) it returns normally and shows the subject-mismatch
    message, which is never the text of the unknown-professor message,
    whatever the professor and the subject. *)
Theorem main_nunca_profesor_desconocido :
  ∀ (e : Pagina.entradas) (w : mundo) (sistema : SistemaRegistroAsistencia),
    (__init__ w).1 = Normal sistema →
    Pagina.profesor e ∈ Otro_maestro :: profesores sistema →
    Pagina.opcion e = "Registrar Asistencia" →
    Pagina.boton_Registrar e = true →
    ¬ mensaje_de w (main e w).2 UnknownProfessor
    ∧ (registro_valido sistema (Pagina.profesor e) (Pagina.materia e) →
       hay_lugar (bd w) →
       (main e w).1 = Normal () ∧ mensaje_de w (main e w).2 Registrada)
    ∧ (registro_valido sistema (Pagina.profesor e) (Pagina.materia e) →
       ¬ hay_lugar (bd w) →
       main e w = (Lanza database_full, w))
    ∧ (¬ registro_valido sistema (Pagina.profesor e) (Pagina.materia e) →
       (main e w).1 = Normal ()
       ∧ mensaje_de w (main e w).2
           (SubjectMismatch (Pagina.profesor e) (str_o (Pagina.materia e))))
    ∧ (∀ P S : string, SubjectMismatch P S ≠ UnknownProfessor).
Proof.
  intros e w sistema Hinit Hprof Hop Hb.
  rewrite (main_registrar e w sistema Hinit Hop Hb).
  set (c := if decide (Pagina.carrera e ≠ "No Aplica") then _ else _).
  pose proof SubjectMismatch_no_es_UnknownProfessor as Hdist.
  destruct (registrar_asistencia_casos sistema (Pagina.profesor e) (Pagina.materia e)
              c (Pagina.fecha e) (Pagina.asistio e) w)
    as [[-> [Hval Hl]]|[[-> [Hval Hl]]|[[-> [Hne Hnin]]|[-> (Hne & Hin & Hget)]]]];
    cbn [fst snd].
  - split_and!; [|done..].
    intros Hm. by pose proof (mensaje_de_inj _ _ _ _ Hm eq_refl).
  - split_and!; [apply mensaje_de_mismo|done..].
  - apply elem_of_cons in Hprof as [?|?]; done.
  - split_and!; [| | |done..].
    + intros Hm. pose proof (mensaje_de_inj _ _ _ _ Hm eq_refl) as Heq.
      symmetry in Heq. by apply Hdist in Heq.
    + intros [?|[_ ?]]; done.
    + intros [?|[_ ?]]; done.
Qed.

(** If every stored record says ["Sí"] or ["No"], this is still so after a
    run of the page in which the radio button returns one of its two
    options. *)
Theorem main_conserva_si_o_no :
  ∀ (e : Pagina.entradas) (w : mundo),
    Pagina.asistio e ∈ ["Sí"; "No"] →
    asistio_si_o_no (registros (bd w)) →
    asistio_si_o_no (registros (bd (main e w).2)).
Proof.
  intros e w Hradio Hinv.
  destruct (main_casos e w) as [_ [->|[(_ & _ & _ & id & -> & _)|(_ & _ & _ & ->)]]].
  - done.
  - intros r [Hr|Hr%list_elem_of_singleton]%elem_of_app; [by apply Hinv|].
    subst r. cbn [Asistencia.asistio registro_del_formulario].
    apply elem_of_cons in Hradio as [?|Hradio]; [by left|].
    apply list_elem_of_singleton in Hradio. by right.
  - by intros r ?%elem_of_nil.
Qed.
End una_ejecucion.

(** ** The decision of [registrar_asistencia] *)

(** The four outcomes of [registrar_asistencia] and when each happens: it
    returns with the success message exactly when the registration passes
    the validation (the professor is the sentinel, or a roster professor with
    the subject the roster gives) and the table has an identifier left; it
    raises, leaving everything as it was, exactly when the registration
    passes the validation and no identifier is left; it returns with the
    unknown-professor message exactly when the professor is neither the
    sentinel nor in the roster, and with the subject-mismatch message exactly
    when the professor is in the roster, is not the sentinel and has another
    subject.  A call that returns has shown exactly one message. *)
Theorem registrar_asistencia_tabla_de_decision :
  ∀ (self : SistemaRegistroAsistencia) (P : string) (S c : option string)
    (d : date) (a : string) (w : mundo),
    ∃ (r : resultado ()) (w' : mundo),
      registrar_asistencia self P S c d a w = (r, w')
      ∧ (r = Normal () ∧ mensaje_de w w' Registrada
         ↔ registro_valido self P S ∧ hay_lugar (bd w))
      ∧ (r = Lanza database_full ∧ w' = w
         ↔ registro_valido self P S ∧ ¬ hay_lugar (bd w))
      ∧ (r = Normal () ∧ mensaje_de w w' UnknownProfessor
         ↔ P ≠ Otro_maestro ∧ P ∉ profesores self)
      ∧ (r = Normal () ∧ mensaje_de w w' (SubjectMismatch P (str_o S))
         ↔ P ≠ Otro_maestro ∧ P ∈ profesores self
           ∧ PyDict.get (profesor_materia self) P ≠ S)
      ∧ (r = Normal () → ∃ e : st_evento, mensaje_de w w' e).
Proof.
  intros self P S c d a w.
  pose proof (SubjectMismatch_no_es_UnknownProfessor P (str_o S)) as Hdist.
  destruct (registrar_asistencia_casos self P S c d a w)
    as [[-> [Hval Hl]]|[[-> [Hval Hl]]|[[-> [Hne Hnin]]|[-> (Hne & Hin & Hget)]]]];
    eexists _, _; (split; [done|]).
  - split_and!.
    + done.
    + split; [by intros [? _] | by intros [_ ?]].
    + split; [intros [_ Hm]; by pose proof (mensaje_de_inj _ _ _ _ Hm eq_refl)|].
      intros [? ?]. destruct Hval as [?|[? ?]]; done.
    + split; [intros [_ Hm]; by pose proof (mensaje_de_inj _ _ _ _ Hm eq_refl)|].
      intros (? & ? & ?). destruct Hval as [?|[? ?]]; done.
    + intros _. by eexists.
  - split_and!.
    + split; [by intros [? _] | by intros [_ ?]].
    + done.
    + split; [by intros [? _]|]. intros [? ?]. destruct Hval as [?|[? ?]]; done.
    + split; [by intros [? _]|]. intros (? & ? & ?). destruct Hval as [?|[? ?]]; done.
    + done.
  - split_and!.
    + split; [intros [_ Hm]; by pose proof (mensaje_de_inj _ _ _ _ Hm eq_refl)|].
      intros [[?|[? ?]] _]; done.
    + split; [by intros [? _]|]. intros [[?|[? ?]] _]; done.
    + done.
    + split; [|by intros (? & ? & ?)].
      intros [_ Hm]. by pose proof (mensaje_de_inj _ _ _ _ Hm eq_refl).
    + intros _. by eexists.
  - split_and!.
    + split; [intros [_ Hm]; by pose proof (mensaje_de_inj _ _ _ _ Hm eq_refl)|].
      intros [[?|[? ?]] _]; done.
    + split; [by intros [? _]|]. intros [[?|[? ?]] _]; done.
    + split; [|by intros [? ?]].
      intros [_ Hm]. pose proof (mensaje_de_inj _ _ _ _ Hm eq_refl) as Heq. done.
    + done.
    + intros _. by eexists.
Qed.

(** ** The document *)

Lemma str_Z_of_nat `{Plataforma} (n : nat) : str (PyInt (Z.of_nat n)) = str_nat n.
Proof.
  destruct n as [|n]; [done|].
  change (Z.of_nat (S n)) with (Z.pos (Pos.of_succ_nat n)).
  cbn [str str_Z]. by rewrite SuccNat2Pos.id_succ.
Qed.

Section documento.
Context `{Plataforma}.

Lemma renglones_celdas (ts : list string) (ops : list FPDF.op) actual :
  renglones (((λ t, FPDF.cell 60 10 t 1 0 "C") <$> ts) ++ ops)%list actual
  = renglones ops (actual ++ ts)%list.
Proof.
  revert actual. induction ts as [|t ts IH]; intros actual.
  - by rewrite app_nil_r.
  - rewrite fmap_cons. cbn [app renglones]. rewrite IH. by rewrite <- app_assoc.
Qed.

Lemma renglones_celdas_str (fila : list py_obj) (ops : list FPDF.op) actual :
  renglones (((λ item, FPDF.cell 60 10 (str item) 1 0 "C") <$> fila) ++ ops)%list actual
  = renglones ops (actual ++ (str <$> fila))%list.
Proof.
  revert actual. induction fila as [|x fila IH]; intros actual.
  - by rewrite app_nil_r.
  - rewrite !fmap_cons. cbn [app renglones]. rewrite IH. by rewrite <- app_assoc.
Qed.

Lemma renglones_datos (datos : list (list py_obj)) :
  renglones (datos ≫= λ fila : list py_obj,
               (((λ item, FPDF.cell 60 10 (str item) 1 0 "C") <$> fila)
                  ++ [FPDF.ln None])%list) []
  = (λ fila : list py_obj, str <$> fila) <$> datos.
Proof.
  induction datos as [|fila datos IH]; [done|].
  cbn [mbind list_bind]. rewrite <- app_assoc.
  rewrite renglones_celdas_str. cbn [app renglones]. by rewrite IH.
Qed.

Lemma renglones_documento datos columnas fecha_inicio fecha_fin :
  renglones (FPDF.ops (documento datos columnas fecha_inicio fecha_fin)) []
  = ["Reporte de Asistencia"]
    :: ["Fecha de Inicio: " +:+ str fecha_inicio +:+ "   Fecha de Fin: "
          +:+ str fecha_fin]
    :: []
    :: columnas
    :: ((λ fila : list py_obj, str <$> fila) <$> datos).
Proof.
  cbn [documento FPDF.ops app renglones]. rewrite renglones_celdas.
  cbn [app renglones]. by rewrite renglones_datos.
Qed.

(** When [generar_reporte_pdf] has returned, the destination holds a
    landscape document which, read back line by line, is the title, the line
    of the two dates, an empty line, the column labels and then one line per
    tuple of the data, in order, holding the text of each of its items. *)
Theorem generar_reporte_pdf_escribe_los_datos :
  ∀ (datos : list (list py_obj)) (columnas : list string)
    (fecha_inicio fecha_fin : py_obj) (nombre_archivo : string) (w w' : mundo),
    generar_reporte_pdf datos columnas fecha_inicio fecha_fin nombre_archivo w
    = (Normal (), w') →
    ∃ pdf : FPDF.t,
      archivos w' !! nombre_archivo = Some pdf
      ∧ FPDF.orientation pdf = "L"
      ∧ renglones (FPDF.ops pdf) []
        = ["Reporte de Asistencia"]
          :: ["Fecha de Inicio: " +:+ str fecha_inicio +:+ "   Fecha de Fin: "
                +:+ str fecha_fin]
          :: []
          :: columnas
          :: ((λ fila : list py_obj, str <$> fila) <$> datos).
Proof.
  intros datos columnas fecha_inicio fecha_fin nombre_archivo w w' Hgen.
  rewrite generar_reporte_pdf_eq in Hgen. injection Hgen as <-.
  exists (documento datos columnas fecha_inicio fecha_fin). cbn [archivos].
  split_and!.
  - apply lookup_insert_eq.
  - done.
  - apply renglones_documento.
Qed.

Lemma textos_tupla (r : Reporte.fila) : str <$> Reporte.tupla r = textos r.
Proof.
  unfold Reporte.tupla, textos. cbn [fmap list_fmap].
  rewrite !str_Z_of_nat. by destruct (Reporte.carrera r), (Reporte.materia r).
Qed.

(** After a run of the reports page with the button of the report by
    professor pressed and a query that returned rows, the file of that
    report holds a document whose lines, after the title, the dates and the
    labels, are the rows of the query in order: program, professor, subject
    (the text [None] for a program or a subject that is absent) and the
    three counts in decimal. *)
Theorem exportar_reporte_por_profesor :
  ∀ (self : SistemaRegistroAsistencia) (ui : widgets) (w : mundo)
    (filas_reporte : list Reporte.fila),
    boton_reporte_profesor_pdf ui = true →
    (consulta_por_profesor (profesor_seleccionado ui) (fecha_inicio_profesor ui)
       (fecha_fin_profesor ui) w).1 = Normal filas_reporte →
    filas_reporte ≠ [] →
    ∃ pdf : FPDF.t,
      archivos (mostrar_reportes_detallados self ui w).2
        !! "reporte_asistencia_profesor.pdf" = Some pdf
      ∧ FPDF.orientation pdf = "L"
      ∧ renglones (FPDF.ops pdf) []
        = ["Reporte de Asistencia"]
          :: ["Fecha de Inicio: " +:+ isoformat (fecha_inicio_profesor ui)
                +:+ "   Fecha de Fin: " +:+ isoformat (fecha_fin_profesor ui)]
          :: []
          :: ["Carrera"; "Profesor"; "Materia"; "Total Clases"; "Clases Impartidas";
              "Clases Perdidas"]
          :: (textos <$> filas_reporte).
Proof.
  intros self ui w rep Hb Hq Hne.
  apply fetchall_Normal in Hq as (t & Ht & ->).
  set (rep := SELECT_reporte_profesor _ _ _ _) in *.
  set (doc := documento (Reporte.tupla <$> rep)
                ["Carrera"; "Profesor"; "Materia"; "Total Clases"; "Clases Impartidas";
                 "Clases Perdidas"]
                (PyDate (fecha_inicio_profesor ui)) (PyDate (fecha_fin_profesor ui))).
  assert (E1 : ∃ w1, pestana_profesor ui w = (Normal (), w1)
                     ∧ bd w1 = bd w
                     ∧ archivos w1 !! "reporte_asistencia_profesor.pdf" = Some doc).
  { unfold pestana_profesor, consulta_por_profesor, mbind, M_bind.
    rewrite Hb, (fetchall_eq _ _ _ Ht). fold rep.
    destruct rep as [|r rep'] eqn:Hrep; [done|]. cbn [no_vacia].
    rewrite generar_reporte_pdf_eq. eexists. split; [done|]. cbn [bd archivos].
    split; [done|]. apply lookup_insert_eq. }
  destruct E1 as (w1 & E1 & Hbd1 & Hdoc1).
  assert (Ht1 : asistencia (bd w1) = Some t) by (by rewrite Hbd1).
  destruct (pestana_materia_efecto ui w1 t Ht1) as (w2 & E2 & Hbd2 & _ & Harch2).
  assert (Ht2 : asistencia (bd w2) = Some t) by (by rewrite Hbd2).
  destruct (pestana_carrera_efecto ui w2 t Ht2) as (w3 & E3 & Hbd3 & _ & Harch3).
  assert (Hrun : mostrar_reportes_detallados self ui w = (Normal (), w3)).
  { unfold mostrar_reportes_detallados, mbind, M_bind. by rewrite E1, E2, E3. }
  rewrite Hrun. cbn [snd]. exists doc. split_and!.
  - destruct (Harch3 "reporte_asistencia_profesor.pdf") as [->|([=] & _)].
    destruct (Harch2 "reporte_asistencia_profesor.pdf") as [->|([=] & _)].
    done.
  - done.
  - unfold doc. rewrite renglones_documento. cbn [str]. do 4 f_equal.
    rewrite <- list_fmap_compose. apply list_fmap_ext. intros ? r _. apply textos_tupla.
Qed.
End documento.

(** ** A period that ends before it starts *)

Lemma lex_le_trans s t u : lex_le s t → lex_le t u → lex_le s u.
Proof.
  intros Hst. revert u. induction Hst as [s|a b s t Hab|a s t Hst IH]; intros u Htu.
  - constructor.
  - inversion Htu; subst.
    + apply lex_le_menor. by etrans.
    + by apply lex_le_menor.
  - inversion Htu; subst.
    + by apply lex_le_menor.
    + apply lex_le_igual. by apply IH.
Qed.

Lemma filter_ninguno {A} (P : A → Prop) `{!∀ x, Decision (P x)} (l : list A) :
  (∀ x, ¬ P x) → filter P l = [].
Proof.
  intros HP. induction l as [|x l IH]; [done|].
  rewrite filter_cons. by destruct (decide (P x)) as [?%HP|_].
Qed.

(** When the start date of a period is after its end date, both detailed
    queries return no row: no stored date text can lie between the two. *)
Theorem periodo_invertido_sin_renglones :
  ∀ (w : mundo) (t : tabla_asistencia) (P : string) (S : option string)
    (inicio fin : date),
    asistencia (bd w) = Some t →
    fecha_valida inicio → fecha_valida fin →
    cronologico inicio fin = Gt →
    consulta_por_profesor P inicio fin w = (Normal [], w)
    ∧ consulta_por_materia S inicio fin w = (Normal [], w).
Proof.
  intros w t P S inicio fin Ht Hi Hf Hgt.
  assert (Hno : ∀ r, ¬ BETWEEN (Asistencia.fecha r) (isoformat inicio) (isoformat fin)).
  { intros r [H1 H2]%BETWEEN_en_rango.
    pose proof (lex_le_trans _ _ _ H1 H2) as Hle.
    apply leb_lex_le, leb_compare in Hle.
    by rewrite isoformat_compare in Hle. }
  unfold consulta_por_profesor, consulta_por_materia.
  rewrite !(fetchall_eq _ _ _ Ht).
  unfold SELECT_reporte_profesor, SELECT_reporte_materia.
  rewrite !filter_ninguno; [done|..]; intros r [_ Hb]; by apply (Hno r).
Qed.

(** * Concrete runs *)

Section ejemplos.
#[local] Existing Instance plataforma_de_prueba.

(** The example of the specification: on an empty table, registering
    Dr. Smith for Calculus on 2024-01-10 and asking for January 2024 gives
    one row, without program, with one class given. *)
Example ejemplo_dr_smith :
  ((registrar_asistencia sistema_ejemplo "Dr. Smith" (Some "Calculus") None
      fecha_ejemplo "Sí";;
    consulta_por_profesor "Dr. Smith" {| year := 2024; month := 1; day := 1 |}
      {| year := 2024; month := 1; day := 31 |}) mundo_sin_registros).1
  = Normal [ {| Reporte.carrera := None; Reporte.profesor := "Dr. Smith";
                Reporte.materia := Some "Calculus"; Reporte.total_clases := 1;
                Reporte.clases_impartidas := 1; Reporte.clases_perdidas := 0 |} ].
Proof. reflexivity. Qed.

(** The first registration on a database that has no table [asistencia]
    yet: the table is created, the record gets the identifier 1 and the
    query that raised before now returns its row. *)
Example ejemplo_primera_vez :
  let w' := (registrar_asistencia sistema_ejemplo "Dr. Smith" (Some "Calculus") None
               fecha_ejemplo "Sí" mundo_sin_tabla).2 in
  (consulta_por_profesor "Dr. Smith" fecha_ejemplo fecha_ejemplo mundo_sin_tabla).1
  = Lanza no_such_table
  ∧ pantalla w' = [Registrada]
  ∧ Asistencia.id <$> registros (bd w') = [1%Z]
  ∧ (consulta_por_profesor "Dr. Smith" fecha_ejemplo fecha_ejemplo w').1
    = Normal [ {| Reporte.carrera := None; Reporte.profesor := "Dr. Smith";
                  Reporte.materia := Some "Calculus"; Reporte.total_clases := 1;
                  Reporte.clases_impartidas := 1; Reporte.clases_perdidas := 0 |} ].
Proof. by split_and!. Qed.

(** With the counter at the largest rowid the INSERT is refused: the call
    raises, shows no message and stores nothing. *)
Example ejemplo_tabla_llena :
  ¬ hay_lugar (bd mundo_lleno)
  ∧ registrar_asistencia sistema_ejemplo "Dr. Smith" (Some "Calculus") None
      fecha_ejemplo "Sí" mundo_lleno
    = (Lanza database_full, mundo_lleno).
Proof. split; [by intros [? _] | reflexivity]. Qed.

(** Dra. Luna is assigned Calculus and then Fisica: the roster keeps
    Fisica and refuses Calculus. *)
Example ejemplo_dra_luna :
  pantalla (registrar_asistencia sistema_ejemplo "Dra. Luna" (Some "Calculus") None
              fecha_ejemplo "Sí" mundo_ejemplo).2
  = [ SubjectMismatch "Dra. Luna" "Calculus" ].
Proof. reflexivity. Qed.

(** The page on a database without subjects: the subject widget returns
    [None], and under the sentinel the record is stored with a NULL subject
    and a NULL program.  Under a professor of a roster the same form is
    refused, and the message shows the text [None]. *)
Example ejemplo_sin_materia :
  let w' := (main entradas_sin_materia mundo_sin_materias).2 in
  (main entradas_sin_materia mundo_sin_materias).1 = Normal ()
  ∧ pantalla w' = [Registrada]
  ∧ registros (bd w')
    = [ {| Asistencia.id := 1; Asistencia.profesor := "Otro maestro";
           Asistencia.materia := None; Asistencia.carrera := None;
           Asistencia.fecha := "2024-01-10"; Asistencia.asistio := "Sí" |} ]
  ∧ pantalla (registrar_asistencia sistema_ejemplo "Dr. Smith" None None
                fecha_ejemplo "Sí" mundo_sin_registros).2
    = [ SubjectMismatch "Dr. Smith" "None" ].
Proof. by split_and!. Qed.

(** [generar_reporte_pdf] itself does not look at the number of rows: the
    check is made by its three callers. *)
Remark generar_reporte_pdf_sin_filas :
  archivos (generar_reporte_pdf [] ["Carrera"] (PyStr "N/A") (PyStr "N/A")
              "reporte.pdf" mundo_ejemplo).2 !! "reporte.pdf"
  = Some (documento [] ["Carrera"] (PyStr "N/A") (PyStr "N/A")).
Proof. reflexivity. Qed.

(** One run of the reports page on [mundo_ejemplo] with every button
    pressed: Dr. Smith has classes on the day asked for and the statistics
    are not empty, so both documents are written; no class of Fisica falls on
    that day, so that tab warns and writes nothing. *)
Example ejemplo_reportes :
  let w' := (mostrar_reportes_detallados sistema_ejemplo widgets_ejemplo mundo_ejemplo).2 in
  is_Some (archivos w' !! "reporte_asistencia_profesor.pdf")
  ∧ archivos w' !! "reporte_asistencia_materia.pdf" = None
  ∧ is_Some (archivos w' !! "reporte_global_carrera.pdf")
  ∧ aviso_materia ∈ pantalla w'.
Proof.
  vm_compute. split_and!; [by eexists | done | by eexists |].
  right. by left.
Qed.

Lemma hay_lugar_ejemplo : hay_lugar (bd mundo_ejemplo).
Proof. apply (bool_decide_unpack _). by vm_compute. Qed.

Lemma C1_testigo :
  (__init__ mundo_ejemplo).1 = Normal sistema_ejemplo
  ∧ PyDict.get (profesor_materia sistema_ejemplo) "Dr. Smith" = Some "Calculus"
  ∧ hay_lugar (bd mundo_ejemplo)
  ∧ (consulta_por_profesor "Dr. Smith" fecha_ejemplo fecha_ejemplo mundo_ejemplo).1
    = Normal reporte_ejemplo
  ∧ conteos (Some "ISC", "Dr. Smith", Some "Calculus") reporte_ejemplo = (2, 1, 1)
  ∧ ∃ (w' : mundo) (despues : list Reporte.fila),
      registrar_asistencia sistema_ejemplo "Dr. Smith" (Some "Calculus") (Some "ISC")
        fecha_ejemplo "Sí" mundo_ejemplo = (Normal (), w')
      ∧ mensaje_de mundo_ejemplo w' Registrada
      ∧ (consulta_por_profesor "Dr. Smith" fecha_ejemplo fecha_ejemplo w').1
        = Normal despues
      ∧ conteos (Some "ISC", "Dr. Smith", Some "Calculus") despues = (3, 2, 1).
Proof.
  split; [reflexivity|]. split; [reflexivity|]. split; [exact hay_lugar_ejemplo|].
  split; [reflexivity|]. split; [reflexivity|].
  destruct (C1_registrar_incrementa_conteos mundo_ejemplo sistema_ejemplo
              "Dr. Smith" "Calculus" (Some "ISC") fecha_ejemplo mundo_ejemplo
              eq_refl eq_refl hay_lugar_ejemplo)
    as (w' & despues & Hreg & Hmsg & Hq & Hantes & _).
  exists w', despues.
  split; [exact Hreg|]. split; [exact Hmsg|]. split; [exact Hq|].
  exact (Hantes reporte_ejemplo eq_refl).
Defined.

Lemma C2_testigo :
  hay_lugar (bd mundo_ejemplo)
  ∧ ∃ (w' : mundo) (id : Z),
      registrar_asistencia sistema_ejemplo Otro_maestro (Some "Optativa") None
        fecha_ejemplo "No" mundo_ejemplo = (Normal (), w')
      ∧ mensaje_de mundo_ejemplo w' Registrada
      ∧ registros (bd w')
        = (registros (bd mundo_ejemplo) ++
             [ {| Asistencia.id := id;
                  Asistencia.profesor := Otro_maestro;
                  Asistencia.materia := Some "Optativa";
                  Asistencia.carrera := None;
                  Asistencia.fecha := isoformat fecha_ejemplo;
                  Asistencia.asistio := "No" |} ])%list.
Proof.
  split; [exact hay_lugar_ejemplo|].
  exact (C2_otro_maestro_sin_validacion sistema_ejemplo (Some "Optativa") None
           fecha_ejemplo "No" mundo_ejemplo hay_lugar_ejemplo).
Defined.

Lemma C3_testigo :
  (__init__ mundo_ejemplo).1 = Normal sistema_ejemplo
  ∧ "Dr. Smith" ∈ profesores sistema_ejemplo
  ∧ "Dr. Smith" ≠ Otro_maestro
  ∧ ∃ asignada : string,
      PyDict.get (profesor_materia sistema_ejemplo) "Dr. Smith" = Some asignada
      ∧ ∀ (S : string) (c : option string) (d : date) (a : string) (w : mundo),
          mensaje_de w
            (registrar_asistencia sistema_ejemplo "Dr. Smith" (Some S) c d a w).2
            (SubjectMismatch "Dr. Smith" S)
          ↔ S ≠ asignada.
Proof.
  assert (Hin : "Dr. Smith" ∈ profesores sistema_ejemplo) by (by left).
  assert (Hne : "Dr. Smith" ≠ Otro_maestro) by done.
  split; [reflexivity|]. split; [exact Hin|]. split; [exact Hne|].
  exact (C3_rechazo_sii_materia_distinta mundo_ejemplo sistema_ejemplo
           "Dr. Smith" eq_refl Hin Hne).
Defined.

(** With the sentinel itself in the roster, assigned to Calculus, a
    registration for Fisica under that name is accepted: no
    subject-mismatch message, one more row. *)
Lemma C3_contraejemplo :
  (__init__ mundo_sentinela).1 = Normal sistema_sentinela
  ∧ Otro_maestro ∈ profesores sistema_sentinela
  ∧ PyDict.get (profesor_materia sistema_sentinela) Otro_maestro = Some "Calculus"
  ∧ "Fisica" ≠ "Calculus"
  ∧ registrar_asistencia sistema_sentinela Otro_maestro (Some "Fisica") None
      fecha_ejemplo "Sí" mundo_sentinela
    = (Normal (), tras_registrar mundo_sentinela Otro_maestro (Some "Fisica") None
                    fecha_ejemplo "Sí")
  ∧ ¬ mensaje_de mundo_sentinela
        (registrar_asistencia sistema_sentinela Otro_maestro (Some "Fisica") None
           fecha_ejemplo "Sí" mundo_sentinela).2
        (SubjectMismatch Otro_maestro "Fisica").
Proof.
  split_and!; [reflexivity | by left | reflexivity | done | reflexivity |].
  intros Hm. vm_compute in Hm. discriminate Hm.
Qed.

Lemma C4_testigo :
  "Nadie" ≠ Otro_maestro
  ∧ ("Nadie" ∉ profesores sistema_ejemplo)
  ∧ ∃ w' : mundo,
      registrar_asistencia sistema_ejemplo "Nadie" (Some "Calculus") None
        fecha_ejemplo "Sí" mundo_ejemplo = (Normal (), w')
      ∧ mensaje_de mundo_ejemplo w' UnknownProfessor.
Proof.
  assert (Hne : "Nadie" ≠ Otro_maestro) by done.
  assert (Hnin : "Nadie" ∉ profesores sistema_ejemplo).
  { intros Hin. repeat (apply elem_of_cons in Hin as [?|Hin]; [done|]).
    by apply elem_of_nil in Hin. }
  split; [exact Hne|]. split; [exact Hnin|].
  exact (C4_profesor_desconocido sistema_ejemplo "Nadie" (Some "Calculus") None
           fecha_ejemplo "Sí" mundo_ejemplo Hne Hnin).
Defined.

Lemma C5_testigo :
  registrar_asistencia sistema_ejemplo "Dra. Luna" (Some "Calculus") None
    fecha_ejemplo "Sí" mundo_ejemplo
  = (Normal (), con_mensaje mundo_ejemplo (SubjectMismatch "Dra. Luna" "Calculus"))
  ∧ (mensaje_de mundo_ejemplo
       (con_mensaje mundo_ejemplo (SubjectMismatch "Dra. Luna" "Calculus"))
       UnknownProfessor
     ∨ mensaje_de mundo_ejemplo
         (con_mensaje mundo_ejemplo (SubjectMismatch "Dra. Luna" "Calculus"))
         (SubjectMismatch "Dra. Luna" "Calculus"))
  ∧ bd (con_mensaje mundo_ejemplo (SubjectMismatch "Dra. Luna" "Calculus"))
    = bd mundo_ejemplo
  ∧ archivos (con_mensaje mundo_ejemplo (SubjectMismatch "Dra. Luna" "Calculus"))
    = archivos mundo_ejemplo.
Proof.
  split; [reflexivity|]. split; [right; reflexivity|].
  exact (C5_rechazo_no_cambia_estado sistema_ejemplo "Dra. Luna" (Some "Calculus") None
           fecha_ejemplo "Sí" mundo_ejemplo (Normal ())
           (con_mensaje mundo_ejemplo (SubjectMismatch "Dra. Luna" "Calculus"))
           eq_refl (or_intror eq_refl)).
Defined.

Lemma C6_testigo :
  asistencia (bd mundo_ejemplo) = Some {| filas := filas_ejemplo; secuencia := 3 |}
  ∧ ∃ estadisticas : list Estadistica.fila,
      consulta_global_por_carrera mundo_ejemplo = (Normal estadisticas, mundo_ejemplo)
      ∧ filter (λ e, Estadistica.carrera e = Some "ISC") estadisticas
        = [ {| Estadistica.carrera := Some "ISC";
               Estadistica.total_clases := 2;
               Estadistica.tasa_cumplimiento :=
                 ROUND (100 * REAL_of_INTEGER 1 / REAL_of_INTEGER 2)%float 2 |} ].
Proof.
  split; [reflexivity|].
  exact (C6_tasa_de_cumplimiento mundo_ejemplo
           {| filas := filas_ejemplo; secuencia := 3 |} (Some "ISC") eq_refl).
Defined.

Lemma C7_testigo :
  let w := mundo_ejemplo in
  let t := {| filas := filas_ejemplo; secuencia := 3 |} in
  let nombre := "Dr. Smith" in
  let inicio := fecha_ejemplo in
  let fin := fecha_ejemplo in
  asistencia (bd w) = Some t
  ∧ ∃ por_profesor por_materia : list Reporte.fila,
      consulta_por_profesor nombre inicio fin w = (Normal por_profesor, w)
      ∧ consulta_por_materia (Some nombre) inicio fin w = (Normal por_materia, w)
      ∧ ∀ k : option string * string * option string,
          conteos k por_profesor
          = cuentas (λ r, clave_reporte r = k ∧ Asistencia.profesor r = nombre
                          ∧ en_rango (isoformat inicio) (isoformat fin) r) (filas t)
          ∧ (is_Some (fila_de_grupo k por_profesor)
             ↔ ∃ r, r ∈ filas t ∧ clave_reporte r = k ∧ Asistencia.profesor r = nombre
                    ∧ en_rango (isoformat inicio) (isoformat fin) r)
          ∧ conteos k por_materia
            = cuentas (λ r, clave_reporte r = k ∧ Asistencia.materia r = Some nombre
                            ∧ en_rango (isoformat inicio) (isoformat fin) r) (filas t)
          ∧ (is_Some (fila_de_grupo k por_materia)
             ↔ ∃ r, r ∈ filas t ∧ clave_reporte r = k
                    ∧ Asistencia.materia r = Some nombre
                    ∧ en_rango (isoformat inicio) (isoformat fin) r).
Proof.
  intros w t nombre inicio fin. split; [reflexivity|].
  exact (C7_consultas_filtran_por_nombre_y_rango w t nombre inicio fin eq_refl).
Defined.

Lemma C8_testigo :
  let ui := widgets_ejemplo in
  let w := mundo_sin_registros in
  let t := {| filas := []; secuencia := 3 |} in
  asistencia (bd w) = Some t
  ∧ ∃ (w' : mundo) (mensajes : list st_evento),
      mostrar_reportes_detallados sistema_ejemplo ui w = (Normal (), w')
      ∧ pantalla w' = (pantalla w ++ mensajes)%list
      ∧ (aviso_profesor ∈ mensajes
         ∧ archivos w' !! "reporte_asistencia_profesor.pdf"
           = archivos w !! "reporte_asistencia_profesor.pdf")
      ∧ (aviso_materia ∈ mensajes
         ∧ archivos w' !! "reporte_asistencia_materia.pdf"
           = archivos w !! "reporte_asistencia_materia.pdf")
      ∧ (aviso_carrera ∈ mensajes
         ∧ archivos w' !! "reporte_global_carrera.pdf"
           = archivos w !! "reporte_global_carrera.pdf").
Proof.
  intros ui w t. split; [reflexivity|].
  destruct (C8_sin_filas_no_se_genera_documento sistema_ejemplo ui w t eq_refl)
    as (w' & mensajes & Hrun & Hpant & Hprof & Hmat & Hcar & _).
  exists w', mensajes.
  split; [exact Hrun|]. split; [exact Hpant|].
  split; [exact (Hprof I eq_refl)|]. split; [exact (Hmat I eq_refl)|].
  exact (Hcar I eq_refl).
Defined.

Lemma C9_testigo :
  eliminar_registros mundo_ejemplo = (Normal (), mundo_sin_registros)
  ∧ consulta_por_profesor "Dr. Smith" fecha_ejemplo fecha_ejemplo mundo_sin_registros
    = (Normal [], mundo_sin_registros)
  ∧ consulta_por_materia (Some "Calculus") fecha_ejemplo fecha_ejemplo
      mundo_sin_registros
    = (Normal [], mundo_sin_registros)
  ∧ consulta_global_por_carrera mundo_sin_registros = (Normal [], mundo_sin_registros).
Proof.
  split; [reflexivity|].
  exact (C9_tras_eliminar_consultas_vacias mundo_ejemplo mundo_sin_registros
           "Dr. Smith" (Some "Calculus") fecha_ejemplo fecha_ejemplo eq_refl).
Defined.

Lemma C10_testigo :
  let antes := [("Dr. Smith", "Calculus"); ("Dra. Luna", "Calculus")] in
  let despues : list (string * string) := [] in
  (__init__ mundo_ejemplo).1 = Normal sistema_ejemplo
  ∧ SELECT_profesor_materia (bd mundo_ejemplo)
    = (antes ++ ("Dra. Luna", "Fisica") :: despues)%list
  ∧ ("Dra. Luna" ∉ despues.*1)
  ∧ profesores sistema_ejemplo = PyDict.keys (profesor_materia sistema_ejemplo)
  ∧ NoDup (profesores sistema_ejemplo)
  ∧ (∀ q, q ∈ profesores sistema_ejemplo
          ↔ is_Some (PyDict.get (profesor_materia sistema_ejemplo) q))
  ∧ (∀ q, q ∈ profesores sistema_ejemplo
          ↔ q ∈ (SELECT_profesor_materia (bd mundo_ejemplo)).*1)
  ∧ PyDict.get (profesor_materia sistema_ejemplo) "Dra. Luna" = Some "Fisica".
Proof.
  intros antes despues.
  assert (Hd : "Dra. Luna" ∉ despues.*1) by apply not_elem_of_nil.
  split; [reflexivity|]. split; [reflexivity|]. split; [exact Hd|].
  exact (C10_profesores_son_las_claves mundo_ejemplo sistema_ejemplo antes
           "Dra. Luna" "Fisica" despues eq_refl eq_refl Hd).
Defined.

Lemma fecha_ejemplo_valida : fecha_valida fecha_ejemplo.
Proof. unfold fecha_valida. cbn. lia. Qed.

Lemma primero_de_enero_valida : fecha_valida primero_de_enero.
Proof. unfold fecha_valida. cbn. lia. Qed.

Lemma fin_de_enero_valida : fecha_valida fin_de_enero.
Proof. unfold fecha_valida. cbn. lia. Qed.

Lemma numeracion_correcta_ejemplo : numeracion_correcta (bd mundo_ejemplo).
Proof.
  split.
  - apply (bool_decide_unpack _). by vm_compute.
  - intros r Hr. cbn in Hr.
    repeat (apply elem_of_cons in Hr as [->|Hr]; [cbn; lia|]).
    by apply elem_of_nil in Hr.
Qed.

Lemma asistio_si_o_no_ejemplo : asistio_si_o_no (registros (bd mundo_ejemplo)).
Proof.
  intros r Hr. cbn in Hr.
  repeat (apply elem_of_cons in Hr as [->|Hr]; [cbn; auto|]).
  by apply elem_of_nil in Hr.
Qed.

Lemma isoformat_conserva_orden_testigo :
  fecha_valida primero_de_enero
  ∧ fecha_valida fecha_ejemplo
  ∧ String.length (isoformat primero_de_enero) = 10
  ∧ String.compare (isoformat primero_de_enero) (isoformat fecha_ejemplo)
    = cronologico primero_de_enero fecha_ejemplo
  ∧ (lex_le (isoformat primero_de_enero) (isoformat fecha_ejemplo)
     ↔ cronologico primero_de_enero fecha_ejemplo ≠ Gt)
  ∧ (isoformat primero_de_enero = isoformat fecha_ejemplo
     → primero_de_enero = fecha_ejemplo).
Proof.
  split; [exact primero_de_enero_valida|]. split; [exact fecha_ejemplo_valida|].
  exact (isoformat_conserva_orden primero_de_enero fecha_ejemplo
           primero_de_enero_valida fecha_ejemplo_valida).
Defined.

Lemma registrar_y_consultar_periodo_testigo :
  let self := sistema_ejemplo in
  let P := "Dr. Smith" in
  let S := "Calculus" in
  let c := Some "ISC" in
  let d := fecha_ejemplo in
  let a := "No" in
  let w := mundo_ejemplo in
  let inicio := primero_de_enero in
  let fin := fin_de_enero in
  registro_valido self P (Some S)
  ∧ hay_lugar (bd w)
  ∧ fecha_valida d ∧ fecha_valida inicio ∧ fecha_valida fin
  ∧ ∃ (w' : mundo) (despues_p despues_m : list Reporte.fila),
      registrar_asistencia self P (Some S) c d a w = (Normal (), w')
      ∧ (consulta_por_profesor P inicio fin w').1 = Normal despues_p
      ∧ (consulta_por_materia (Some S) inicio fin w').1 = Normal despues_m
      ∧ ∀ k : option string * string * option string,
          (∀ antes_p antes_m : list Reporte.fila,
             (consulta_por_profesor P inicio fin w).1 = Normal antes_p →
             (consulta_por_materia (Some S) inicio fin w).1 = Normal antes_m →
             conteos k despues_p
             = (if decide (k = (c, P, Some S) ∧ en_periodo inicio fin d)
                then sumar_registro a (conteos k antes_p) else conteos k antes_p)
             ∧ conteos k despues_m
               = (if decide (k = (c, P, Some S) ∧ en_periodo inicio fin d)
                  then sumar_registro a (conteos k antes_m) else conteos k antes_m))
          ∧ (asistencia (bd w) = None →
             conteos k despues_p
             = (if decide (k = (c, P, Some S) ∧ en_periodo inicio fin d)
                then sumar_registro a (0, 0, 0) else (0, 0, 0))
             ∧ conteos k despues_m = conteos k despues_p).
Proof.
  intros self P S c d a w inicio fin.
  assert (Hval : registro_valido self P (Some S)).
  { right. split; [by left | reflexivity]. }
  split; [exact Hval|]. split; [exact hay_lugar_ejemplo|].
  split; [exact fecha_ejemplo_valida|]. split; [exact primero_de_enero_valida|].
  split; [exact fin_de_enero_valida|].
  exact (registrar_y_consultar_periodo self P S c d a w inicio fin Hval
           hay_lugar_ejemplo fecha_ejemplo_valida primero_de_enero_valida
           fin_de_enero_valida).
Defined.

Lemma reportes_un_renglon_por_grupo_testigo :
  let w := mundo_ejemplo in
  let P := "Dr. Smith" in
  let S := Some "Calculus" in
  let inicio := fecha_ejemplo in
  let fin := fecha_ejemplo in
  let por_profesor := reporte_ejemplo in
  let por_materia := reporte_ejemplo in
  let estadisticas := SELECT_estadisticas filas_ejemplo in
  (consulta_por_profesor P inicio fin w).1 = Normal por_profesor
  ∧ (consulta_por_materia S inicio fin w).1 = Normal por_materia
  ∧ consulta_global_por_carrera w = (Normal estadisticas, w)
  ∧ NoDup (Reporte.clave <$> por_profesor)
  ∧ NoDup (Reporte.clave <$> por_materia)
  ∧ NoDup (Estadistica.carrera <$> estadisticas)
  ∧ (∀ fila, fila ∈ por_profesor →
       Reporte.profesor fila = P ∧ (1 ≤ Reporte.total_clases fila)%nat)
  ∧ (∀ fila, fila ∈ por_materia →
       Reporte.materia fila = S ∧ is_Some S
       ∧ (1 ≤ Reporte.total_clases fila)%nat)
  ∧ (∀ fila, fila ∈ estadisticas → (1 ≤ Estadistica.total_clases fila)%nat).
Proof.
  intros w P S inicio fin por_profesor por_materia estadisticas.
  split; [reflexivity|]. split; [reflexivity|]. split; [reflexivity|].
  exact (reportes_un_renglon_por_grupo w P S inicio fin por_profesor por_materia
           estadisticas eq_refl eq_refl eq_refl).
Defined.

Lemma reportes_totales_suman_testigo :
  let w := mundo_ejemplo in
  let P := "Dr. Smith" in
  let S := "Calculus" in
  let inicio := fecha_ejemplo in
  let fin := fecha_ejemplo in
  let por_profesor := reporte_ejemplo in
  let por_materia := reporte_ejemplo in
  let estadisticas := SELECT_estadisticas filas_ejemplo in
  (consulta_por_profesor P inicio fin w).1 = Normal por_profesor
  ∧ (consulta_por_materia (Some S) inicio fin w).1 = Normal por_materia
  ∧ consulta_global_por_carrera w = (Normal estadisticas, w)
  ∧ sum_list (Reporte.total_clases <$> por_profesor)
    = length (filter (λ r, Asistencia.profesor r = P
                           ∧ en_rango (isoformat inicio) (isoformat fin) r)
                (registros (bd w)))
  ∧ sum_list (Reporte.total_clases <$> por_materia)
    = length (filter (λ r, Asistencia.materia r = Some S
                           ∧ en_rango (isoformat inicio) (isoformat fin) r)
                (registros (bd w)))
  ∧ sum_list (Estadistica.total_clases <$> estadisticas)
    = length (registros (bd w)).
Proof.
  intros w P S inicio fin por_profesor por_materia estadisticas.
  split; [reflexivity|]. split; [reflexivity|]. split; [reflexivity|].
  exact (reportes_totales_suman w P S inicio fin por_profesor por_materia
           estadisticas eq_refl eq_refl eq_refl).
Defined.

Lemma reportes_impartidas_mas_perdidas_testigo :
  let w := mundo_ejemplo in
  let P := "Dr. Smith" in
  let S := Some "Calculus" in
  let inicio := fecha_ejemplo in
  let fin := fecha_ejemplo in
  let por_profesor := reporte_ejemplo in
  let por_materia := reporte_ejemplo in
  let fila :=
    {| Reporte.carrera := Some "ISC"; Reporte.profesor := "Dr. Smith";
       Reporte.materia := Some "Calculus"; Reporte.total_clases := 2;
       Reporte.clases_impartidas := 1; Reporte.clases_perdidas := 1 |} in
  (consulta_por_profesor P inicio fin w).1 = Normal por_profesor
  ∧ (consulta_por_materia S inicio fin w).1 = Normal por_materia
  ∧ (fila ∈ por_profesor ∨ fila ∈ por_materia)
  ∧ (Reporte.clases_impartidas fila + Reporte.clases_perdidas fila
     ≤ Reporte.total_clases fila)%nat
  ∧ (asistio_si_o_no (registros (bd w)) →
     Reporte.clases_impartidas fila + Reporte.clases_perdidas fila
     = Reporte.total_clases fila).
Proof.
  intros w P S inicio fin por_profesor por_materia fila.
  assert (Hfila : fila ∈ por_profesor ∨ fila ∈ por_materia) by (left; by left).
  split; [reflexivity|]. split; [reflexivity|]. split; [exact Hfila|].
  exact (reportes_impartidas_mas_perdidas w P S inicio fin por_profesor por_materia
           fila eq_refl eq_refl Hfila).
Defined.

Lemma identificadores_nunca_se_repiten_testigo :
  let self := sistema_ejemplo in
  let P := "Dr. Smith" in
  let S := Some "Calculus" in
  let c := Some "ISC" in
  let d := fecha_ejemplo in
  let a := "Sí" in
  let w := mundo_ejemplo in
  numeracion_correcta (bd w)
  ∧ numeracion_correcta (bd (registrar_asistencia self P S c d a w).2)
  ∧ (contador (bd w) ≤ contador (bd (registrar_asistencia self P S c d a w).2))%Z
  ∧ (∀ r, r ∈ registros (bd (registrar_asistencia self P S c d a w).2) →
       r ∈ registros (bd w) ∨ (contador (bd w) < Asistencia.id r)%Z)
  ∧ numeracion_correcta (bd (eliminar_registros w).2)
  ∧ contador (bd (eliminar_registros w).2) = contador (bd w).
Proof.
  intros self P S c d a w. split; [exact numeracion_correcta_ejemplo|].
  exact (identificadores_nunca_se_repiten self P S c d a w numeracion_correcta_ejemplo).
Defined.

Lemma sin_tabla_todo_lanza_testigo :
  let self := sistema_ejemplo in
  let ui := widgets_ejemplo in
  let w := mundo_sin_tabla in
  let P := "Dr. Smith" in
  let S := Some "Calculus" in
  let inicio := fecha_ejemplo in
  let fin := fecha_ejemplo in
  asistencia (bd w) = None
  ∧ eliminar_registros w = (Lanza no_such_table, w)
  ∧ consulta_por_profesor P inicio fin w = (Lanza no_such_table, w)
  ∧ consulta_por_materia S inicio fin w = (Lanza no_such_table, w)
  ∧ consulta_global_por_carrera w = (Lanza no_such_table, w)
  ∧ mostrar_reportes_detallados self ui w = (Lanza no_such_table, w).
Proof.
  intros self ui w P S inicio fin. split; [reflexivity|].
  exact (sin_tabla_todo_lanza self ui w P S inicio fin eq_refl).
Defined.

Lemma roster_es_la_union_de_las_tablas_testigo :
  let w := mundo_ejemplo in
  let self := sistema_ejemplo in
  (__init__ w).1 = Normal self
  ∧ (__init__ w).2 = w
  ∧ materias self = (tabla_materias (bd w)).*2
  ∧ carreras self = tabla_carreras (bd w)
  ∧ (∀ p : string,
       p ∈ profesores self
       ↔ ∃ (pid mid : Z) (m : string),
           (pid, mid) ∈ tabla_profesor_materia (bd w)
           ∧ (pid, p) ∈ tabla_profesores (bd w)
           ∧ (mid, m) ∈ tabla_materias (bd w))
  ∧ (∀ p m : string,
       PyDict.get (profesor_materia self) p = Some m →
       ∃ pid mid : Z,
         (pid, mid) ∈ tabla_profesor_materia (bd w)
         ∧ (pid, p) ∈ tabla_profesores (bd w)
         ∧ (mid, m) ∈ tabla_materias (bd w))
  ∧ (∀ (p : string) (S c : option string) (d : date) (a : string) (w1 : mundo),
       p ≠ Otro_maestro →
       (∀ pid mid : Z, (pid, p) ∈ tabla_profesores (bd w) →
                       (pid, mid) ∉ tabla_profesor_materia (bd w)) →
       registrar_asistencia self p S c d a w1
       = (Normal (), con_mensaje w1 UnknownProfessor)).
Proof.
  intros w self. split; [reflexivity|].
  exact (roster_es_la_union_de_las_tablas w self eq_refl).
Defined.

Lemma main_nunca_profesor_desconocido_testigo :
  let e := entradas_ejemplo in
  let w := mundo_ejemplo in
  let sistema := sistema_ejemplo in
  (__init__ w).1 = Normal sistema
  ∧ Pagina.profesor e ∈ Otro_maestro :: profesores sistema
  ∧ Pagina.opcion e = "Registrar Asistencia"
  ∧ Pagina.boton_Registrar e = true
  ∧ ¬ mensaje_de w (main e w).2 UnknownProfessor
  ∧ (registro_valido sistema (Pagina.profesor e) (Pagina.materia e) →
     hay_lugar (bd w) →
     (main e w).1 = Normal () ∧ mensaje_de w (main e w).2 Registrada)
  ∧ (registro_valido sistema (Pagina.profesor e) (Pagina.materia e) →
     ¬ hay_lugar (bd w) →
     main e w = (Lanza database_full, w))
  ∧ (¬ registro_valido sistema (Pagina.profesor e) (Pagina.materia e) →
     (main e w).1 = Normal ()
     ∧ mensaje_de w (main e w).2
         (SubjectMismatch (Pagina.profesor e) (str_o (Pagina.materia e))))
  ∧ (∀ P S : string, SubjectMismatch P S ≠ UnknownProfessor).
Proof.
  intros e w sistema.
  assert (Hprof : Pagina.profesor e ∈ Otro_maestro :: profesores sistema).
  { right; right; by left. }
  split; [reflexivity|]. split; [exact Hprof|].
  split; [reflexivity|]. split; [reflexivity|].
  exact (main_nunca_profesor_desconocido e w sistema eq_refl Hprof eq_refl eq_refl).
Defined.

Lemma main_conserva_si_o_no_testigo :
  Pagina.asistio entradas_ejemplo ∈ ["Sí"; "No"]
  ∧ asistio_si_o_no (registros (bd mundo_ejemplo))
  ∧ asistio_si_o_no (registros (bd (main entradas_ejemplo mundo_ejemplo).2)).
Proof.
  assert (Hradio : Pagina.asistio entradas_ejemplo ∈ ["Sí"; "No"]).
  { right; by left. }
  split; [exact Hradio|]. split; [exact asistio_si_o_no_ejemplo|].
  exact (main_conserva_si_o_no entradas_ejemplo mundo_ejemplo Hradio
           asistio_si_o_no_ejemplo).
Defined.

Lemma generar_reporte_pdf_escribe_los_datos_testigo :
  let datos := Reporte.tupla <$> reporte_ejemplo in
  let columnas := ["Carrera"; "Profesor"; "Materia"; "Total"; "Si"; "No"] in
  let w := mundo_ejemplo in
  let w' := (generar_reporte_pdf datos columnas (PyStr "N/A") (PyDate fecha_ejemplo)
               "reporte.pdf" w).2 in
  generar_reporte_pdf datos columnas (PyStr "N/A") (PyDate fecha_ejemplo)
    "reporte.pdf" w = (Normal (), w')
  ∧ ∃ pdf : FPDF.t,
      archivos w' !! "reporte.pdf" = Some pdf
      ∧ FPDF.orientation pdf = "L"
      ∧ renglones (FPDF.ops pdf) []
        = ["Reporte de Asistencia"]
          :: ["Fecha de Inicio: " +:+ str (PyStr "N/A") +:+ "   Fecha de Fin: "
                +:+ str (PyDate fecha_ejemplo)]
          :: []
          :: columnas
          :: ((λ fila : list py_obj, str <$> fila) <$> datos).
Proof.
  intros datos columnas w w'. split; [reflexivity|].
  exact (generar_reporte_pdf_escribe_los_datos datos columnas (PyStr "N/A")
           (PyDate fecha_ejemplo) "reporte.pdf" w w' eq_refl).
Defined.

Lemma exportar_reporte_por_profesor_testigo :
  let self := sistema_ejemplo in
  let ui := widgets_ejemplo in
  let w := mundo_ejemplo in
  let filas_reporte := reporte_ejemplo in
  boton_reporte_profesor_pdf ui = true
  ∧ (consulta_por_profesor (profesor_seleccionado ui) (fecha_inicio_profesor ui)
       (fecha_fin_profesor ui) w).1 = Normal filas_reporte
  ∧ filas_reporte ≠ []
  ∧ ∃ pdf : FPDF.t,
      archivos (mostrar_reportes_detallados self ui w).2
        !! "reporte_asistencia_profesor.pdf" = Some pdf
      ∧ FPDF.orientation pdf = "L"
      ∧ renglones (FPDF.ops pdf) []
        = ["Reporte de Asistencia"]
          :: ["Fecha de Inicio: " +:+ isoformat (fecha_inicio_profesor ui)
                +:+ "   Fecha de Fin: " +:+ isoformat (fecha_fin_profesor ui)]
          :: []
          :: ["Carrera"; "Profesor"; "Materia"; "Total Clases"; "Clases Impartidas";
              "Clases Perdidas"]
          :: (textos <$> filas_reporte).
Proof.
  intros self ui w filas_reporte.
  assert (Hne : filas_reporte ≠ []) by done.
  split; [reflexivity|]. split; [reflexivity|]. split; [exact Hne|].
  exact (exportar_reporte_por_profesor self ui w filas_reporte eq_refl eq_refl Hne).
Defined.

Lemma periodo_invertido_sin_renglones_testigo :
  let w := mundo_ejemplo in
  let t := {| filas := filas_ejemplo; secuencia := 3 |} in
  let P := "Dr. Smith" in
  let S := Some "Calculus" in
  let inicio := fin_de_enero in
  let fin := primero_de_enero in
  asistencia (bd w) = Some t
  ∧ fecha_valida inicio ∧ fecha_valida fin
  ∧ cronologico inicio fin = Gt
  ∧ consulta_por_profesor P inicio fin w = (Normal [], w)
  ∧ consulta_por_materia S inicio fin w = (Normal [], w).
Proof.
  intros w t P S inicio fin. split; [reflexivity|].
  split; [exact fin_de_enero_valida|]. split; [exact primero_de_enero_valida|].
  split; [reflexivity|].
  exact (periodo_invertido_sin_renglones w t P S inicio fin eq_refl
           fin_de_enero_valida primero_de_enero_valida eq_refl).
Defined.
End ejemplos.
